(** * Payment settlement protocol of the top-up storefront

    A shallow embedding of the three pieces of the repository that carry the
    payment protocol:

    - [VerifyEndpoint]: the [/api/verify-payment] edge function, which relays
      a settlement check to the payment switch behind a retry loop;
    - [Sweep]: the scheduled reconciliation job, with its Telegram sender and
      its message queue;
    - [PaymentModal]: the React payment dialog (price re-check, token
      storage, settlement polling);
    - [QrIssuance]: the rest of the payment dialog's state, the issuance
      of the QR code, its countdown and expiry, and the callbacks of the
      dialog as actions that interleave;
    - [OrderLookup]: the order lookup dialog.

    Network peers (the payment switch, Telegram, the hosted database) are
    modelled as oracles: for every call the environment supplies an outcome,
    and the code is a function of these outcomes.  Every effect the code
    performs is appended, in program order, to an event log. *)

From Stdlib Require Import Floats.PrimFloat.
From Stdlib Require Floats.FloatAxioms Floats.SpecFloat Floats.FloatOps.
From Stdlib Require Import ZArith List Ascii String Bool Lia Permutation DecimalString.
Import ListNotations.

Set Warnings "-inexact-float,-register-all".

(** ** JavaScript values

    Numbers are IEEE binary64, as in the language.  [undefined] is the
    absence of a value ([None] in an [option value]). *)
Module Js.

Inductive value : Type :=
| Null
| Bool (b : bool)
| Num (x : float)
| Str (s : string)
| Arr (items : list value)
| Obj (fields : list (string * value)).

Fixpoint assoc (key : string) (fields : list (string * value)) : option value :=
  match fields with
  | [] => None
  | (k, v) :: rest => if String.eqb k key then Some v else assoc key rest
  end.

(** The result of the member access [data.key]: reading a property of
    [null] throws a TypeError, a primitive or an array has no such
    property. *)
Inductive access : Type :=
| Throws
| Got (v : option value).

Definition get (data : value) (key : string) : access :=
  match data with
  | Null => Throws
  | Obj fields => Got (assoc key fields)
  | _ => Got None
  end.

(** [v === n] for a number literal [n]. *)
Definition strict_eq_num (v : option value) (n : float) : bool :=
  match v with
  | Some (Num x) => PrimFloat.eqb x n
  | _ => false
  end.

(** ToBoolean. *)
Definition truthy (v : option value) : bool :=
  match v with
  | None | Some Null => false
  | Some (Bool b) => b
  | Some (Num x) => negb (PrimFloat.eqb x 0 || negb (PrimFloat.eqb x x))
  | Some (Str s) => negb (String.eqb s "")
  | Some (Arr _) | Some (Obj _) => true
  end.

(** [JSON.parse(JSON.stringify(v))] for a value [v] that was itself
    decoded from JSON: what a reader decodes from the text written for
    [v].  A number that is not finite is written as [null] and -0 as [0];
    every other value is read back as it was. *)
Fixpoint through_json (v : value) : value :=
  match v with
  | Num x =>
    if PrimFloat.is_finite x
    then Num (if PrimFloat.eqb x 0 then 0%float else x)
    else Null
  | Arr items => Arr (map through_json items)
  | Obj fields => Obj (map (fun kv => (fst kv, through_json (snd kv))) fields)
  | _ => v
  end.

End Js.

(** ** [Math.round] on binary64

    [Math.floor] through the 2^52 trick (an integer, a zero of either sign
    included, is its own floor), [Math.ceil] by symmetry, and [Math.round]
    as the nearest integer with ties towards +infinity. *)
Module JsMath.

Local Open Scope float_scope.

Definition two52 : float := 4503599627370496.

Definition floor (x : float) : float :=
  if abs x <? two52 then
    let t := if 0 <=? x then (x + two52) - two52 else (x - two52) + two52 in
    if x <? t then t - 1 else if t =? x then x else t
  else x.

Definition ceil (x : float) : float := - floor (- x).

Definition round (x : float) : float :=
  let c := ceil x in
  if x <? c - 0.5 then c - 1 else c.

End JsMath.

(** ** The outcome of one HTTP exchange with the payment switch

    [fetch] either rejects (connection error) or resolves with a status and
    a body; [json] is [None] when [response.json()] rejects because the body
    is not JSON. *)
Inductive FetchOutcome : Type :=
| FetchRejected
| FetchResponded (status : Z) (json : option Js.value).

(** [response.ok] *)
Definition status_ok (status : Z) : bool :=
  ((200 <=? status) && (status <=? 299))%Z.

(** ** The verify-payment endpoint *)
Module VerifyEndpoint.

Record Request : Type := {
  method : string;
  (** [await request.json()]; [None] when it rejects. *)
  body : option Js.value
}.

Record Response : Type := {
  status : Z;
  headers : list (string * string);
  (** The body, as the value a reader decodes from its text; [None] is the
      empty body. *)
  payload : option Js.value
}.

Inductive Event : Type :=
| EFetchSwitch (md5 : option Js.value)
| ESleep (ms : Z)
| EAttemptFailed (attempt : nat)
| EHandlerFailed.

Definition maxAttempts : nat := 3.
Definition retryDelay : Z := 1000.

Definition json_headers : list (string * string) :=
  [("Content-Type", "application/json")]%string.

Definition json_response (st : Z) (data : Js.value) : Response :=
  {| status := st; headers := json_headers; payload := Some data |}.

(** [new Response(JSON.stringify(data), { status, headers })] for the
    decoded body [data] of the switch's answer: the caller reads the text
    written for [data], not [data] itself. *)
Definition relayed_response (st : Z) (data : Js.value) : Response :=
  json_response st (Js.through_json data).

Definition preflight_response : Response :=
  {| status := 200;
     headers := [("Access-Control-Allow-Origin", "*");
                 ("Access-Control-Allow-Methods", "POST, OPTIONS");
                 ("Access-Control-Allow-Headers", "Content-Type")]%string;
     payload := None |}.

Definition method_not_allowed : Response :=
  json_response 405 (Js.Obj [("error", Js.Str "Method not allowed")]%string).

(** [{ error: msg, responseCode: 1 }] with status 500. *)
Definition failure_response (msg : string) : Response :=
  json_response 500
    (Js.Obj [("error", Js.Str msg); ("responseCode", Js.Num 1)]%string).

Definition exhausted_message : string :=
  "Failed to verify payment after multiple attempts".
Definition escaped_message : string := "Failed to verify payment".

(** [attempts++] followed by the conditional delay. *)
Definition pause_after (attempts' : nat) (log : list Event) : list Event :=
  if attempts' <? maxAttempts then log ++ [ESleep retryDelay] else log.

(** The [while (attempts < maxAttempts)] loop.  [net k] is the outcome of
    the fetch issued when [attempts = k].  [None] only when [fuel] runs
    out. *)
Fixpoint retry_loop (fuel : nat) (net : nat -> FetchOutcome)
    (md5 : option Js.value) (attempts : nat) (log : list Event)
  : option (Response * list Event) :=
  if attempts <? maxAttempts then
    match fuel with
    | O => None
    | S fuel' =>
      let log1 := log ++ [EFetchSwitch md5] in
      match net attempts with
      | FetchResponded st (Some data) =>
        if status_ok st then Some (relayed_response 200 data, log1)
        else if ((400 <=? st) && (st <? 500))%Z then
          Some (relayed_response st data, log1)
        else
          retry_loop fuel' net md5 (S attempts) (pause_after (S attempts) log1)
      | FetchResponded _ None
      | FetchRejected =>
        (* the inner catch *)
        let log2 := log1 ++ [EAttemptFailed (attempts + 1)] in
        retry_loop fuel' net md5 (S attempts) (pause_after (S attempts) log2)
      end
    end
  else Some (failure_response exhausted_message, log).

(** [const { md5 } = await request.json()]: [None] when this throws. *)
Definition read_md5 (request : Request) : option (option Js.value) :=
  match body request with
  | None => None
  | Some data =>
    match Js.get data "md5" with
    | Js.Throws => None
    | Js.Got v => Some v
    end
  end.

Definition handler (net : nat -> FetchOutcome) (request : Request)
  : option (Response * list Event) :=
  if String.eqb (method request) "OPTIONS" then Some (preflight_response, [])
  else if negb (String.eqb (method request) "POST") then
    Some (method_not_allowed, [])
  else
    match read_md5 request with
    | None => Some (failure_response escaped_message, [EHandlerFailed])
    | Some md5 => retry_loop maxAttempts net md5 0 []
    end.

(** An attempt after which the loop goes round again. *)
Definition retried (o : FetchOutcome) : bool :=
  match o with
  | FetchResponded st (Some _) =>
    negb (status_ok st) && negb ((400 <=? st) && (st <? 500))%Z
  | FetchResponded _ None => true
  | FetchRejected => true
  end.

(** The retry budget is used up: after every attempt the loop goes round
    again. *)
Definition exhausts (net : nat -> FetchOutcome) : Prop :=
  forall k, k < maxAttempts -> retried (net k) = true.

(** A 4xx answer. *)
Definition client_error (st : Z) : bool := ((400 <=? st) && (st <? 500))%Z.

Definition fetches (log : list Event) : nat :=
  List.length (filter (fun e => match e with EFetchSwitch _ => true | _ => false end) log).

Definition sleeps (log : list Event) : list Z :=
  flat_map (fun e => match e with ESleep ms => [ms] | _ => [] end) log.

End VerifyEndpoint.

(** ** The reconciliation job *)
Module Sweep.

Definition TELEGRAM_ORDERS_CHAT_ID : string := "-1002399561845".
Definition MAX_RETRIES : nat := 3.
Definition RETRY_DELAY : Z := 1000.
(** 30 minutes payment window, in milliseconds. *)
Definition PAYMENT_WINDOW : Z := 30 * 60 * 1000.

(** The part of [order_data] the job reads. *)
Record OrderData : Type := {
  md5 : option string;
  mainMessage : string;
  orderMessage : string
}.

(** A row of [payment_tokens]; timestamps are milliseconds.  Every row
    is taken to hold an object in [order_data]: a row whose [order_data]
    is null, which the job cannot read, is not represented. *)
Record Token : Type := {
  id : Z;
  md5_column : string;
  status : string;
  used : bool;
  created_at : Z;
  order_data : OrderData
}.

Record Message : Type := {
  chatId : string;
  text : string;
  timestamp : Z;
  retryCount : nat
}.

(** One call of the Telegram [sendMessage] API: the fetch or the decoding
    of its body throws, or the body is read and [data.ok] is truthy or
    not. *)
Inductive TgOutcome : Type :=
| TgRejected
| TgAnswered (ok : bool).

(** The environment: the outcome of the external call made at tick [k],
    for each kind of call, the wall clock, and the deployment's main chat
    ([process.env.TELEGRAM_CHAT_ID]). *)
Record Env : Type := {
  select_error : nat -> bool;
  switch : nat -> FetchOutcome;
  update_error : nat -> bool;
  telegram : nat -> TgOutcome;
  date_now : nat -> Z;
  TELEGRAM_CHAT_ID : string
}.

Inductive Event : Type :=
| ESelectPending (cutoff : Z)
| ESwitchCheck (hash : string)
| EUpdateUsed (token : Z) (applied : bool)
| ETelegram (chat body : string)
| ESleep (ms : Z)
| EConsoleError (what : string).

(** The store, the module-level queue and its flag, the number of external
    calls made so far and the effects so far, oldest first. *)
Record World : Type := {
  store : list Token;
  messageQueue : list Message;
  isProcessingQueue : bool;
  tick : nat;
  log : list Event
}.

Definition emit (e : Event) (w : World) : World :=
  {| store := store w; messageQueue := messageQueue w;
     isProcessingQueue := isProcessingQueue w; tick := tick w;
     log := log w ++ [e] |}.

(** An external call: it consumes one tick and is logged. *)
Definition call (e : Event) (w : World) : World :=
  {| store := store w; messageQueue := messageQueue w;
     isProcessingQueue := isProcessingQueue w; tick := S (tick w);
     log := log w ++ [e] |}.

Definition set_store (s : list Token) (w : World) : World :=
  {| store := s; messageQueue := messageQueue w;
     isProcessingQueue := isProcessingQueue w; tick := tick w; log := log w |}.

Definition set_queue (q : list Message) (w : World) : World :=
  {| store := store w; messageQueue := q;
     isProcessingQueue := isProcessingQueue w; tick := tick w; log := log w |}.

Definition set_flag (b : bool) (w : World) : World :=
  {| store := store w; messageQueue := messageQueue w;
     isProcessingQueue := b; tick := tick w; log := log w |}.

Section WithEnv.

Variable env : Env.

(** [verifyPayment(md5)]: one settlement check, [true] only for a 2xx
    answer whose [responseCode] is 0. *)
Definition verifyPayment (hash : string) (w : World) : bool * World :=
  let w1 := call (ESwitchCheck hash) w in
  match switch env (tick w) with
  | FetchResponded st body =>
    if negb (status_ok st) then (false, emit (EConsoleError "Bakong API error:") w1)
    else
      match body with
      | Some data =>
        match Js.get data "responseCode" with
        | Js.Got v => (Js.strict_eq_num v 0, w1)
        | Js.Throws => (false, emit (EConsoleError "Error verifying payment:") w1)
        end
      | None => (false, emit (EConsoleError "Error verifying payment:") w1)
      end
  | FetchRejected => (false, emit (EConsoleError "Error verifying payment:") w1)
  end.

(** [sendTelegramMessage(chatId, text, retryCount)] *)
Definition sendTelegramMessage (chat body : string) (retry : nat) (w : World)
  : bool * World :=
  let w1 := call (ETelegram chat body) w in
  match telegram env (tick w) with
  | TgAnswered ok => (ok, w1)
  | TgRejected =>
    let w2 := emit (EConsoleError "Telegram API error") w1 in
    if retry <? MAX_RETRIES then
      (false,
       set_queue (messageQueue w2 ++
                  [{| chatId := chat; text := body;
                      timestamp := date_now env (tick w2);
                      retryCount := retry + 1 |}]) w2)
    else (false, w2)
  end.

(** A run that may not come to an end within the given number of loop
    iterations; either way the world reached is reported. *)
Inductive Run (A : Type) : Type :=
| Finished (a : A)
| OutOfFuel (w : World).
Arguments Finished {A} a.
Arguments OutOfFuel {A} w.

(** One iteration of the [while (messageQueue.length > 0)] body, for the
    head [message]. *)
Definition drain_step (message : Message) (w : World) : World :=
  let (success, w1) :=
    sendTelegramMessage (chatId message) (text message) (retryCount message) w in
  if success then set_queue (tl (messageQueue w1)) w1
  else
    let w2 := if MAX_RETRIES <=? retryCount message
              then set_queue (tl (messageQueue w1)) w1 else w1 in
    emit (ESleep RETRY_DELAY) w2.

Fixpoint drain_loop (fuel : nat) (w : World) : Run World :=
  match messageQueue w with
  | [] => Finished w
  | message :: _ =>
    match fuel with
    | O => OutOfFuel w
    | S fuel' => drain_loop fuel' (drain_step message w)
    end
  end.

(** [processMessageQueue()] *)
Definition processMessageQueue (fuel : nat) (w : World) : Run World :=
  if isProcessingQueue w || (List.length (messageQueue w) =? 0) then Finished w
  else
    match drain_loop fuel (set_flag true w) with
    | Finished w' => Finished (set_flag false w')
    | OutOfFuel w' => OutOfFuel w'
    end.

(** [.update({ used: true }).eq('id', id)]: every row with this id, whatever
    its current [used] and [status]. *)
Definition mark_used (token : Z) (rows : list Token) : list Token :=
  map (fun r =>
         if (id r =? token)%Z then
           {| id := id r; md5_column := md5_column r; status := status r;
              used := true; created_at := created_at r;
              order_data := order_data r |}
         else r) rows.

(** The update as a call: when the store reports [updateError] no row has
    changed. *)
Definition update_used (token : Z) (w : World) : bool * World :=
  let failed := update_error env (tick w) in
  let w1 := call (EUpdateUsed token (negb failed)) w in
  if failed then (true, w1)
  else (false, set_store (mark_used token (store w1)) w1).

Record Result : Type := {
  tokenId : Z;
  verified : bool;
  mainGroupSent : bool;
  ordersGroupSent : bool
}.

(** The body of [for (const token of tokens)]: [None] when nothing is
    pushed onto [results]. *)
Definition process_token (token : Token) (w : World) : option Result * World :=
  match md5 (order_data token) with
  | None => (None, w)
  | Some hash =>
    if String.eqb hash "" then (None, w)
    else
      let (isVerified, w1) := verifyPayment hash w in
      if isVerified then
        let (secondVerification, w2) := verifyPayment hash w1 in
        if secondVerification then
          let (updateError, w3) := update_used (id token) w2 in
          if updateError then
            (None, emit (EConsoleError "Error updating token:") w3)
          else
            let (mainSuccess, w4) :=
              sendTelegramMessage (TELEGRAM_CHAT_ID env)
                (mainMessage (order_data token)) 0 w3 in
            let (ordersSuccess, w5) :=
              sendTelegramMessage TELEGRAM_ORDERS_CHAT_ID
                (orderMessage (order_data token)) 0 w4 in
            (Some {| tokenId := id token; verified := true;
                     mainGroupSent := mainSuccess;
                     ordersGroupSent := ordersSuccess |}, w5)
        else (None, w2)
      else (None, w1)
  end.

Fixpoint process_tokens (tokens : list Token) (w : World)
  : list Result * World :=
  match tokens with
  | [] => ([], w)
  | token :: rest =>
    let (r, w1) := process_token token w in
    let (rs, w2) := process_tokens rest w1 in
    (match r with Some x => x :: rs | None => rs end, w2)
  end.

(** [.order('created_at', { ascending: true })] *)
Fixpoint insert_by_created_at (t : Token) (sorted : list Token) : list Token :=
  match sorted with
  | [] => [t]
  | u :: rest =>
    if (created_at t <? created_at u)%Z then t :: sorted
    else u :: insert_by_created_at t rest
  end.

Definition order_by_created_at (rows : list Token) : list Token :=
  fold_right insert_by_created_at [] rows.

(** [.eq('used', false).gt('created_at', cutoffTime)], ordered. *)
Definition select_pending (cutoff : Z) (rows : list Token) : list Token :=
  order_by_created_at
    (filter (fun r => negb (used r) && (cutoff <? created_at r)%Z) rows).

Inductive Body : Type :=
| BError (error : string)
| BMessage (message : string)
| BCompleted (message : string) (results : list Result).

Record Response : Type := {
  http_status : Z;
  body : Body
}.

(** The start of the handler, up to the rows to go through: the select and
    the test for an empty result.  [inl] is an early response. *)
Definition sweep_select (w : World) : Response * World + list Token * World :=
  let cutoff := (date_now env (tick w) - PAYMENT_WINDOW)%Z in
  let failed := select_error env (tick w) in
  let w1 := call (ESelectPending cutoff) w in
  if failed then
    inl ({| http_status := 500; body := BError "Internal server error" |},
         emit (EConsoleError "Error in cron job:") w1)
  else
    let tokens := select_pending cutoff (store w1) in
    if (List.length tokens =? 0) then
      inl ({| http_status := 200;
              body := BMessage "No pending payments to check" |}, w1)
    else inr (tokens, w1).

Definition handler (fuel : nat) (method : string) (w : World)
  : Run (Response * World) :=
  if negb (String.eqb method "POST") then
    Finished ({| http_status := 405; body := BError "Method not allowed" |}, w)
  else
    match sweep_select w with
    | inl early => Finished early
    | inr (tokens, w1) =>
      let (results, w2) := process_tokens tokens w1 in
      match processMessageQueue fuel w2 with
      | Finished w3 =>
        Finished ({| http_status := 200;
                     body := BCompleted "Payment check completed" results |}, w3)
      | OutOfFuel w3 => OutOfFuel w3
      end
    end.

(** Runs of the job one after another, each started when the previous one
    has answered; [fuels] bounds the queue drain of each run. *)
Fixpoint handler_runs (fuels : list nat) (w : World)
  : Run (list Response * World) :=
  match fuels with
  | [] => Finished ([], w)
  | fuel :: rest =>
    match handler fuel "POST" w with
    | Finished (answer, w1) =>
      match handler_runs rest w1 with
      | Finished (answers, w2) => Finished (answer :: answers, w2)
      | OutOfFuel w' => OutOfFuel w'
      end
    | OutOfFuel w' => OutOfFuel w'
    end
  end.

(** Two runs of the job that overlap: the second run's select is answered
    before the first run has made its first settlement check; then the
    first run's loop runs, then the second's.  [None] when one of the
    selects ends its run early. *)
Definition overlapping_runs (w : World)
  : option (list Result * list Result * World) :=
  match sweep_select w with
  | inr (tokensA, w1) =>
    match sweep_select w1 with
    | inr (tokensB, w2) =>
      let (resultsA, w3) := process_tokens tokensA w2 in
      let (resultsB, w4) := process_tokens tokensB w3 in
      Some (resultsA, resultsB, w4)
    | inl _ => None
    end
  | inl _ => None
  end.

End WithEnv.

Arguments Finished {A} a.
Arguments OutOfFuel {A} w.

(** The tokens a run's answer reports as fulfilled. *)
Definition reported (answer : Response) : list Z :=
  match body answer with
  | BCompleted _ results => map tokenId results
  | _ => []
  end.

(** A settlement check that reports a settled payment: a 2xx answer
    whose body decodes and carries [responseCode] 0. *)
Definition reports_settled (o : FetchOutcome) : bool :=
  match o with
  | FetchResponded st (Some data) =>
    status_ok st &&
    match Js.get data "responseCode" with
    | Js.Got v => Js.strict_eq_num v 0
    | Js.Throws => false
    end
  | _ => false
  end.

(** What a run of the handler reports as fulfilled. *)
Definition fulfilled_ids (results : list Result) : list Z := map tokenId results.

Definition telegram_events (events : list Event) : list Event :=
  filter (fun e => match e with ETelegram _ _ => true | _ => false end) events.

(** The send a queued message gives rise to. *)
Definition send_of (m : Message) : Event := ETelegram (chatId m) (text m).

Definition is_used (token : Z) (rows : list Token) : bool :=
  forallb (fun r => negb (id r =? token)%Z || used r) rows.

(** Whether Telegram acknowledged a send. *)
Definition acknowledged (o : TgOutcome) : bool :=
  match o with
  | TgAnswered ok => ok
  | TgRejected => false
  end.

(** The queue entry a first send ([retryCount] 0) leaves behind, by its
    outcome: one entry when the send throws, none when it is answered. *)
Definition queued_after (o : TgOutcome) (chat body : string) (now : Z)
  : list Message :=
  match o with
  | TgRejected =>
    [{| chatId := chat; text := body; timestamp := now; retryCount := 1 |}]
  | TgAnswered _ => []
  end.

(** The updates of a run, in the order of its results. *)
Definition mark_all_used (tokens : list Z) (rows : list Token) : list Token :=
  fold_left (fun acc t => mark_used t acc) tokens rows.

(** Whether [token] is the id of a row of [rows] whose [order_data]
    carries the payment hash [hash]. *)
Definition carries (hash : string) (rows : list Token) (token : Z) : bool :=
  existsb (fun r =>
             (id r =? token)%Z &&
             match md5 (order_data r) with
             | Some h => String.eqb h hash
             | None => false
             end) rows.

(** No two rows stand for the same payment: rows that carry the same hash
    have the same id. *)
Definition one_row_per_hash (rows : list Token) : Prop :=
  forall (r1 r2 : Token) (hash : string),
    In r1 rows -> In r2 rows ->
    md5 (order_data r1) = Some hash -> md5 (order_data r2) = Some hash ->
    id r1 = id r2.

End Sweep.

(** ** The payment dialog *)
Module PaymentModal.

Inductive Status : Type := Pending | Success | Checking | Error.

Record Product : Type := {
  product_id : Z;
  name : string;
  code : option string;
  diamonds : option float;
  price : float
}.

Record TopUpForm : Type := {
  userId : string;
  serverId : string;
  game : string;
  nickname : option string;
  product : option Product
}.

Record Props : Type := {
  form : TopUpForm;
  discountPercent : float
}.

(** The five timer handles the component keeps in refs. *)
Record Timers : Type := {
  qrTimeoutRef : option nat;
  cooldownIntervalRef : option nat;
  pollIntervalRef : option nat;
  expiryTimeoutRef : option nat;
  payNowCooldownRef : option nat
}.

(** What [order_data] is made of before it is sent to the database. *)
Record OrderInfo : Type := {
  transaction_id : string;
  order_id : string;
  order_game : string;
  amount : float;
  item : option string;
  user_id : string;
  server_id : string;
  order_date : string;
  main_message : string;
  order_message : string;
  order_nickname : option string
}.

Inductive Event : Type :=
| EConsoleLog (what : string)
| EConsoleWarn (what : string)
| EConsoleError (what : string)
| EQueryProduct (table : string) (product : option Z)
| EQueryResellerPrice (product : option Z) (game : string)
| ERpcCreatePaymentToken (p_md5 p_status : string) (p_order_info : OrderInfo)
| EUpdateBuilt (hash new_status : string) (new_used : bool) (order_error : string)
| EAxiosPost (url hash : string).

(** Requests sent to the database.  [EUpdateBuilt] is not one of them: it
    records an update of [payment_tokens] that the code builds and drops.
    The query is neither awaited nor given a [then], so it is never sent.
    The event keeps the [md5] the update selects by, the [status] and
    [used] it would set and the [error] it would put in [order_data]
    (next to [form.order_data] and the time of day, which are not kept). *)
Definition database_request (e : Event) : bool :=
  match e with
  | EQueryProduct _ _ | EQueryResellerPrice _ _
  | ERpcCreatePaymentToken _ _ _ => true
  | _ => false
  end.

Definition builds_update (e : Event) : bool :=
  match e with
  | EUpdateBuilt _ _ _ _ => true
  | _ => false
  end.

Definition creates_token (e : Event) : bool :=
  match e with
  | ERpcCreatePaymentToken _ _ _ => true
  | _ => false
  end.

(** The component state the payment functions read or write, and the
    effects performed so far, oldest first. *)
Record State : Type := {
  status : Status;
  errorMessage : Js.value;
  md5Hash : string;
  showSuccessAnimation : bool;
  transactionId : string;
  showMessage : bool;
  qrExpired : bool;
  timers : Timers;
  effects : list Event
}.

Definition emit (e : Event) (s : State) : State :=
  {| status := status s; errorMessage := errorMessage s; md5Hash := md5Hash s;
     showSuccessAnimation := showSuccessAnimation s;
     transactionId := transactionId s; showMessage := showMessage s;
     qrExpired := qrExpired s; timers := timers s;
     effects := effects s ++ [e] |}.

Definition setStatus (v : Status) (s : State) : State :=
  {| status := v; errorMessage := errorMessage s; md5Hash := md5Hash s;
     showSuccessAnimation := showSuccessAnimation s;
     transactionId := transactionId s; showMessage := showMessage s;
     qrExpired := qrExpired s; timers := timers s; effects := effects s |}.

Definition setErrorMessage (v : Js.value) (s : State) : State :=
  {| status := status s; errorMessage := v; md5Hash := md5Hash s;
     showSuccessAnimation := showSuccessAnimation s;
     transactionId := transactionId s; showMessage := showMessage s;
     qrExpired := qrExpired s; timers := timers s; effects := effects s |}.

Definition setShowSuccessAnimation (v : bool) (s : State) : State :=
  {| status := status s; errorMessage := errorMessage s; md5Hash := md5Hash s;
     showSuccessAnimation := v;
     transactionId := transactionId s; showMessage := showMessage s;
     qrExpired := qrExpired s; timers := timers s; effects := effects s |}.

Definition setQrExpired (v : bool) (s : State) : State :=
  {| status := status s; errorMessage := errorMessage s; md5Hash := md5Hash s;
     showSuccessAnimation := showSuccessAnimation s;
     transactionId := transactionId s; showMessage := showMessage s;
     qrExpired := v; timers := timers s; effects := effects s |}.

Definition setTransactionId (v : string) (s : State) : State :=
  {| status := status s; errorMessage := errorMessage s; md5Hash := md5Hash s;
     showSuccessAnimation := showSuccessAnimation s;
     transactionId := v; showMessage := showMessage s;
     qrExpired := qrExpired s; timers := timers s; effects := effects s |}.

Definition no_timers : Timers :=
  {| qrTimeoutRef := None; cooldownIntervalRef := None;
     pollIntervalRef := None; expiryTimeoutRef := None;
     payNowCooldownRef := None |}.

(** [cleanup()]: every handle is cleared and forgotten. *)
Definition cleanup (s : State) : State :=
  {| status := status s; errorMessage := errorMessage s; md5Hash := md5Hash s;
     showSuccessAnimation := showSuccessAnimation s;
     transactionId := transactionId s; showMessage := showMessage s;
     qrExpired := qrExpired s; timers := no_timers; effects := effects s |}.

(** The guard of the effect that installs the poll interval: the interval
    is (re)installed on a render only when this holds. *)
Definition poll_effect_armed (s : State) : bool :=
  negb (String.eqb (md5Hash s) "" || showMessage s
        || match status s with Success | Error => true | _ => false end
        || qrExpired s).

Definition polling (s : State) : bool :=
  match pollIntervalRef (timers s) with Some _ => true | None => false end.

Section Amounts.

Local Open Scope float_scope.

(** [!x] for a number. *)
Definition falsy_number (x : float) : bool :=
  PrimFloat.eqb x 0 || negb (PrimFloat.eqb x x).

(** The [finalAmount] memo. *)
Definition finalAmount (p : Props) : float :=
  match product (form p) with
  | None => 0
  | Some prod =>
    if falsy_number (price prod) then 0
    else
      let discount := (price prod * discountPercent p) / 100 in
      let amount := price prod - discount in
      JsMath.round (amount * 100) / 100
  end.

Definition expectedFinalAmount (currentPrice : float) (p : Props) : float :=
  JsMath.round ((currentPrice * (100 - discountPercent p)) / 100 * 100) / 100.

(** [Math.abs(expectedFinalAmount - finalAmount) > 0.01] *)
Definition price_changed (currentPrice : float) (p : Props) : bool :=
  0.01 <? abs (expectedFinalAmount currentPrice p - finalAmount p).

End Amounts.

Inductive RpcOutcome : Type :=
| RpcData (token : string)
| RpcNoData
| RpcError (message : option string).

(** The environment of the dialog.  A query's outcome is what the code
    sees of it: the price of the single row found, or [None] when the
    query reports an error or no row.  The remaining fields stand for the
    browser: local storage, the random source, the clock, and the
    number-to-string conversions of template literals. *)
Record Env : Type := {
  product_query : string -> option Z -> option float;
  reseller_query : option Z -> string -> option float;
  reseller_auth : option string;
  rpc_create_payment_token : RpcOutcome;
  random_six_digits : Z;
  now_string : string;
  locale_date : string;
  show_number : float -> string;
  show_int : Z -> string
}.

Section WithEnv.

Variable env : Env.
Variable props : Props.

Definition table_name (g : string) : string :=
  if String.eqb g "mlbb" then "mlbb_products"
  else if String.eqb g "mlbb_ph" then "mlbb_ph_products"
  else if String.eqb g "freefire" then "freefire_products"
  else if String.eqb g "freefire_th" then "freefire_th_products"
  else "freefire_products".

Definition form_product_id : option Z :=
  option_map product_id (product (form props)).

(** [verifyCurrentPrice()]: the price to charge now, [None] for [null]. *)
Definition verifyCurrentPrice (s : State) : option float * State :=
  let table := table_name (game (form props)) in
  let s1 := emit (EQueryProduct table form_product_id) s in
  match product_query env table form_product_id with
  | None => (None, emit (EConsoleError "Error verifying current price:") s1)
  | Some standard =>
    match reseller_auth env with
    | Some flag =>
      if String.eqb flag "true" then
        let s2 := emit (EQueryResellerPrice form_product_id (game (form props))) s1 in
        match reseller_query env form_product_id (game (form props)) with
        | None =>
          (Some standard,
           emit (EConsoleWarn "No reseller price found, using standard price") s2)
        | Some override => (Some override, s2)
        end
      else (Some standard, s1)
    | None => (Some standard, s1)
    end
  end.

Definition newline : string :=
  String (Ascii.Ascii false true false true false false false false) EmptyString.

(** The value [verifyCurrentPrice] returns, without its effects: the
    reseller's price for a reseller who has one, the catalog price
    otherwise. *)
Definition current_price : option float :=
  match product_query env (table_name (game (form props))) form_product_id with
  | None => None
  | Some standard =>
    match reseller_auth env with
    | Some flag =>
      if String.eqb flag "true" then
        match reseller_query env form_product_id (game (form props)) with
        | None => Some standard
        | Some override => Some override
        end
      else Some standard
    | None => Some standard
    end
  end.

Definition is_freefire (g : string) : bool :=
  String.eqb g "freefire" || String.eqb g "freefire_th".

Definition server_field : string :=
  if is_freefire (game (form props)) then "0" else serverId (form props).

Definition game_title (g : string) : string :=
  if String.eqb g "mlbb" then "Mobile Legends"
  else if String.eqb g "mlbb_ph" then "Mobile Legends PH"
  else if String.eqb g "freefire" then "Free Fire"
  else "Free Fire TH".

Definition nonempty (o : option string) : option string :=
  match o with
  | Some x => if String.eqb x "" then None else Some x
  | None => None
  end.

(** [form.product?.code || form.product?.diamonds || form.product?.name],
    as a template literal prints it. *)
Definition item_label : string :=
  match product (form props) with
  | None => "undefined"
  | Some prod =>
    match nonempty (code prod) with
    | Some c => c
    | None =>
      match diamonds prod with
      | Some d => if falsy_number d then name prod else show_number env d
      | None => name prod
      end
    end
  end.

Definition item_name : option string := option_map name (product (form props)).

Definition build_order_info (txId : string) : OrderInfo :=
  let f := form props in
  let orderId := now_string env in
  let amountText := show_number env (finalAmount props) in
  let itemText := match item_name with Some n => n | None => "undefined"%string end in
  {| transaction_id := txId;
     order_id := orderId;
     order_game := game f;
     amount := finalAmount props;
     item := item_name;
     user_id := userId f;
     server_id := server_field;
     order_date := locale_date env;
     main_message := userId f ++ " " ++ server_field ++ " " ++ item_label;
     order_message :=
       String.concat newline
         [ "Top up successful✅"; "";
           "- Transaction: " ++ txId;
           "- Game: " ++ game_title (game f);
           "- Amount: " ++ amountText ++ " $";
           "- Item: " ++ itemText;
           "- User ID: " ++ userId f;
           "- Server ID: " ++ server_field;
           "- Order ID: S" ++ orderId;
           "- Order Date: " ++ locale_date env ];
     order_nickname := nonempty (nickname f) |}%string.

(** The [catch] of [storePayment]. *)
Definition store_failed (message : string) (s : State) : option string * State :=
  (None,
   setStatus Error
     (setErrorMessage (Js.Str message)
        (emit (EConsoleError "Error storing payment:") s))).

Definition price_changed_message : string :=
  "Price has changed. Please refresh and try again.".

(** [storePayment(md5)]: the token of the stored payment, [None] for
    [null]. *)
Definition storePayment (hash : string) (s : State) : option string * State :=
  let s0 := emit (EConsoleLog "Starting storePayment with MD5:") s in
  let (currentPrice, s1) := verifyCurrentPrice s0 in
  let s2 := emit (EConsoleLog "Current price:") s1 in
  match currentPrice with
  | None => store_failed "Failed to verify current price" s2
  | Some current =>
    let s3 := emit (EConsoleLog "Expected final amount:") s2 in
    if price_changed current props then store_failed price_changed_message s3
    else
      let txId := ("tb" ++ show_int env (random_six_digits env))%string in
      let s4 := emit (EConsoleLog "Generated transaction ID:") (setTransactionId txId s3) in
      let info := build_order_info txId in
      let s5 := emit (EConsoleLog "Order data to be sent:") s4 in
      let s6 := emit (ERpcCreatePaymentToken hash "pending" info) s5 in
      let s7 := emit (EConsoleLog "create_payment_token result:") s6 in
      match rpc_create_payment_token env with
      | RpcData token => (Some token, emit (EConsoleLog "Payment stored with token:") s7)
      | RpcNoData => store_failed "Failed to store payment: Unknown error" s7
      | RpcError (Some m) =>
        store_failed
          ("Failed to store payment: " ++ (if String.eqb m "" then "Unknown error" else m))%string s7
      | RpcError None => store_failed "Failed to store payment: Unknown error" s7
      end
  end.

End WithEnv.

(** What [await axios.post(...)] gives the caller: the decoded body of a
    2xx answer, or an exception (any other status, or no answer). *)
Inductive AxiosOutcome : Type :=
| AxiosResolved (data : Js.value)
| AxiosRejected.

Definition poll_failed_message : string :=
  "Failed to verify payment. Please try again or contact support.".
Definition poll_refused_message : string :=
  "Payment verification failed. Please try again or contact support.".

(** The request every tick makes. *)
Definition tick_post (s : State) : Event :=
  EAxiosPost "/api/verify-payment" (md5Hash s).

(** The [catch] of [verifyPayment]. *)
Definition poll_failed (s : State) : State :=
  cleanup
    (setErrorMessage (Js.Str poll_failed_message)
       (setStatus Error (emit (EConsoleError "Error verifying payment:") s))).

(** [verifyPayment()]: one tick of the poll interval, for the outcome of
    its request. *)
Definition verifyPayment (outcome : AxiosOutcome) (s : State) : State :=
  if qrExpired s then s
  else
    let s1 := emit (tick_post s) s in
    match outcome with
    | AxiosRejected => poll_failed s1
    | AxiosResolved data =>
      match Js.get data "responseCode" with
      | Js.Throws => poll_failed s1
      | Js.Got responseCode =>
        if Js.strict_eq_num responseCode 0 then
          cleanup (setShowSuccessAnimation true (setStatus Success s1))
        else if Js.strict_eq_num responseCode 1 then
          emit (EConsoleLog "Payment still pending for MD5:") s1
        else
          match Js.get data "error" with
          | Js.Throws => poll_failed s1
          | Js.Got (Some e) =>
            cleanup
              (setErrorMessage
                 (if Js.truthy (Some e) then e else Js.Str poll_refused_message)
                 (setStatus Error s1))
          | Js.Got None =>
            cleanup (setErrorMessage (Js.Str poll_refused_message) (setStatus Error s1))
          end
      end
    end.

Definition expired_message : string :=
  "QR code has expired. Please generate a new one.".

(** The expiry branch of the countdown ([remainingTime <= 0]): the dialog
    is marked expired and, when it holds a hash, an update of
    [payment_tokens] is built for the rows with this [md5], which would
    set [status] to unsuccessful and [used] to true whatever the row's
    current [status] and [used].  The update is built and dropped: it is
    never sent. *)
Definition expire (s : State) : State :=
  let s1 :=
    cleanup
      (setErrorMessage (Js.Str expired_message)
         (setStatus Error (setQrExpired true s))) in
  if String.eqb (md5Hash s) "" then s1
  else emit (EUpdateBuilt (md5Hash s) "unsuccessful" true "QR code expired") s1.

(** axios with its default [validateStatus]: [answer] is the HTTP answer,
    [None] when there is none.  [response.data] is what axios decodes from
    the body, which is the answer's [payload]. *)
Definition axios_outcome (answer : option VerifyEndpoint.Response) : AxiosOutcome :=
  match answer with
  | Some r =>
    if status_ok (VerifyEndpoint.status r) then
      AxiosResolved (match VerifyEndpoint.payload r with
                     | Some data => data
                     | None => Js.Str ""
                     end)
    else AxiosRejected
  | None => AxiosRejected
  end.

(** One tick against the deployed endpoint, itself facing the switch
    [net]: the new state and what the endpoint did. *)
Definition live_tick (net : nat -> FetchOutcome) (s : State)
  : option (State * list VerifyEndpoint.Event) :=
  let request :=
    {| VerifyEndpoint.method := "POST";
       VerifyEndpoint.body := Some (Js.Obj [("md5", Js.Str (md5Hash s))]%string) |} in
  match VerifyEndpoint.handler net request with
  | Some (answer, done) => Some (verifyPayment (axios_outcome (Some answer)) s, done)
  | None => None
  end.

End PaymentModal.

(** ** The payment dialog: QR issuance, countdown and the dialog's life *)
Module QrIssuance.

Import PaymentModal.

Definition QR_COOLDOWN_PERIOD : Z := 180.
Definition POLL_INTERVAL : Z := 2000.
Definition QR_EXPIRY_PERIOD : Z := 5 * 60 * 1000.

(** [n.toString()] for an integer [n]. *)
Definition integer_toString (n : Z) : string :=
  NilZero.string_of_int (Z.to_int n).

(** [s.padStart(2, '0')] *)
Definition padStart2 (s : string) : string :=
  match String.length s with
  | 0 => "00"
  | 1 => String.append "0" s
  | _ => s
  end.

(** [generateKHQR] is asynchronous: it waits for the QR service and then
    for [storePayment], and the other callbacks of the dialog run while it
    waits.  A run that has not finished is kept with what its closure
    holds: the props and the hash of the render that started it and the
    time it read at its start. *)
Inductive Stage : Type :=
| AwaitingKhqr
| AwaitingStore (md5 : string).

Record Flight : Type := {
  flight_props : Props;
  captured_hash : string;
  started : Z;
  stage : Stage
}.

(** The state of the dialog: the part the payment functions use ([core]),
    the rest of its [useState] cells, and the run of [generateKHQR] that
    is waiting, if any.  Two lists record what the component has asked of
    the outside: the amounts of its requests for a QR code, and, for every
    expiry timeout it has installed, the hash that the timeout's callback
    closed over. *)
Record Dialog : Type := {
  core : State;
  qrCode : string;
  isProcessing : bool;
  lastQrGeneration : Z;
  qrCooldown : Z;
  payNowCooldown : Z;
  timeLeft : string;
  flight : option Flight;
  khqr_requests : list float;
  expiry_callbacks : list string
}.

Definition with_core (f : State -> State) (d : Dialog) : Dialog :=
  {| core := f (core d); qrCode := qrCode d; isProcessing := isProcessing d;
     lastQrGeneration := lastQrGeneration d; qrCooldown := qrCooldown d;
     payNowCooldown := payNowCooldown d; timeLeft := timeLeft d;
     flight := flight d; khqr_requests := khqr_requests d;
     expiry_callbacks := expiry_callbacks d |}.

Definition setIsProcessing (v : bool) (d : Dialog) : Dialog :=
  {| core := core d; qrCode := qrCode d; isProcessing := v;
     lastQrGeneration := lastQrGeneration d; qrCooldown := qrCooldown d;
     payNowCooldown := payNowCooldown d; timeLeft := timeLeft d;
     flight := flight d; khqr_requests := khqr_requests d;
     expiry_callbacks := expiry_callbacks d |}.

Definition setQrCooldown (v : Z) (d : Dialog) : Dialog :=
  {| core := core d; qrCode := qrCode d; isProcessing := isProcessing d;
     lastQrGeneration := lastQrGeneration d; qrCooldown := v;
     payNowCooldown := payNowCooldown d; timeLeft := timeLeft d;
     flight := flight d; khqr_requests := khqr_requests d;
     expiry_callbacks := expiry_callbacks d |}.

Definition setPayNowCooldown (v : Z) (d : Dialog) : Dialog :=
  {| core := core d; qrCode := qrCode d; isProcessing := isProcessing d;
     lastQrGeneration := lastQrGeneration d; qrCooldown := qrCooldown d;
     payNowCooldown := v; timeLeft := timeLeft d; flight := flight d;
     khqr_requests := khqr_requests d;
     expiry_callbacks := expiry_callbacks d |}.

Definition setTimeLeft (v : string) (d : Dialog) : Dialog :=
  {| core := core d; qrCode := qrCode d; isProcessing := isProcessing d;
     lastQrGeneration := lastQrGeneration d; qrCooldown := qrCooldown d;
     payNowCooldown := payNowCooldown d; timeLeft := v; flight := flight d;
     khqr_requests := khqr_requests d;
     expiry_callbacks := expiry_callbacks d |}.

(** [setQrCode(qrImage); setLastQrGeneration(now)] *)
Definition setQr (image : string) (now : Z) (d : Dialog) : Dialog :=
  {| core := core d; qrCode := image; isProcessing := isProcessing d;
     lastQrGeneration := now; qrCooldown := qrCooldown d;
     payNowCooldown := payNowCooldown d; timeLeft := timeLeft d;
     flight := flight d; khqr_requests := khqr_requests d;
     expiry_callbacks := expiry_callbacks d |}.

(** The run of [generateKHQR] that is waiting, if any. *)
Definition setFlight (v : option Flight) (d : Dialog) : Dialog :=
  {| core := core d; qrCode := qrCode d; isProcessing := isProcessing d;
     lastQrGeneration := lastQrGeneration d; qrCooldown := qrCooldown d;
     payNowCooldown := payNowCooldown d; timeLeft := timeLeft d;
     flight := v; khqr_requests := khqr_requests d;
     expiry_callbacks := expiry_callbacks d |}.

(** [axios.post('/api/khqr', payload)] is sent. *)
Definition request_khqr (amount : float) (d : Dialog) : Dialog :=
  {| core := core d; qrCode := qrCode d; isProcessing := isProcessing d;
     lastQrGeneration := lastQrGeneration d; qrCooldown := qrCooldown d;
     payNowCooldown := payNowCooldown d; timeLeft := timeLeft d;
     flight := flight d; khqr_requests := khqr_requests d ++ [amount];
     expiry_callbacks := expiry_callbacks d |}.

(** [setTimeout(..., QR_EXPIRY_PERIOD)] with a callback that closed over
    the hash [captured]. *)
Definition install_expiry (captured : string) (d : Dialog) : Dialog :=
  {| core := core d; qrCode := qrCode d; isProcessing := isProcessing d;
     lastQrGeneration := lastQrGeneration d; qrCooldown := qrCooldown d;
     payNowCooldown := payNowCooldown d; timeLeft := timeLeft d;
     flight := flight d; khqr_requests := khqr_requests d;
     expiry_callbacks := expiry_callbacks d ++ [captured] |}.

Definition setMd5Hash (v : string) (s : State) : State :=
  {| status := status s; errorMessage := errorMessage s; md5Hash := v;
     showSuccessAnimation := showSuccessAnimation s;
     transactionId := transactionId s; showMessage := showMessage s;
     qrExpired := qrExpired s; timers := timers s; effects := effects s |}.

Definition setShowMessage (v : bool) (s : State) : State :=
  {| status := status s; errorMessage := errorMessage s; md5Hash := md5Hash s;
     showSuccessAnimation := showSuccessAnimation s;
     transactionId := transactionId s; showMessage := v;
     qrExpired := qrExpired s; timers := timers s; effects := effects s |}.

Definition setTimers (v : Timers) (s : State) : State :=
  {| status := status s; errorMessage := errorMessage s; md5Hash := md5Hash s;
     showSuccessAnimation := showSuccessAnimation s;
     transactionId := transactionId s; showMessage := showMessage s;
     qrExpired := qrExpired s; timers := v; effects := effects s |}.

(** [expiryTimeoutRef.current = handle] *)
Definition keep_expiry_handle (handle : nat) (s : State) : State :=
  setTimers
    {| qrTimeoutRef := qrTimeoutRef (timers s);
       cooldownIntervalRef := cooldownIntervalRef (timers s);
       pollIntervalRef := pollIntervalRef (timers s);
       expiryTimeoutRef := Some handle;
       payNowCooldownRef := payNowCooldownRef (timers s) |} s.

(** [cooldownIntervalRef.current = handle] *)
Definition keep_cooldown_handle (handle : nat) (s : State) : State :=
  setTimers
    {| qrTimeoutRef := qrTimeoutRef (timers s);
       cooldownIntervalRef := Some handle;
       pollIntervalRef := pollIntervalRef (timers s);
       expiryTimeoutRef := expiryTimeoutRef (timers s);
       payNowCooldownRef := payNowCooldownRef (timers s) |} s.

(** [payNowCooldownRef.current = handle] *)
Definition keep_payNow_handle (handle : nat) (s : State) : State :=
  setTimers
    {| qrTimeoutRef := qrTimeoutRef (timers s);
       cooldownIntervalRef := cooldownIntervalRef (timers s);
       pollIntervalRef := pollIntervalRef (timers s);
       expiryTimeoutRef := expiryTimeoutRef (timers s);
       payNowCooldownRef := Some handle |} s.

(** The state of a dialog that has just been opened: the initial values
    of its [useState] and [useRef] cells. *)
Definition opened : Dialog :=
  {| core :=
       {| status := Pending; errorMessage := Js.Str ""; md5Hash := "";
          showSuccessAnimation := false; transactionId := "";
          showMessage := true; qrExpired := false; timers := no_timers;
          effects := [] |};
     qrCode := ""; isProcessing := false; lastQrGeneration := 0;
     qrCooldown := 0; payNowCooldown := 1; timeLeft := "5:00";
     flight := None; khqr_requests := []; expiry_callbacks := [] |}.

(** What [await axios.post('/api/khqr', payload)] gives.  An answer is a
    status with a decoded object, of which the code reads [success],
    [qrImage] and [md5]; a failure is an axios error, with
    [error.response?.data?.message] when there is one. *)
Inductive KhqrOutcome : Type :=
| KhqrAnswered (http : Z) (success : bool) (qrImage md5 : string)
| KhqrFailed (message : option Js.value).

(** The test that opens [generateKHQR]. *)
Definition blocked (props : Props) (d : Dialog) : bool :=
  isProcessing d
  || PrimFloat.ltb (finalAmount props) 0.01
  || negb (String.eqb (qrCode d) "")
  || (0 <? qrCooldown d)%Z
  || showMessage (core d).

(** The [catch] and [finally] of [generateKHQR], which end the run. *)
Definition khqr_failed (message : Js.value) (d : Dialog) : Dialog :=
  setFlight None
    (setIsProcessing false
       (with_core (fun s => setErrorMessage message (setStatus Error s)) d)).

(** [Math.ceil((QR_COOLDOWN_PERIOD * 1000 - elapsed) / 1000)] *)
Definition remaining_cooldown (elapsed : Z) : Z :=
  - ((- (QR_COOLDOWN_PERIOD * 1000 - elapsed)) / 1000).

(** [generateKHQR()] from its start to the request for a QR code, for the
    state [d] of the render whose effect calls it.  [now] is [Date.now()]
    and [handle] the handle of the interval that [startQrCooldown]
    creates. *)
Definition generateKHQR_begin (props : Props) (now : Z) (handle : nat)
    (d : Dialog) : Dialog :=
  if blocked props d then d
  else if (now - lastQrGeneration d <? QR_COOLDOWN_PERIOD * 1000)%Z then
    (* setQrCooldown(remainingCooldown); startQrCooldown() *)
    with_core (keep_cooldown_handle handle)
      (setQrCooldown QR_COOLDOWN_PERIOD
         (setQrCooldown (remaining_cooldown (now - lastQrGeneration d)) d))
  else
    let d1 :=
      setIsProcessing true
        (with_core (fun s => setErrorMessage (Js.Str "") (setStatus Checking s)) d) in
    if PrimFloat.ltb (finalAmount props) 0.01 then
      khqr_failed
        (Js.Str "Amount must be at least 0.01 USD. Please remove the promo code for small purchases.")
        d1
    else
      setFlight
        (Some {| flight_props := props; captured_hash := md5Hash (core d);
                 started := now; stage := AwaitingKhqr |})
        (request_khqr (finalAmount props) d1).

(** An answer of the QR service that [generateKHQR] accepts. *)
Definition khqr_usable (outcome : KhqrOutcome) : bool :=
  match outcome with
  | KhqrAnswered http success qrImage md5 =>
    ((http =? 200) || (http =? 201))%Z
    && (success && negb (String.eqb qrImage "") && negb (String.eqb md5 ""))
  | KhqrFailed _ => false
  end.

(** [generateKHQR()] from the outcome of its request to the call of
    [storePayment]. *)
Definition generateKHQR_answered (outcome : KhqrOutcome) (d : Dialog) : Dialog :=
  match flight d with
  | Some run =>
    match stage run with
    | AwaitingKhqr =>
      match outcome with
      | KhqrAnswered http success qrImage md5 =>
        if ((http =? 200) || (http =? 201))%Z then
          if success && negb (String.eqb qrImage "") && negb (String.eqb md5 "") then
            setFlight
              (Some {| flight_props := flight_props run;
                       captured_hash := captured_hash run;
                       started := started run; stage := AwaitingStore md5 |})
              (setTimeLeft "5:00"
                 (with_core (fun s => setQrExpired false (setMd5Hash md5 s))
                    (setQr qrImage (started run) d)))
          else khqr_failed (Js.Str "Invalid response from QR code generator") d
        else
          khqr_failed
            (Js.Str (String.append "Server returned status " (integer_toString http))) d
      | KhqrFailed message =>
        khqr_failed
          (match message with
           | Some m => if Js.truthy (Some m) then m
                       else Js.Str "Network error. Please try again."
           | None => Js.Str "Network error. Please try again."
           end) d
      end
    | AwaitingStore _ => d
    end
  | None => d
  end.

(** [generateKHQR()] from [storePayment] to its end.  [env] is the
    database and browser at the time of [storePayment], and [handle] the
    handle of the expiry timeout. *)
Definition generateKHQR_stored (env : Env) (handle : nat) (d : Dialog) : Dialog :=
  match flight d with
  | Some run =>
    match stage run with
    | AwaitingStore md5 =>
      setFlight None
        (setIsProcessing false
           (install_expiry (captured_hash run)
              (with_core (keep_expiry_handle handle)
                 (with_core (fun s => snd (storePayment env (flight_props run) md5 s))
                    d))))
    | AwaitingKhqr => d
    end
  | None => d
  end.

(** The callback of the expiry timeout that [generateKHQR] installs; it
    uses the hash [captured] when it was created. *)
Definition expiry_timeout (captured : string) (d : Dialog) : Dialog :=
  let d1 :=
    with_core
      (fun s =>
         cleanup
           (setErrorMessage (Js.Str expired_message)
              (setStatus Error (setQrExpired true s)))) d in
  if String.eqb captured "" then d1
  else
    with_core
      (emit (EUpdateBuilt captured "unsuccessful" true "QR code expired")) d1.

(** The callback of the one-second countdown, installed while a QR code
    is shown and has not expired. *)
Definition countdown_tick (now : Z) (d : Dialog) : Dialog :=
  let remainingTime :=
    Z.max 0 (QR_EXPIRY_PERIOD - (now - lastQrGeneration d)) in
  let minutes := (remainingTime / (60 * 1000))%Z in
  let seconds := ((remainingTime mod (60 * 1000)) / 1000)%Z in
  let d1 :=
    setTimeLeft
      (String.append (padStart2 (integer_toString minutes))
         (String.append ":" (padStart2 (integer_toString seconds)))) d in
  if (remainingTime <=? 0)%Z then with_core expire d1 else d1.

(** The callback of the interval of [startQrCooldown]. *)
Definition cooldown_tick (d : Dialog) : Dialog :=
  setQrCooldown (if (qrCooldown d <=? 1)%Z then 0 else qrCooldown d - 1)%Z d.

(** [handleContinue()] *)
Definition handleContinue (d : Dialog) : Dialog :=
  setPayNowCooldown 7 (with_core (setShowMessage false) d).

(** The answer to a request of [verifyPayment] that arrives after other
    callbacks have run: [qrExpired] was tested when the request was sent,
    and what has happened since does not stop the answer from being
    handled. *)
Definition verifyPayment_late (outcome : AxiosOutcome) (s : State) : State :=
  setQrExpired (qrExpired s) (verifyPayment outcome (setQrExpired false s)).

(** The effect on [payNowCooldown], which starts its interval. *)
Definition payNow_effect (handle : nat) (d : Dialog) : Dialog :=
  if (0 <? payNowCooldown d)%Z then with_core (keep_payNow_handle handle) d else d.

(** The callback of that interval. *)
Definition payNow_tick (d : Dialog) : Dialog :=
  setPayNowCooldown
    (if (payNowCooldown d <=? 1)%Z then 0 else payNowCooldown d - 1)%Z d.

(** The [catch] of [handleDownloadReceipt]. *)
Definition receipt_failed (s : State) : State :=
  setErrorMessage (Js.Str "Failed to download receipt. Please try again.")
    (emit (EConsoleError "Error generating receipt image:") s).

(** What can happen to an open dialog, one callback at a time. *)
Inductive Action : Type :=
| QrEffect (props : Props) (now : Z) (handle : nat)
| QrAnswer (outcome : KhqrOutcome)
| QrStore (env : Env) (handle : nat)
| PollTick (outcome : AxiosOutcome)
| CountdownTick (now : Z)
| ExpiryTimeout (captured : string)
| CooldownTick
| Continue
| Cleanup
| LatePollAnswer (outcome : AxiosOutcome)
| PayNowEffect (handle : nat)
| PayNowTick
| ReceiptFailed.

(** One action.  The countdown only ticks while a QR code is shown and
    has not expired; an expiry timeout only fires with a hash one of the
    installed callbacks closed over.  A poll tick is a request of
    [verifyPayment] together with its answer; [LatePollAnswer] is an
    answer that other callbacks have overtaken. *)
Definition act (a : Action) (d : Dialog) : Dialog :=
  match a with
  | QrEffect props now handle => generateKHQR_begin props now handle d
  | QrAnswer outcome => generateKHQR_answered outcome d
  | QrStore env handle => generateKHQR_stored env handle d
  | PollTick outcome => with_core (verifyPayment outcome) d
  | CountdownTick now =>
    if negb (String.eqb (qrCode d) "") && negb (qrExpired (core d))
    then countdown_tick now d else d
  | ExpiryTimeout captured =>
    if existsb (String.eqb captured) (expiry_callbacks d)
    then expiry_timeout captured d else d
  | CooldownTick => cooldown_tick d
  | Continue => handleContinue d
  | Cleanup => with_core cleanup d
  | LatePollAnswer outcome => with_core (verifyPayment_late outcome) d
  | PayNowEffect handle => payNow_effect handle d
  | PayNowTick => payNow_tick d
  | ReceiptFailed => with_core receipt_failed d
  end.

(** The dialog after a sequence of actions, from its opening. *)
Definition life (actions : list Action) : Dialog :=
  fold_left (fun d a => act a d) actions opened.

(** A clock that reads at least three minutes past the epoch whenever a QR
    code is asked for. *)
Definition after_1970 (a : Action) : Prop :=
  match a with
  | QrEffect _ now _ => (QR_COOLDOWN_PERIOD * 1000 <= now)%Z
  | _ => True
  end.

Definition token_creations (d : Dialog) : list Event :=
  filter creates_token (effects (core d)).

(** The updates of [payment_tokens] the dialog has built. *)
Definition token_updates (d : Dialog) : list Event :=
  filter builds_update (effects (core d)).

(** What holds of every dialog, whatever has happened to it. *)
Definition consistent (d : Dialog) : Prop :=
  (qrCode d = ""%string ->
   md5Hash (core d) = ""%string /\ lastQrGeneration d = 0%Z /\
   token_creations d = []) /\
  (md5Hash (core d) = ""%string -> qrCode d = ""%string) /\
  List.length (token_creations d) <= 1 /\
  Forall (fun h => h = ""%string) (expiry_callbacks d) /\
  match flight d with
  | None =>
    status (core d) = Pending \/ status (core d) = Checking ->
    qrCode d <> ""%string ->
    exists info,
      token_creations d =
      [ERpcCreatePaymentToken (md5Hash (core d)) "pending" info]
  | Some run =>
    isProcessing d = true /\ captured_hash run = ""%string /\
    match stage run with
    | AwaitingKhqr => qrCode d = ""%string
    | AwaitingStore md5 =>
      qrCode d <> ""%string /\ md5Hash (core d) = md5 /\ token_creations d = []
    end
  end.

End QrIssuance.

(** ** The order lookup dialog *)
Module OrderLookup.

(** [OrderDetails].  The fields copied from the row are kept as the values
    they are, [None] for [undefined]. *)
Module Details.

Record t : Type := {
  transaction : option Js.value;
  game : string;
  amount : string;
  item : option Js.value;
  userId : option Js.value;
  serverId : option Js.value;
  orderId : string;
  orderDate : option Js.value
}.

End Details.

Inductive Event : Type :=
| EConsoleLog (what : string)
| EConsoleError (what : string)
| ESelectOrders (searchId : string).

(** A row of [payment_tokens] as [select('order_data')] returns it. *)
Record Row : Type := { order_data : Js.value }.

(** What awaiting the query gives: the promise rejects, or it resolves to
    [{ data, error }]. *)
Inductive SearchOutcome : Type :=
| SearchRejected
| SearchResolved (data : option (list Row)) (searchError : option Js.value).

Record Env : Type := {
  (** [String.prototype.trim] *)
  trim : string -> string;
  (** The text of a number in a template literal. *)
  number_toString : float -> string;
  (** The rows whose [order_data->>orderId] is the given text. *)
  select_orders : string -> SearchOutcome;
  (** The error of [supabase.auth.getSession()]. *)
  session_error : option Js.value
}.

Record State : Type := {
  orderId : string;
  loading : bool;
  error : option string;
  orderDetails : option Details.t;
  effects : list Event
}.

Definition emit (e : Event) (s : State) : State :=
  {| orderId := orderId s; loading := loading s; error := error s;
     orderDetails := orderDetails s; effects := effects s ++ [e] |}.

Definition setOrderId (v : string) (s : State) : State :=
  {| orderId := v; loading := loading s; error := error s;
     orderDetails := orderDetails s; effects := effects s |}.

Definition setLoading (v : bool) (s : State) : State :=
  {| orderId := orderId s; loading := v; error := error s;
     orderDetails := orderDetails s; effects := effects s |}.

Definition setError (v : option string) (s : State) : State :=
  {| orderId := orderId s; loading := loading s; error := v;
     orderDetails := orderDetails s; effects := effects s |}.

Definition setOrderDetails (v : option Details.t) (s : State) : State :=
  {| orderId := orderId s; loading := loading s; error := error s;
     orderDetails := v; effects := effects s |}.

(** The initial values of the [useState] cells. *)
Definition opened : State :=
  {| orderId := ""; loading := false; error := None; orderDetails := None;
     effects := [] |}.

(** [replace(/^S/, '')] *)
Definition strip_S (s : string) : string :=
  match s with
  | String c rest => if Ascii.eqb c "S"%char then rest else s
  | EmptyString => s
  end.

(** [v === s] for a string literal [s]. *)
Definition strict_eq_str (v : option Js.value) (s : string) : bool :=
  match v with
  | Some (Js.Str x) => String.eqb x s
  | _ => false
  end.

Definition not_found_message : string := "Order not found".
Definition multiple_message : string :=
  "Multiple orders found. Please contact support.".
Definition search_failed_message : string :=
  "Failed to search order. Please try again.".

Definition searches (s : State) : list string :=
  flat_map (fun e => match e with ESelectOrders k => [k] | _ => [] end)
    (effects s).

Section WithEnv.

Variable env : Env.

(** ToString, for a value in a template literal. *)
Fixpoint ToString (v : Js.value) : string :=
  match v with
  | Js.Null => "null"
  | Js.Bool b => if b then "true" else "false"
  | Js.Num x => number_toString env x
  | Js.Str s => s
  | Js.Arr items =>
    String.concat ","
      (map (fun i => match i with Js.Null => ""%string | _ => ToString i end) items)
  | Js.Obj _ => "[object Object]"
  end.

Definition interpolate (v : option Js.value) : string :=
  match v with
  | None => "undefined"
  | Some x => ToString x
  end.

(** A property of the order that is known to be readable. *)
Definition read (orderData : Js.value) (key : string) : option Js.value :=
  match Js.get orderData key with
  | Js.Got v => v
  | Js.Throws => None
  end.

(** The object literal [details]; [None] when reading the order throws. *)
Definition format_details (orderData : Js.value) : option Details.t :=
  match Js.get orderData "transactionId" with
  | Js.Throws => None
  | Js.Got transactionId =>
    Some
      {| Details.transaction := transactionId;
         Details.game :=
           if strict_eq_str (read orderData "game") "mlbb"
           then "Mobile Legends" else "Free Fire";
         Details.amount := String.append (interpolate (read orderData "amount")) " $";
         Details.item := read orderData "item";
         Details.userId := read orderData "userId";
         Details.serverId := read orderData "serverId";
         Details.orderId := String.append "S" (interpolate (read orderData "orderId"));
         Details.orderDate := read orderData "orderDate" |}
  end.

(** The effect that runs when the dialog is mounted. *)
Definition authenticate (s : State) : State :=
  if Js.truthy (session_error env) then
    setError (Some "Failed to authenticate. Please try again."%string)
      (emit (EConsoleError "Authentication error:") s)
  else s.

(** The [catch] and [finally] of [handleSubmit]. *)
Definition search_failed (s : State) : State :=
  setLoading false
    (setError (Some search_failed_message)
       (emit (EConsoleError "Error searching order:") s)).

(** [handleSubmit(e)] *)
Definition handleSubmit (s : State) : State :=
  if String.eqb (trim env (orderId s)) "" then s
  else
    let s1 := setOrderDetails None (setError None (setLoading true s)) in
    let searchId := strip_S (trim env (orderId s)) in
    let s2 :=
      emit (ESelectOrders searchId)
        (emit (EConsoleLog "Searching for orderId:") s1) in
    match select_orders env searchId with
    | SearchRejected => search_failed s2
    | SearchResolved data searchError =>
      if Js.truthy searchError then search_failed s2
      else
        let s3 := emit (EConsoleLog "Query result:") s2 in
        match data with
        | None | Some [] =>
          setLoading false (setError (Some not_found_message) s3)
        | Some [row] =>
          match format_details (order_data row) with
          | Some details => setLoading false (setOrderDetails (Some details) s3)
          | None => search_failed s3
          end
        | Some (_ :: _ :: _) =>
          setLoading false (setError (Some multiple_message) s3)
        end
    end.

End WithEnv.

End OrderLookup.

(** ** Concrete inputs used by the examples below *)
Module Scenario.

(** A well-formed settlement-check request. *)
Definition check_request : VerifyEndpoint.Request :=
  {| VerifyEndpoint.method := "POST";
     VerifyEndpoint.body := Some (Js.Obj [("md5", Js.Str "9f2c")]%string) |}.

(** A request whose body is not JSON. *)
Definition garbled_request : VerifyEndpoint.Request :=
  {| VerifyEndpoint.method := "POST"; VerifyEndpoint.body := None |}.

(** The switch answers 403 with an HTML page on every attempt. *)
Definition forbidden_html : nat -> FetchOutcome :=
  fun _ => FetchResponded 403 None.

(** The switch is unreachable on every attempt. *)
Definition unreachable : nat -> FetchOutcome := fun _ => FetchRejected.

(** One unused token, created at time 1000, for the payment [9f2c]. *)
Definition token7 : Sweep.Token :=
  {| Sweep.id := 7; Sweep.md5_column := "9f2c"; Sweep.status := "pending";
     Sweep.used := false; Sweep.created_at := 1000;
     Sweep.order_data :=
       {| Sweep.md5 := Some "9f2c"%string;
          Sweep.mainMessage := "12345 6789 86";
          Sweep.orderMessage := "Top up successful" |} |}.

Definition fresh_world : Sweep.World :=
  {| Sweep.store := [token7]; Sweep.messageQueue := [];
     Sweep.isProcessingQueue := false; Sweep.tick := 0; Sweep.log := [] |}.

Definition settled_answer : FetchOutcome :=
  FetchResponded 200 (Some (Js.Obj [("responseCode", Js.Num 0)]%string)).

Definition pending_answer : FetchOutcome :=
  FetchResponded 200 (Some (Js.Obj [("responseCode", Js.Num 1)]%string)).

(** The payment is settled, the store and Telegram work; the clock reads
    2000 throughout. *)
Definition all_well : Sweep.Env :=
  {| Sweep.select_error := fun _ => false;
     Sweep.switch := fun _ => settled_answer;
     Sweep.update_error := fun _ => false;
     Sweep.telegram := fun _ => Sweep.TgAnswered true;
     Sweep.date_now := fun _ => 2000%Z;
     Sweep.TELEGRAM_CHAT_ID := "-100777" |}.

(** As [all_well], but Telegram cannot be reached. *)
Definition telegram_down : Sweep.Env :=
  {| Sweep.select_error := fun _ => false;
     Sweep.switch := fun _ => settled_answer;
     Sweep.update_error := fun _ => false;
     Sweep.telegram := fun _ => Sweep.TgRejected;
     Sweep.date_now := fun _ => 2000%Z;
     Sweep.TELEGRAM_CHAT_ID := "-100777" |}.

(** As [all_well], but the switch reports settled on the first check of a
    run only (tick 1; the select is tick 0) and pending afterwards. *)
Definition flaky_switch : Sweep.Env :=
  {| Sweep.select_error := fun _ => false;
     Sweep.switch := fun k => if k =? 1 then settled_answer else pending_answer;
     Sweep.update_error := fun _ => false;
     Sweep.telegram := fun _ => Sweep.TgAnswered true;
     Sweep.date_now := fun _ => 2000%Z;
     Sweep.TELEGRAM_CHAT_ID := "-100777" |}.

(** As [all_well], but the store refuses the update. *)
Definition store_refuses : Sweep.Env :=
  {| Sweep.select_error := fun _ => false;
     Sweep.switch := fun _ => settled_answer;
     Sweep.update_error := fun _ => true;
     Sweep.telegram := fun _ => Sweep.TgAnswered true;
     Sweep.date_now := fun _ => 2000%Z;
     Sweep.TELEGRAM_CHAT_ID := "-100777" |}.

(** A world in which two notifications wait in the queue. *)
Definition two_queued : Sweep.World :=
  {| Sweep.store := [token7];
     Sweep.messageQueue :=
       [ {| Sweep.chatId := "-100777"; Sweep.text := "first";
            Sweep.timestamp := 1500; Sweep.retryCount := 1 |};
         {| Sweep.chatId := "-1002399561845"; Sweep.text := "second";
            Sweep.timestamp := 1600; Sweep.retryCount := 2 |} ];
     Sweep.isProcessingQueue := false; Sweep.tick := 0; Sweep.log := [] |}.

(** The same world while another drain is under way. *)
Definition drain_under_way : Sweep.World := Sweep.set_flag true two_queued.

(** The dialog while it polls for the payment [9f2c]. *)
Definition polling_dialog : PaymentModal.State :=
  {| PaymentModal.status := PaymentModal.Checking;
     PaymentModal.errorMessage := Js.Str "";
     PaymentModal.md5Hash := "9f2c";
     PaymentModal.showSuccessAnimation := false;
     PaymentModal.transactionId := "";
     PaymentModal.showMessage := false;
     PaymentModal.qrExpired := false;
     PaymentModal.timers :=
       {| PaymentModal.qrTimeoutRef := None;
          PaymentModal.cooldownIntervalRef := Some 1;
          PaymentModal.pollIntervalRef := Some 2;
          PaymentModal.expiryTimeoutRef := Some 3;
          PaymentModal.payNowCooldownRef := None |};
     PaymentModal.effects := [] |}.

Definition refused_answer : FetchOutcome :=
  FetchResponded 200 (Some (Js.Obj [("responseCode", Js.Num 2)]%string)).

(** An order for product 86, shown to the buyer at 10.00, no discount. *)
Definition order_at_ten : PaymentModal.Props :=
  {| PaymentModal.form :=
       {| PaymentModal.userId := "12345"; PaymentModal.serverId := "6789";
          PaymentModal.game := "mlbb"; PaymentModal.nickname := None;
          PaymentModal.product :=
            Some {| PaymentModal.product_id := 86;
                    PaymentModal.name := "86 Diamonds";
                    PaymentModal.code := None;
                    PaymentModal.diamonds := Some 86%float;
                    PaymentModal.price := 10%float |} |};
     PaymentModal.discountPercent := 0%float |}.

(** The catalog now lists every product at [catalog]; resellers, when
    [reseller] is set, have the override price [override]. *)
Definition shop (catalog : float) (reseller : bool) (override : option float)
  : PaymentModal.Env :=
  {| PaymentModal.product_query := fun _ _ => Some catalog;
     PaymentModal.reseller_query := fun _ _ => override;
     PaymentModal.reseller_auth := if reseller then Some "true"%string else None;
     PaymentModal.rpc_create_payment_token := PaymentModal.RpcData "tok-1";
     PaymentModal.random_six_digits := 123456;
     PaymentModal.now_string := "1742562960620";
     PaymentModal.locale_date := "21/03/2025 20:16:00";
     PaymentModal.show_number := fun _ => "10"%string;
     PaymentModal.show_int := fun _ => "123456"%string |}.

(** The switch cannot be reached at the first attempt and reports the
    payment settled at the second. *)
Definition second_try_settles : nat -> FetchOutcome :=
  fun k => if k =? 1 then settled_answer else FetchRejected.

(** A world whose queue holds two notifications that have used up their
    retries. *)
Definition spent_queue : Sweep.World :=
  {| Sweep.store := [token7];
     Sweep.messageQueue :=
       [ {| Sweep.chatId := "-100777"; Sweep.text := "first";
            Sweep.timestamp := 1500; Sweep.retryCount := 3 |};
         {| Sweep.chatId := "-1002399561845"; Sweep.text := "second";
            Sweep.timestamp := 1600; Sweep.retryCount := 4 |} ];
     Sweep.isProcessingQueue := false; Sweep.tick := 0; Sweep.log := [] |}.

(** A second row for the payment [9f2c], created a little later. *)
Definition token8 : Sweep.Token :=
  {| Sweep.id := 8; Sweep.md5_column := "9f2c"; Sweep.status := "pending";
     Sweep.used := false; Sweep.created_at := 1100;
     Sweep.order_data :=
       {| Sweep.md5 := Some "9f2c"%string;
          Sweep.mainMessage := "12345 6789 86";
          Sweep.orderMessage := "Top up successful" |} |}.

Definition shared_hash_world : Sweep.World :=
  {| Sweep.store := [token7; token8]; Sweep.messageQueue := [];
     Sweep.isProcessingQueue := false; Sweep.tick := 0; Sweep.log := [] |}.

(** The switch cannot be reached at the first attempt; at the second it
    answers 200 with a [responseCode] too large for binary64, which
    decodes as infinity. *)
Definition overflowing_answer : nat -> FetchOutcome :=
  fun k =>
    if k =? 1
    then FetchResponded 200
           (Some (Js.Obj [("responseCode", Js.Num infinity);
                          ("error", Js.Num infinity)]%string))
    else FetchRejected.

(** An order for a product shown at 12.67 with a discount of 33 percent:
    the buyer is shown 8.49. *)
Definition discounted_order : PaymentModal.Props :=
  {| PaymentModal.form :=
       {| PaymentModal.userId := "12345"; PaymentModal.serverId := "6789";
          PaymentModal.game := "mlbb"; PaymentModal.nickname := None;
          PaymentModal.product :=
            Some {| PaymentModal.product_id := 86;
                    PaymentModal.name := "86 Diamonds";
                    PaymentModal.code := None;
                    PaymentModal.diamonds := Some 86%float;
                    PaymentModal.price := 12.67%float |} |};
     PaymentModal.discountPercent := 33%float |}.


(** The QR service answers with an image for the payment [9f2c]. *)
Definition qr_answer : QrIssuance.KhqrOutcome :=
  QrIssuance.KhqrAnswered 200 true "data:image/png;base64,iVBOR" "9f2c".

(** A dialog for [order_at_ten]: the buyer continues, the QR code is
    asked for at time 1742562960620, it arrives, and the payment is
    stored. *)
Definition issuance : list QrIssuance.Action :=
  [ QrIssuance.Continue;
    QrIssuance.QrEffect order_at_ten 1742562960620 4;
    QrIssuance.QrAnswer qr_answer;
    QrIssuance.QrStore (shop 10 false None) 5 ].

(** The same dialog when the request for the QR code fails instead. *)
Definition failed_request : QrIssuance.Dialog :=
  QrIssuance.generateKHQR_answered (QrIssuance.KhqrFailed None)
    (QrIssuance.generateKHQR_begin order_at_ten 1742562960620 4
       (QrIssuance.handleContinue QrIssuance.opened)).

(** What follows: the effect runs again, a tick finds the payment
    pending, the countdown ticks after six minutes, the answer to an
    earlier tick arrives, and the effect runs once more. *)
Definition aftermath : list QrIssuance.Action :=
  [ QrIssuance.QrEffect order_at_ten 1742562962000 6;
    QrIssuance.QrAnswer qr_answer;
    QrIssuance.PollTick
      (PaymentModal.AxiosResolved (Js.Obj [("responseCode", Js.Num 1)]%string));
    QrIssuance.CountdownTick 1742563320620;
    QrIssuance.LatePollAnswer
      (PaymentModal.AxiosResolved (Js.Obj [("responseCode", Js.Num 0)]%string));
    QrIssuance.QrEffect order_at_ten 1742563321000 7 ].

(** [trim] on texts whose white space is ASCII. *)
Definition is_space (c : ascii) : bool :=
  let n := nat_of_ascii c in (n =? 32) || ((9 <=? n) && (n <=? 13)).

Fixpoint trim_start (s : string) : string :=
  match s with
  | String c rest => if is_space c then trim_start rest else s
  | EmptyString => EmptyString
  end.

Fixpoint trim_end (s : string) : string :=
  match s with
  | String c rest =>
    match trim_end rest with
    | EmptyString => if is_space c then EmptyString else String c EmptyString
    | kept => String c kept
    end
  | EmptyString => EmptyString
  end.

(** The order of [order_at_ten] as a row of the lookup. *)
Definition order_row : OrderLookup.Row :=
  {| OrderLookup.order_data :=
       Js.Obj [ ("transactionId", Js.Str "tb123456");
                ("game", Js.Str "mlbb");
                ("amount", Js.Num 10);
                ("item", Js.Str "86 Diamonds");
                ("userId", Js.Str "12345");
                ("serverId", Js.Str "6789");
                ("orderId", Js.Str "1742562960620");
                ("orderDate", Js.Str "21/03/2025 20:16:00") ]%string |}.

(** A database that holds this one order. *)
Definition order_desk : OrderLookup.Env :=
  {| OrderLookup.trim := fun s => trim_end (trim_start s);
     OrderLookup.number_toString := fun _ => "10"%string;
     OrderLookup.select_orders :=
       fun searchId =>
         if String.eqb searchId "1742562960620"
         then OrderLookup.SearchResolved (Some [order_row]) None
         else OrderLookup.SearchResolved (Some []) None;
     OrderLookup.session_error := None |}.

(** The buyer has typed the order id with a space around it. *)
Definition typed_order_id : OrderLookup.State :=
  OrderLookup.setOrderId " S1742562960620 " OrderLookup.opened.

End Scenario.

(* ===================================================================== *)
(** * Properties *)
(* ===================================================================== *)

(** ** JSON written and read back *)
Section JsonFacts.

Lemma equal_to_itself (s : bool) (m : positive) (e : Z) :
  SpecFloat.SFeqb (SpecFloat.S754_finite s m e) (SpecFloat.S754_finite s m e) = true.
Proof.
  unfold SpecFloat.SFeqb, SpecFloat.SFcompare.
  change (IntDef.Z.compare e e) with (Z.compare e e).
  rewrite Z.compare_refl.
  change (PosDef.Pos.compare_cont Eq m m) with (Pos.compare m m).
  rewrite Pos.compare_refl. destruct s; reflexivity.
Qed.

(** The three kinds of number [Js.through_json] tells apart: a zero,
    which compares as 0 does; another finite number; and an infinity or
    NaN, which equals no finite number. *)
Lemma binary64_kinds (x : float) :
  (PrimFloat.is_finite x = true /\ PrimFloat.eqb x 0 = true /\
   forall n, PrimFloat.eqb x n = PrimFloat.eqb 0 n) \/
  (PrimFloat.is_finite x = true /\ PrimFloat.eqb x 0 = false) \/
  (PrimFloat.is_finite x = false /\
   forall n, PrimFloat.is_finite n = true -> PrimFloat.eqb x n = false).
Proof.
  unfold PrimFloat.is_finite, PrimFloat.is_nan, PrimFloat.is_infinity.
  rewrite !FloatAxioms.eqb_spec, FloatAxioms.abs_spec.
  change (FloatOps.Prim2SF infinity) with (SpecFloat.S754_infinity false).
  change (FloatOps.Prim2SF 0) with (SpecFloat.S754_zero false).
  destruct (FloatOps.Prim2SF x) as [s|s| |s m e] eqn:Hx.
  - left. split; [reflexivity |]. split; [reflexivity |].
    intros n. rewrite !FloatAxioms.eqb_spec, Hx.
    change (FloatOps.Prim2SF 0) with (SpecFloat.S754_zero false).
    destruct (FloatOps.Prim2SF n); reflexivity.
  - right. right. split; [destruct s; reflexivity |].
    intros n. unfold PrimFloat.is_finite, PrimFloat.is_nan, PrimFloat.is_infinity.
    rewrite !FloatAxioms.eqb_spec, FloatAxioms.abs_spec, Hx.
    change (FloatOps.Prim2SF infinity) with (SpecFloat.S754_infinity false).
    destruct (FloatOps.Prim2SF n) as [t|t| |t m e]; try (destruct s; reflexivity);
      destruct t; discriminate.
  - right. right. split; [reflexivity |].
    intros n _. rewrite FloatAxioms.eqb_spec, Hx. reflexivity.
  - right. left. simpl SpecFloat.SFabs. rewrite !equal_to_itself.
    split; [reflexivity |]. destruct s; reflexivity.
Qed.

Lemma assoc_through_json (key : string) (fields : list (string * Js.value)) :
  Js.assoc key (map (fun kv => (fst kv, Js.through_json (snd kv))) fields) =
  option_map Js.through_json (Js.assoc key fields).
Proof.
  induction fields as [|[k v] rest IH]; [reflexivity |].
  simpl. destruct (String.eqb k key); [reflexivity | exact IH].
Qed.

(** A property the switch's body has is read from the relayed body as
    its relayed value. *)
Lemma get_through_json (data : Js.value) (key : string) (v : Js.value) :
  Js.get data key = Js.Got (Some v) ->
  Js.get (Js.through_json data) key = Js.Got (Some (Js.through_json v)).
Proof.
  destruct data as [|b|x|t|items|fields]; try discriminate.
  simpl. intros [= Hfound]. rewrite assoc_through_json, Hfound. reflexivity.
Qed.

(** A finite number literal is found in the relayed body exactly where it
    was in the switch's. *)
Lemma strict_eq_num_through_json (v : option Js.value) (n : float) :
  PrimFloat.is_finite n = true ->
  Js.strict_eq_num (option_map Js.through_json v) n = Js.strict_eq_num v n.
Proof.
  intros Hn. destruct v as [[|b|x|t|items|fields]|]; try reflexivity.
  simpl.
  destruct (binary64_kinds x) as [(Hf & Hz & Hsame) | [(Hf & Hz) | (Hf & Hnone)]];
    rewrite Hf, ?Hz; simpl.
  - symmetry. apply Hsame.
  - reflexivity.
  - symmetry. apply Hnone, Hn.
Qed.

End JsonFacts.

(** ** The verify-payment endpoint *)
Section VerifyEndpointFacts.

Import VerifyEndpoint.

Variable net : nat -> FetchOutcome.

Lemma retry_loop_total (md5 : option Js.value) :
  forall fuel attempts log,
    maxAttempts - attempts <= fuel ->
    exists r, retry_loop fuel net md5 attempts log = Some r.
Proof.
  induction fuel as [|fuel IH]; intros attempts log Hfuel; simpl.
  - destruct (Nat.ltb_spec attempts maxAttempts) as [Hlt|Hge]; [lia | eauto].
  - destruct (Nat.ltb_spec attempts maxAttempts) as [Hlt|Hge]; [| eauto].
    destruct (net attempts) as [|st [data|]].
    + apply IH; lia.
    + destruct (status_ok st); [eauto |].
      destruct ((400 <=? st) && (st <? 500))%Z; [eauto |].
      apply IH; lia.
    + apply IH; lia.
Qed.

Lemma handler_total (request : Request) :
  exists r, handler net request = Some r.
Proof.
  unfold handler.
  destruct (String.eqb (method request) "OPTIONS"); [eauto |].
  destruct (negb (String.eqb (method request) "POST")); [eauto |].
  destruct (read_md5 request); [| eauto].
  apply retry_loop_total. lia.
Qed.

Lemma fetches_app (l1 l2 : list Event) :
  fetches (l1 ++ l2) = fetches l1 + fetches l2.
Proof. unfold fetches. rewrite filter_app, length_app. reflexivity. Qed.

Lemma fetches_pause_after (n : nat) (log : list Event) :
  fetches (pause_after n log) = fetches log.
Proof.
  unfold pause_after. destruct (n <? maxAttempts); [| reflexivity].
  rewrite fetches_app. cbn. lia.
Qed.

Lemma fetches_one_fetch (md5 : option Js.value) :
  fetches [EFetchSwitch md5] = 1.
Proof. reflexivity. Qed.

Lemma fetches_one_failure (n : nat) : fetches [EAttemptFailed n] = 0.
Proof. reflexivity. Qed.

(** The loop never issues more fetches than attempts remain. *)
Lemma retry_loop_fetch_budget (md5 : option Js.value) :
  forall fuel attempts log r log',
    retry_loop fuel net md5 attempts log = Some (r, log') ->
    fetches log' <= fetches log + (maxAttempts - attempts).
Proof.
  induction fuel as [|fuel IH]; intros attempts log r log' Hrun; simpl in Hrun.
  - destruct (Nat.ltb_spec attempts maxAttempts); [discriminate |].
    injection Hrun as _ <-. lia.
  - destruct (Nat.ltb_spec attempts maxAttempts) as [Hlt|Hge].
    2: { injection Hrun as _ <-. lia. }
    destruct (net attempts) as [|st [data|]].
    + apply IH in Hrun.
      rewrite fetches_pause_after, !fetches_app, fetches_one_fetch,
        fetches_one_failure in Hrun. lia.
    + destruct (status_ok st).
      { injection Hrun as _ <-. rewrite fetches_app, fetches_one_fetch. lia. }
      destruct ((400 <=? st) && (st <? 500))%Z.
      { injection Hrun as _ <-. rewrite fetches_app, fetches_one_fetch. lia. }
      apply IH in Hrun.
      rewrite fetches_pause_after, fetches_app, fetches_one_fetch in Hrun. lia.
    + apply IH in Hrun.
      rewrite fetches_pause_after, !fetches_app, fetches_one_fetch,
        fetches_one_failure in Hrun. lia.
Qed.

(** At most three requests reach the switch for one call of the endpoint. *)
Lemma handler_at_most_three_fetches (request : Request) r log :
  handler net request = Some (r, log) -> fetches log <= 3.
Proof.
  unfold handler.
  destruct (String.eqb (method request) "OPTIONS").
  { intros H; injection H as _ <-. cbv; lia. }
  destruct (negb (String.eqb (method request) "POST")).
  { intros H; injection H as _ <-. cbv; lia. }
  destruct (read_md5 request) as [md5|].
  - intros H. apply retry_loop_fetch_budget in H. simpl in H. exact H.
  - intros H; injection H as _ <-. cbv; lia.
Qed.

Lemma retry_loop_exhausted (md5 : option Js.value) :
  forall fuel attempts log,
    (forall k, attempts <= k < maxAttempts -> retried (net k) = true) ->
    maxAttempts - attempts <= fuel ->
    exists log',
      retry_loop fuel net md5 attempts log =
      Some (failure_response exhausted_message, log').
Proof.
  induction fuel as [|fuel IH]; intros attempts log Hall Hfuel; simpl.
  - destruct (Nat.ltb_spec attempts maxAttempts); [lia | eauto].
  - destruct (Nat.ltb_spec attempts maxAttempts) as [Hlt|Hge]; [| eauto].
    assert (Hre : retried (net attempts) = true) by (apply Hall; lia).
    assert (Hnext : forall k, S attempts <= k < maxAttempts -> retried (net k) = true)
      by (intros k Hk; apply Hall; lia).
    destruct (net attempts) as [|st [data|]]; simpl in Hre.
    + apply IH; [exact Hnext | lia].
    + apply andb_prop in Hre as [Hok Hclient].
      apply negb_true_iff in Hok, Hclient. rewrite Hok, Hclient.
      apply IH; [exact Hnext | lia].
    + apply IH; [exact Hnext | lia].
Qed.

(** What a reader of the body alone makes of a failure answer: the poll
    logic of the dialog takes it for a payment that is still pending. *)
Lemma failure_body_reads_as_pending (msg : string) (s : PaymentModal.State) :
  PaymentModal.qrExpired s = false ->
  PaymentModal.verifyPayment
    (PaymentModal.AxiosResolved
       (Js.Obj [("error", Js.Str msg); ("responseCode", Js.Num 1)]%string)) s =
  PaymentModal.emit (PaymentModal.EConsoleLog "Payment still pending for MD5:")
    (PaymentModal.emit
       (PaymentModal.EAxiosPost "/api/verify-payment" (PaymentModal.md5Hash s)) s).
Proof.
  intros Hlive. unfold PaymentModal.verifyPayment. rewrite Hlive.
  reflexivity.
Qed.

(** C10.  When the retry budget is used up, or when reading the request
    throws into the outer handler, the endpoint answers with status 500 and
    a JSON body whose [responseCode] is 1, the switch's code for a payment
    that is still pending; the dialog's own poll logic, given this body
    alone, takes the still-pending branch. *)
Theorem failure_answer_is_500_with_pending_code (request : Request) :
  method request = "POST"%string ->
  read_md5 request = None \/ exhausts net ->
  exists answer done data,
    handler net request = Some (answer, done) /\
    status answer = 500%Z /\
    payload answer = Some data /\
    Js.get data "responseCode" = Js.Got (Some (Js.Num 1)) /\
    forall s, PaymentModal.qrExpired s = false ->
      PaymentModal.verifyPayment (PaymentModal.AxiosResolved data) s =
      PaymentModal.emit (PaymentModal.EConsoleLog "Payment still pending for MD5:")
        (PaymentModal.emit
           (PaymentModal.EAxiosPost "/api/verify-payment" (PaymentModal.md5Hash s)) s).
Proof.
  intros Hpost Hwhy. unfold handler. rewrite Hpost.
  change (String.eqb "POST" "OPTIONS") with false.
  change (negb (String.eqb "POST" "POST")) with false. cbv iota.
  destruct (read_md5 request) as [md5|] eqn:Hread.
  - destruct Hwhy as [Hnone | Hall]; [discriminate |].
    destruct (retry_loop_exhausted md5 maxAttempts 0 []) as [log' Hrun].
    + intros k Hk. apply Hall. lia.
    + lia.
    + rewrite Hrun. eexists _, _, _. repeat split.
      intros s Hlive. apply failure_body_reads_as_pending, Hlive.
  - eexists _, _, _. repeat split.
    intros s Hlive. apply failure_body_reads_as_pending, Hlive.
Qed.

(** A 4xx answer whose body decodes is passed on at once: the attempt that
    receives it is the last one. *)
Lemma client_error_returned_at_once (md5 : option Js.value) (st : Z) (data : Js.value) :
  forall fuel attempts log,
    attempts < maxAttempts ->
    net attempts = FetchResponded st (Some data) ->
    client_error st = true ->
    retry_loop (S fuel) net md5 attempts log =
    Some (relayed_response st data, log ++ [EFetchSwitch md5]).
Proof.
  intros fuel attempts log Hlt Hnet Hclient. simpl.
  apply Nat.ltb_lt in Hlt. rewrite Hlt, Hnet.
  assert (Hok : status_ok st = false).
  { unfold client_error in Hclient. unfold status_ok.
    apply andb_prop in Hclient as [Hlo _].
    apply andb_false_iff. right. apply Z.leb_gt. apply Z.leb_le in Hlo. lia. }
  rewrite Hok. unfold client_error in Hclient. rewrite Hclient. reflexivity.
Qed.

(** Delays only separate attempts: a run that made [n] fetches slept
    [n - 1] times, one second each. *)
Lemma pauses_between_attempts (request : Request) r log :
  handler net request = Some (r, log) ->
  sleeps log = repeat retryDelay (fetches log - 1).
Proof.
  unfold handler.
  destruct (String.eqb (method request) "OPTIONS").
  { intros H; injection H as _ <-. reflexivity. }
  destruct (negb (String.eqb (method request) "POST")).
  { intros H; injection H as _ <-. reflexivity. }
  destruct (read_md5 request) as [md5|].
  2: { intros H; injection H as _ <-. reflexivity. }
  simpl. intros H.
  repeat match type of H with
         | context [match net ?k with _ => _ end] =>
           destruct (net k) as [|? [?|]]
         | context [if ?b then _ else _] => destruct b
         end;
    injection H as _ <-; reflexivity.
Qed.

(** The endpoint always answers, after at most three requests to the
    switch, and it sleeps one second between two attempts and at no other
    time. *)
Theorem endpoint_answers_within_budget (request : Request) :
  exists answer log,
    handler net request = Some (answer, log) /\
    fetches log <= maxAttempts /\
    sleeps log = repeat retryDelay (fetches log - 1).
Proof.
  destruct (handler_total request) as [[answer log] Hrun].
  exists answer, log. split; [exact Hrun |]. split.
  - exact (handler_at_most_three_fetches request answer log Hrun).
  - exact (pauses_between_attempts request answer log Hrun).
Qed.

Lemma retry_loop_reaches (md5 : option Js.value) (st : Z) (data : Js.value) :
  forall k fuel attempts log,
    attempts + k < maxAttempts ->
    (forall j, attempts <= j < attempts + k -> retried (net j) = true) ->
    net (attempts + k) = FetchResponded st (Some data) ->
    client_error st = true ->
    k < fuel ->
    exists log',
      retry_loop fuel net md5 attempts log = Some (relayed_response st data, log') /\
      fetches log' = fetches log + S k.
Proof.
  induction k as [|k IH]; intros fuel attempts log Hlt Hskip Hnet Hclient Hfuel.
  - destruct fuel as [|fuel]; [lia |].
    rewrite Nat.add_0_r in Hnet, Hlt.
    rewrite (client_error_returned_at_once md5 st data fuel attempts log Hlt Hnet Hclient).
    eexists. split; [reflexivity |].
    rewrite fetches_app, fetches_one_fetch. reflexivity.
  - destruct fuel as [|fuel]; [lia |].
    assert (Hhere : retried (net attempts) = true) by (apply Hskip; lia).
    assert (Hbelow : (attempts <? maxAttempts) = true) by (apply Nat.ltb_lt; lia).
    replace (attempts + S k) with (S attempts + k) in Hnet, Hlt by lia.
    assert (Hnext : forall j, S attempts <= j < S attempts + k -> retried (net j) = true)
      by (intros j Hj; apply Hskip; lia).
    simpl retry_loop. rewrite Hbelow.
    destruct (net attempts) as [|st0 [data0|]]; simpl in Hhere.
    + destruct (IH fuel (S attempts)
                  (pause_after (S attempts)
                     ((log ++ [EFetchSwitch md5]) ++ [EAttemptFailed (attempts + 1)]))
                  Hlt Hnext Hnet Hclient ltac:(lia)) as (log' & Hrun & Hcount).
      exists log'. split; [exact Hrun |].
      rewrite Hcount, fetches_pause_after, !fetches_app, fetches_one_fetch,
        fetches_one_failure. lia.
    + apply andb_prop in Hhere as [Hok Hnot].
      apply negb_true_iff in Hok, Hnot. rewrite Hok, Hnot.
      destruct (IH fuel (S attempts)
                  (pause_after (S attempts) (log ++ [EFetchSwitch md5]))
                  Hlt Hnext Hnet Hclient ltac:(lia)) as (log' & Hrun & Hcount).
      exists log'. split; [exact Hrun |].
      rewrite Hcount, fetches_pause_after, fetches_app, fetches_one_fetch. lia.
    + destruct (IH fuel (S attempts)
                  (pause_after (S attempts)
                     ((log ++ [EFetchSwitch md5]) ++ [EAttemptFailed (attempts + 1)]))
                  Hlt Hnext Hnet Hclient ltac:(lia)) as (log' & Hrun & Hcount).
      exists log'. split; [exact Hrun |].
      rewrite Hcount, fetches_pause_after, !fetches_app, fetches_one_fetch,
        fetches_one_failure. lia.
Qed.

(** A 4xx answer of the switch whose body decodes ends the loop: it is
    passed on with its status and with its body written out again as JSON
    ([JSON.stringify] of the decoded body, so that a reader finds [null]
    where the switch sent a number too large for binary64), and the
    attempt that received it is the last request made. *)
Theorem decodable_client_error_is_final
    (request : Request) (md5 : option Js.value) (k : nat) (st : Z) (data : Js.value) :
  method request = "POST"%string ->
  read_md5 request = Some md5 ->
  k < maxAttempts ->
  (forall j, j < k -> retried (net j) = true) ->
  net k = FetchResponded st (Some data) ->
  client_error st = true ->
  exists log,
    handler net request =
      Some (json_response st (Js.through_json data), log) /\
    fetches log = S k.
Proof.
  intros Hpost Hread Hk Hskip Hnet Hclient. unfold handler. rewrite Hpost, Hread.
  change (String.eqb "POST" "OPTIONS") with false.
  change (negb (String.eqb "POST" "POST")) with false. cbv iota.
  destruct (retry_loop_reaches md5 st data k maxAttempts 0 [])
    as (log & Hrun & Hcount); auto.
  intros j Hj. apply Hskip. lia.
  exists log. split; [exact Hrun | exact Hcount].
Qed.

Lemma retry_loop_reaches_ok (md5 : option Js.value) (st : Z) (data : Js.value) :
  forall k fuel attempts log,
    attempts + k < maxAttempts ->
    (forall j, attempts <= j < attempts + k -> retried (net j) = true) ->
    net (attempts + k) = FetchResponded st (Some data) ->
    status_ok st = true ->
    k < fuel ->
    exists log',
      retry_loop fuel net md5 attempts log = Some (relayed_response 200 data, log') /\
      fetches log' = fetches log + S k.
Proof.
  induction k as [|k IH]; intros fuel attempts log Hlt Hskip Hnet Hok Hfuel;
    (destruct fuel as [|fuel]; [lia |]).
  - rewrite Nat.add_0_r in Hnet, Hlt. simpl retry_loop.
    apply Nat.ltb_lt in Hlt. rewrite Hlt, Hnet, Hok.
    eexists. split; [reflexivity |].
    rewrite fetches_app, fetches_one_fetch. reflexivity.
  - assert (Hhere : retried (net attempts) = true) by (apply Hskip; lia).
    assert (Hbelow : (attempts <? maxAttempts) = true) by (apply Nat.ltb_lt; lia).
    replace (attempts + S k) with (S attempts + k) in Hnet, Hlt by lia.
    assert (Hnext : forall j, S attempts <= j < S attempts + k -> retried (net j) = true)
      by (intros j Hj; apply Hskip; lia).
    simpl retry_loop. rewrite Hbelow.
    destruct (net attempts) as [|st0 [data0|]]; simpl in Hhere;
      try (apply andb_prop in Hhere as [Hnok Hnot];
           apply negb_true_iff in Hnok, Hnot; rewrite Hnok, Hnot);
      match goal with
      | |- context [retry_loop fuel net md5 (S attempts) ?l] =>
        destruct (IH fuel (S attempts) l Hlt Hnext Hnet Hok ltac:(lia))
          as (log' & Hrun & Hcount)
      end;
      exists log'; (split; [exact Hrun |]);
      rewrite Hcount, fetches_pause_after, ?fetches_app, ?fetches_one_fetch,
        ?fetches_one_failure; lia.
Qed.

(** The first attempt that the switch answers with a 2xx status and a
    body that decodes ends the loop: the body, written out again as JSON
    ([JSON.stringify] of the decoded body), is passed on with status 200,
    whatever 2xx status the switch used, and no further request is made.
    Failed attempts before it leave no trace in the answer. *)
Theorem ok_answer_is_relayed_as_200
    (request : Request) (md5 : option Js.value) (k : nat) (st : Z) (data : Js.value) :
  method request = "POST"%string ->
  read_md5 request = Some md5 ->
  k < maxAttempts ->
  (forall j, j < k -> retried (net j) = true) ->
  net k = FetchResponded st (Some data) ->
  status_ok st = true ->
  exists log,
    handler net request =
      Some (json_response 200 (Js.through_json data), log) /\
    fetches log = S k.
Proof.
  intros Hpost Hread Hk Hskip Hnet Hok. unfold handler. rewrite Hpost, Hread.
  change (String.eqb "POST" "OPTIONS") with false.
  change (negb (String.eqb "POST" "POST")) with false. cbv iota.
  destruct (retry_loop_reaches_ok md5 st data k maxAttempts 0 [])
    as (log & Hrun & Hcount); auto.
  intros j Hj. apply Hskip. lia.
  exists log. split; [exact Hrun | exact Hcount].
Qed.

Ltac relayed :=
  first [ left; split; [assumption | reflexivity]
        | right; split; [assumption |];
          split; [unfold client_error; assumption | reflexivity] ].

(** Where an answer comes from, read backwards from the number of
    requests made.  Without any request the call was not a POST with a
    readable body.  Otherwise every attempt but the last was one the loop
    retries, and the answer is the last attempt's body written out again
    as JSON (as 200 for a 2xx status, with its own status for a 4xx) or,
    after the third failed attempt only, the 500 failure answer. *)
Theorem endpoint_answer_origin (request : Request) (answer : Response) (log : list Event) :
  handler net request = Some (answer, log) ->
  match fetches log with
  | O => method request <> "POST"%string \/ read_md5 request = None
  | S k =>
    method request = "POST"%string /\
    (forall j, j < k -> retried (net j) = true) /\
    ((exists st data,
         net k = FetchResponded st (Some data) /\
         (status_ok st = true /\
          answer = json_response 200 (Js.through_json data) \/
          status_ok st = false /\ client_error st = true /\
          answer = json_response st (Js.through_json data)))
     \/ (S k = maxAttempts /\ retried (net k) = true /\
         answer = failure_response exhausted_message))
  end.
Proof.
  unfold handler.
  destruct (String.eqb_spec (method request) "OPTIONS") as [Hopt|Hnopt].
  { intros [= <- <-]. left. rewrite Hopt. discriminate. }
  destruct (String.eqb_spec (method request) "POST") as [Hpost|Hnpost]; simpl negb; cbv iota.
  2: { intros [= <- <-]. left. exact Hnpost. }
  destruct (read_md5 request) as [md5|].
  2: { intros [= <- <-]. right. reflexivity. }
  simpl. intros H.
  destruct (net 0) as [|st0 [d0|]] eqn:E0;
    [ | destruct (status_ok st0) eqn:O0;
        [ | destruct ((400 <=? st0) && (st0 <? 500))%Z eqn:C0 ] | ].
  all: try (injection H as <- <-; cbn;
            split; [exact Hpost |]; split; [intros j Hj; lia |];
            left; eexists _, _; split; [eassumption |]; relayed).
  all: assert (R0 : retried (net 0) = true)
      by (rewrite E0; simpl; rewrite ?O0, ?C0; reflexivity).
  all: destruct (net 1) as [|st1 [d1|]] eqn:E1;
    [ | destruct (status_ok st1) eqn:O1;
        [ | destruct ((400 <=? st1) && (st1 <? 500))%Z eqn:C1 ] | ].
  all: try (injection H as <- <-; cbn;
            split; [exact Hpost |];
            split; [intros j Hj; assert (j = 0) as -> by lia; exact R0 |];
            left; eexists _, _; split; [eassumption |]; relayed).
  all: assert (R1 : retried (net 1) = true)
      by (rewrite E1; simpl; rewrite ?O1, ?C1; reflexivity).
  all: destruct (net 2) as [|st2 [d2|]] eqn:E2;
    [ | destruct (status_ok st2) eqn:O2;
        [ | destruct ((400 <=? st2) && (st2 <? 500))%Z eqn:C2 ] | ].
  all: injection H as <- <-; cbn;
    (split; [exact Hpost |]);
    (split; [intros j Hj;
             assert (j = 0 \/ j = 1) as [-> | ->] by lia; assumption |]).
  all: try (left; eexists _, _; split; [eassumption |]; relayed).
  all: right; split; [reflexivity |]; split; [| reflexivity];
    rewrite E2; simpl; rewrite ?O2, ?C2; reflexivity.
Qed.

End VerifyEndpointFacts.

(** ** The reconciliation job *)
Section SweepFacts.

Import Sweep.

Variable env : Env.

Lemma telegram_events_app (l1 l2 : list Event) :
  telegram_events (l1 ++ l2) = telegram_events l1 ++ telegram_events l2.
Proof. apply filter_app. Qed.

(** One settlement check: its verdict is read off the switch's answer, it
    costs one tick, and it touches neither the store nor the queue nor
    Telegram. *)
Lemma verifyPayment_spec (hash : string) (w : World) :
  let (b, w') := verifyPayment env hash w in
  b = reports_settled (switch env (tick w)) /\
  tick w' = S (tick w) /\
  store w' = store w /\
  messageQueue w' = messageQueue w /\
  isProcessingQueue w' = isProcessingQueue w /\
  exists noise,
    log w' = log w ++ ESwitchCheck hash :: noise /\
    telegram_events noise = [] /\
    forall t b, ~ In (EUpdateUsed t b) noise.
Proof.
  unfold verifyPayment, reports_settled.
  destruct (switch env (tick w)) as [|st [data|]]; simpl.
  - repeat split. exists [EConsoleError "Error verifying payment:"].
    rewrite <- app_assoc. repeat split. intros t b [H|[]]; discriminate.
  - destruct (status_ok st); simpl.
    + destruct (Js.get data "responseCode") as [|v]; simpl.
      * repeat split. exists [EConsoleError "Error verifying payment:"].
        rewrite <- app_assoc. repeat split. intros t b [H|[]]; discriminate.
      * repeat split. exists []. repeat split. intros t b [].
    + repeat split. exists [EConsoleError "Bakong API error:"].
      rewrite <- app_assoc. repeat split. intros t b [H|[]]; discriminate.
  - destruct (status_ok st); simpl.
    + repeat split. exists [EConsoleError "Error verifying payment:"].
      rewrite <- app_assoc. repeat split. intros t b [H|[]]; discriminate.
    + repeat split. exists [EConsoleError "Bakong API error:"].
      rewrite <- app_assoc. repeat split. intros t b [H|[]]; discriminate.
Qed.

(** One send: it costs one tick and leaves the store alone. *)
Lemma sendTelegramMessage_spec (chat body : string) (retry : nat) (w : World) :
  let (ok, w') := sendTelegramMessage env chat body retry w in
  tick w' = S (tick w) /\
  store w' = store w /\
  isProcessingQueue w' = isProcessingQueue w /\
  (exists pushed, messageQueue w' = messageQueue w ++ pushed) /\
  (ok = true -> telegram env (tick w) = TgAnswered true) /\
  exists noise,
    log w' = log w ++ ETelegram chat body :: noise /\
    telegram_events noise = [] /\
    forall t b, ~ In (EUpdateUsed t b) noise.
Proof.
  unfold sendTelegramMessage.
  destruct (telegram env (tick w)) as [|ok]; simpl.
  - destruct (retry <? MAX_RETRIES); simpl.
    + repeat split; eauto; try discriminate.
      exists [EConsoleError "Telegram API error"].
      rewrite <- app_assoc. repeat split. intros t b [H|[]]; discriminate.
    + repeat split; try discriminate.
      { exists []. rewrite app_nil_r. reflexivity. }
      exists [EConsoleError "Telegram API error"].
      rewrite <- app_assoc. repeat split. intros t b [H|[]]; discriminate.
  - repeat split.
    + exists []. rewrite app_nil_r. reflexivity.
    + intros ->. reflexivity.
    + exists []. repeat split. intros t b [].
Qed.

Lemma mark_used_is_used (token : Z) (rows : list Token) :
  is_used token (mark_used token rows) = true.
Proof.
  unfold is_used, mark_used. rewrite forallb_forall. intros r Hin.
  apply in_map_iff in Hin as [r0 [<- _]].
  destruct (id r0 =? token)%Z eqn:E; simpl.
  - rewrite E. reflexivity.
  - rewrite E. reflexivity.
Qed.

Lemma mark_used_ids (token : Z) (rows : list Token) :
  map id (mark_used token rows) = map id rows.
Proof.
  unfold mark_used. rewrite map_map. apply map_ext. intros r.
  destruct (id r =? token)%Z; reflexivity.
Qed.

(** Marking one token never clears another token's flag. *)
Lemma mark_used_keeps_used (token other : Z) (rows : list Token) :
  is_used other rows = true -> is_used other (mark_used token rows) = true.
Proof.
  unfold is_used, mark_used. rewrite !forallb_forall. intros Hall r Hin.
  apply in_map_iff in Hin as [r0 [<- Hin0]]. specialize (Hall r0 Hin0).
  destruct (id r0 =? token)%Z; simpl; [| exact Hall].
  apply orb_true_iff. right. reflexivity.
Qed.

(** How the loop body can end for one token.  Either nothing is done to
    the store and nothing is sent, or both checks reported a settled
    payment, the update was applied, and the two sends follow it. *)
Lemma process_token_cases (token : Token) (w : World) :
  exists new,
    log (snd (process_token env token w)) = log w ++ new /\
    ((fst (process_token env token w) = None /\
      store (snd (process_token env token w)) = store w /\
      messageQueue (snd (process_token env token w)) = messageQueue w /\
      telegram_events new = [] /\
      (forall t, ~ In (EUpdateUsed t true) new))
     \/
     (exists res pre post,
        fst (process_token env token w) = Some res /\
        tokenId res = id token /\
        reports_settled (switch env (tick w)) = true /\
        reports_settled (switch env (S (tick w))) = true /\
        update_error env (S (S (tick w))) = false /\
        store (snd (process_token env token w)) = mark_used (id token) (store w) /\
        new = pre ++ EUpdateUsed (id token) true :: post /\
        telegram_events pre = [] /\
        (forall t b, ~ In (EUpdateUsed t b) pre) /\
        (forall t b, ~ In (EUpdateUsed t b) post) /\
        List.length (telegram_events post) = 2)).
Proof.
  unfold process_token.
  destruct (md5 (order_data token)) as [hash|].
  2: { exists []. rewrite app_nil_r. split; [reflexivity |].
       left. repeat split. intros t []. }
  destruct (String.eqb hash "").
  { exists []. rewrite app_nil_r. split; [reflexivity |].
    left. repeat split. intros t []. }
  pose proof (verifyPayment_spec hash w) as H1.
  destruct (verifyPayment env hash w) as [b1 w1].
  destruct H1 as (Hb1 & Ht1 & Hs1 & Hq1 & _ & n1 & Hl1 & Hn1 & Hu1).
  destruct b1.
  2: { exists (ESwitchCheck hash :: n1). split; [exact Hl1 |].
       left. repeat split; auto.
       intros t [H|H]; [discriminate | exact (Hu1 _ _ H)]. }
  pose proof (verifyPayment_spec hash w1) as H2.
  destruct (verifyPayment env hash w1) as [b2 w2].
  destruct H2 as (Hb2 & Ht2 & Hs2 & Hq2 & _ & n2 & Hl2 & Hn2 & Hu2).
  rewrite Ht1 in Hb2.
  assert (Hpre : telegram_events ((ESwitchCheck hash :: n1) ++ ESwitchCheck hash :: n2) = []).
  { rewrite telegram_events_app. simpl. rewrite Hn1, Hn2. reflexivity. }
  assert (Hupd : forall t b,
             ~ In (EUpdateUsed t b) ((ESwitchCheck hash :: n1) ++ ESwitchCheck hash :: n2)).
  { intros t b Hin. apply in_app_or in Hin as [[H|H]|[H|H]];
      try discriminate; [exact (Hu1 _ _ H) | exact (Hu2 _ _ H)]. }
  destruct b2.
  2: { exists ((ESwitchCheck hash :: n1) ++ ESwitchCheck hash :: n2).
       split; [simpl; rewrite Hl2, Hl1, <- app_assoc; reflexivity |].
       left. cbn [fst snd].
       split; [reflexivity |]. split; [congruence |]. split; [congruence |].
       split; [exact Hpre |].
       intros t Hin. exact (Hupd _ _ Hin). }
  unfold update_used. rewrite Ht2, Ht1.
  destruct (update_error env (S (S (tick w)))) eqn:Hue.
  - exists (((ESwitchCheck hash :: n1) ++ ESwitchCheck hash :: n2)
            ++ [EUpdateUsed (id token) false; EConsoleError "Error updating token:"]).
    split.
    + simpl. rewrite Hl2, Hl1, <- !app_assoc. reflexivity.
    + left. cbn [fst snd].
      split; [reflexivity |].
      split; [simpl; congruence |]. split; [simpl; congruence |].
      split; [rewrite telegram_events_app, Hpre; reflexivity |].
      intros t Hin.
      apply in_app_or in Hin as [H|[H|[H|[]]]]; try discriminate.
      exact (Hupd _ _ H).
  - simpl negb. cbv iota.
    set (w3 := set_store _ _).
    pose proof (sendTelegramMessage_spec (TELEGRAM_CHAT_ID env)
                  (mainMessage (order_data token)) 0 w3) as H4.
    destruct (sendTelegramMessage env (TELEGRAM_CHAT_ID env)
                (mainMessage (order_data token)) 0 w3) as [ok1 w4].
    destruct H4 as (_ & Hs4 & _ & _ & _ & n4 & Hl4 & Hn4 & Hu4).
    pose proof (sendTelegramMessage_spec TELEGRAM_ORDERS_CHAT_ID
                  (orderMessage (order_data token)) 0 w4) as H5.
    destruct (sendTelegramMessage env TELEGRAM_ORDERS_CHAT_ID
                (orderMessage (order_data token)) 0 w4) as [ok2 w5].
    destruct H5 as (_ & Hs5 & _ & _ & _ & n5 & Hl5 & Hn5 & Hu5).
    exists (((ESwitchCheck hash :: n1) ++ ESwitchCheck hash :: n2)
            ++ EUpdateUsed (id token) true
            :: (ETelegram (TELEGRAM_CHAT_ID env) (mainMessage (order_data token)) :: n4)
            ++ ETelegram TELEGRAM_ORDERS_CHAT_ID (orderMessage (order_data token)) :: n5).
    split.
    + simpl. rewrite Hl5, Hl4. subst w3. simpl. rewrite Hl2, Hl1.
      rewrite <- !app_assoc. simpl. reflexivity.
    + right. eexists _, _, _. cbn [fst snd].
      split; [reflexivity |]. split; [reflexivity |].
      split; [congruence |]. split; [congruence |]. split; [reflexivity |].
      split; [rewrite Hs5, Hs4; subst w3; simpl; congruence |].
      split; [reflexivity |].
      split; [exact Hpre |]. split; [exact Hupd |]. split.
      * intros t b [H|H]; [discriminate |].
        apply in_app_or in H as [H|[H|H]]; try discriminate;
          [exact (Hu4 _ _ H) | exact (Hu5 _ _ H)].
      * rewrite telegram_events_app. simpl. rewrite Hn4, Hn5. reflexivity.
Qed.


(** The gate opens: for a token that carries a hash, two settled checks
    in a row and an update the store accepts give a recorded result and
    the token's flag set. *)
Theorem settled_twice_is_fulfilled (token : Token) (w : World) (hash : string) :
  md5 (order_data token) = Some hash ->
  String.eqb hash "" = false ->
  reports_settled (switch env (tick w)) = true ->
  reports_settled (switch env (S (tick w))) = true ->
  update_error env (S (S (tick w))) = false ->
  exists res,
    fst (process_token env token w) = Some res /\
    tokenId res = id token /\ verified res = true /\
    store (snd (process_token env token w)) = mark_used (id token) (store w).
Proof.
  intros Hhash Hfull Hfirst Hsecond Hstore. unfold process_token.
  rewrite Hhash, Hfull.
  pose proof (verifyPayment_spec hash w) as H1.
  destruct (verifyPayment env hash w) as [b1 w1].
  destruct H1 as (Hb1 & Ht1 & Hs1 & _).
  rewrite Hfirst in Hb1. subst b1.
  pose proof (verifyPayment_spec hash w1) as H2.
  destruct (verifyPayment env hash w1) as [b2 w2].
  destruct H2 as (Hb2 & Ht2 & Hs2 & _).
  rewrite Ht1, Hsecond in Hb2. subst b2.
  unfold update_used. rewrite Ht2, Ht1, Hstore.
  set (w3 := set_store _ _).
  pose proof (sendTelegramMessage_spec (TELEGRAM_CHAT_ID env)
                (mainMessage (order_data token)) 0 w3) as H4.
  destruct (sendTelegramMessage env (TELEGRAM_CHAT_ID env)
              (mainMessage (order_data token)) 0 w3) as [ok1 w4].
  destruct H4 as (_ & Hs4 & _).
  pose proof (sendTelegramMessage_spec TELEGRAM_ORDERS_CHAT_ID
                (orderMessage (order_data token)) 0 w4) as H5.
  destruct (sendTelegramMessage env TELEGRAM_ORDERS_CHAT_ID
              (orderMessage (order_data token)) 0 w4) as [ok2 w5].
  destruct H5 as (_ & Hs5 & _).
  eexists. cbn [fst snd]. split; [reflexivity |].
  split; [reflexivity |]. split; [reflexivity |].
  rewrite Hs5, Hs4. subst w3. simpl. congruence.
Qed.

(** In a list cut at its first applied update, whatever stands before an
    event that is not in the first part contains that update. *)
Lemma update_precedes (u e : Event) :
  forall pre post before after,
    pre ++ u :: post = before ++ e :: after ->
    ~ In e pre -> e <> u -> In u before.
Proof.
  induction pre as [|p pre IH]; intros post before after Heq Hnot Hne.
  - destruct before as [|b before]; simpl in Heq.
    + injection Heq as Hhead _. congruence.
    + injection Heq as Hhead _. left. congruence.
  - destruct before as [|b before]; simpl in Heq.
    + injection Heq as Hhead _. exfalso. apply Hnot. left. exact Hhead.
    + injection Heq as _ Htail. right.
      apply (IH post before after Htail).
      * intros Hin. apply Hnot. right. exact Hin.
      * exact Hne.
Qed.

Lemma not_telegram_in (l : list Event) (chat body : string) :
  telegram_events l = [] -> ~ In (ETelegram chat body) l.
Proof.
  intros Hnone Hin.
  assert (Hf : In (ETelegram chat body) (telegram_events l)).
  { unfold telegram_events. apply filter_In. split; [exact Hin | reflexivity]. }
  rewrite Hnone in Hf. exact Hf.
Qed.

(** C9.  For the events [new] that handling one token adds to the log:
    every Telegram send comes after the applied update of this token's
    [used] flag; once the update is applied the token is used in the final
    store, whatever the sends returned; and when the update fails no result
    is recorded, nothing is sent and the store is as before, so the token
    is still selected by a later run. *)
Theorem used_is_set_before_notifying (token : Token) (w : World) :
  let r := fst (process_token env token w) in
  let w' := snd (process_token env token w) in
  exists new,
    log w' = log w ++ new /\
    (forall before chat body after,
        new = before ++ ETelegram chat body :: after ->
        In (EUpdateUsed (id token) true) before) /\
    (In (EUpdateUsed (id token) true) new ->
     is_used (id token) (store w') = true) /\
    (In (EUpdateUsed (id token) false) new ->
     r = None /\ telegram_events new = [] /\ store w' = store w /\
     forall cutoff, select_pending cutoff (store w') = select_pending cutoff (store w)).
Proof.
  intros r w'. subst r w'.
  destruct (process_token_cases token w)
    as (new & Hlog & [(Hr & Hs & Hq & Hn & Hu)
                     | (res & pre & post & Hr & _ & _ & _ & _ & Hs & Hnew & Hpre & Hupre & Hupost & _)]).
  - exists new. split; [exact Hlog |]. repeat split.
    + intros before chat body after Heq. exfalso.
      apply (not_telegram_in new chat body Hn).
      rewrite Heq. apply in_or_app. right. left. reflexivity.
    + intros Hin. exfalso. exact (Hu _ Hin).
    + exact Hr.
    + exact Hn.
    + exact Hs.
    + intros cutoff. rewrite Hs. reflexivity.
  - exists new. split; [exact Hlog |]. repeat split.
    + intros before chat body after Heq. rewrite Hnew in Heq.
      apply (update_precedes _ _ _ _ _ _ Heq).
      * apply not_telegram_in. exact Hpre.
      * discriminate.
    + intros _. rewrite Hs. apply mark_used_is_used.
    + exfalso. rewrite Hnew in H. apply in_app_or in H as [H|[H|H]].
      * exact (Hupre _ _ H).
      * discriminate.
      * exact (Hupost _ _ H).
    + exfalso. rewrite Hnew in H. apply in_app_or in H as [H|[H|H]].
      * exact (Hupre _ _ H).
      * discriminate.
      * exact (Hupost _ _ H).
    + exfalso. rewrite Hnew in H. apply in_app_or in H as [H|[H|H]].
      * exact (Hupre _ _ H).
      * discriminate.
      * exact (Hupost _ _ H).
    + exfalso. rewrite Hnew in H. apply in_app_or in H as [H|[H|H]].
      * exact (Hupre _ _ H).
      * discriminate.
      * exact (Hupost _ _ H).
Qed.

(** *** Runs of the whole job *)

Lemma is_used_false_iff (token : Z) (rows : list Token) :
  is_used token rows = false <->
  exists r, In r rows /\ id r = token /\ used r = false.
Proof.
  unfold is_used. split.
  - intros H. induction rows as [|r rows IH]; simpl in H; [discriminate |].
    apply andb_false_iff in H as [H | H].
    + apply orb_false_iff in H as [Hid Hused].
      apply negb_false_iff, Z.eqb_eq in Hid.
      exists r. split; [left; reflexivity | split; assumption].
    + destruct (IH H) as (r0 & Hin & Hid & Hused).
      exists r0. split; [right; exact Hin | split; assumption].
  - intros (r & Hin & Hid & Hused).
    destruct (forallb _ rows) eqn:E; [| reflexivity].
    rewrite forallb_forall in E. specialize (E r Hin).
    apply Z.eqb_eq in Hid. rewrite Hid, Hused in E. discriminate.
Qed.

(** Handling one token: ids are kept, a set flag stays set, and a recorded
    result is for this token, whose flag is then set. *)
Lemma process_token_store (token : Token) (w : World) :
  map id (store (snd (process_token env token w))) = map id (store w) /\
  (forall t, is_used t (store w) = true ->
             is_used t (store (snd (process_token env token w))) = true) /\
  (forall res, fst (process_token env token w) = Some res ->
               tokenId res = id token /\
               is_used (id token) (store (snd (process_token env token w))) = true).
Proof.
  destruct (process_token_cases token w)
    as (new & _ & [(Hr & Hs & _) | (res & pre & post & Hr & Hid & _ & _ & _ & Hs & _)]).
  - rewrite Hs, Hr. split; [reflexivity |]. split; [auto |].
    intros res Hnone. discriminate.
  - rewrite Hs, Hr. split; [apply mark_used_ids |]. split.
    + intros t. apply mark_used_keeps_used.
    + intros res' [= <-]. split; [exact Hid | apply mark_used_is_used].
Qed.

Lemma process_tokens_store : forall (tokens : list Token) (w : World),
  map id (store (snd (process_tokens env tokens w))) = map id (store w) /\
  (forall t, is_used t (store w) = true ->
             is_used t (store (snd (process_tokens env tokens w))) = true) /\
  (forall t, In t (fulfilled_ids (fst (process_tokens env tokens w))) ->
             In t (map id tokens) /\
             is_used t (store (snd (process_tokens env tokens w))) = true).
Proof.
  induction tokens as [|token rest IH]; intros w; simpl.
  - repeat split; auto; contradiction.
  - pose proof (process_token_store token w) as (Hids & Hmono & Hres).
    destruct (process_token env token w) as [r w1]. simpl in Hids, Hmono, Hres.
    specialize (IH w1) as (IHids & IHmono & IHres).
    destruct (process_tokens env rest w1) as [rs w2].
    simpl in IHids, IHmono, IHres. simpl. split; [congruence |]. split.
    + intros t Ht. apply IHmono, Hmono, Ht.
    + intros t Hin. destruct r as [res|].
      * destruct Hin as [Hhead | Hin].
        -- destruct (Hres res eq_refl) as [Hid Hused].
           split; [left; congruence |].
           apply IHmono. rewrite <- Hhead, Hid. exact Hused.
        -- destruct (IHres t Hin) as [Hin' Hused]. split; [right |]; assumption.
      * destruct (IHres t Hin) as [Hin' Hused]. split; [right |]; assumption.
Qed.

Lemma process_tokens_once : forall (tokens : list Token) (w : World),
  NoDup (map id tokens) ->
  NoDup (fulfilled_ids (fst (process_tokens env tokens w))).
Proof.
  induction tokens as [|token rest IH]; intros w Hnd; simpl.
  - constructor.
  - inversion Hnd as [|x l Hfresh Hrest]; subst.
    pose proof (process_token_store token w) as (_ & _ & Hres).
    destruct (process_token env token w) as [r w1]. simpl in Hres.
    specialize (IH w1 Hrest).
    pose proof (process_tokens_store rest w1) as (_ & _ & Hsub).
    destruct (process_tokens env rest w1) as [rs w2]. simpl in *.
    destruct r as [res|]; [| exact IH].
    simpl. constructor; [| exact IH].
    destruct (Hres res eq_refl) as [Hid _]. rewrite Hid.
    intros Hin. apply Hfresh. apply (Hsub _ Hin).
Qed.

Lemma insert_by_created_at_perm (t : Token) (l : list Token) :
  Permutation (insert_by_created_at t l) (t :: l).
Proof.
  induction l as [|u l IH]; simpl.
  - apply Permutation_refl.
  - destruct (created_at t <? created_at u)%Z.
    + apply Permutation_refl.
    + apply Permutation_trans with (u :: t :: l).
      * apply perm_skip, IH.
      * apply perm_swap.
Qed.

Lemma order_by_created_at_perm (rows : list Token) :
  Permutation (order_by_created_at rows) rows.
Proof.
  induction rows as [|t rows IH]; simpl.
  - apply Permutation_refl.
  - apply Permutation_trans with (t :: order_by_created_at rows).
    + apply insert_by_created_at_perm.
    + apply perm_skip, IH.
Qed.

(** Dropping rows keeps the remaining ids distinct. *)
Lemma filter_keeps_unique_ids (keep : Token -> bool) :
  forall rows : list Token,
    NoDup (map id rows) -> NoDup (map id (filter keep rows)).
Proof.
  intros rows. induction rows as [|row rows IH]; intros Huniq.
  - exact Huniq.
  - apply NoDup_cons_iff in Huniq as [Hnew Hrest]. simpl.
    destruct (keep row); [| exact (IH Hrest)].
    simpl. apply NoDup_cons_iff. split; [| exact (IH Hrest)].
    intros Hin. apply Hnew. apply in_map_iff in Hin as (other & Hsame & Hin).
    apply in_map_iff. exists other. split; [exact Hsame |].
    apply filter_In in Hin. exact (proj1 Hin).
Qed.

(** The select returns rows of the store that are unused, each id once. *)
Lemma select_pending_spec (cutoff : Z) (rows : list Token) :
  (forall r, In r (select_pending cutoff rows) ->
             In r rows /\ used r = false /\ (cutoff < created_at r)%Z) /\
  (NoDup (map id rows) -> NoDup (map id (select_pending cutoff rows))).
Proof.
  unfold select_pending. split.
  - intros r Hin.
    apply (Permutation_in _ (order_by_created_at_perm _)) in Hin.
    apply filter_In in Hin as [Hin Hkeep].
    apply andb_prop in Hkeep as [Hused Hnew].
    apply negb_true_iff in Hused. apply Z.ltb_lt in Hnew. tauto.
  - intros Hnd.
    apply (Permutation_NoDup
             (Permutation_sym (Permutation_map id (order_by_created_at_perm _)))).
    apply filter_keeps_unique_ids, Hnd.
Qed.

(** The queue drain never writes the store. *)
Lemma drain_step_store (message : Message) (w : World) :
  store (drain_step env message w) = store w.
Proof.
  unfold drain_step.
  pose proof (sendTelegramMessage_spec (chatId message) (text message)
                (retryCount message) w) as H.
  destruct (sendTelegramMessage env (chatId message) (text message)
              (retryCount message) w) as [ok w1].
  destruct H as (_ & Hs & _).
  destruct ok; [exact Hs |].
  destruct (MAX_RETRIES <=? retryCount message); exact Hs.
Qed.

Lemma drain_loop_store : forall (fuel : nat) (w w' : World),
  drain_loop env fuel w = Finished w' -> store w' = store w.
Proof.
  induction fuel as [|fuel IH]; intros w w' Hrun; simpl in Hrun.
  - destruct (messageQueue w); [| discriminate]. congruence.
  - destruct (messageQueue w) as [|message rest]; [congruence |].
    rewrite (IH _ _ Hrun). apply drain_step_store.
Qed.

Lemma processMessageQueue_store (fuel : nat) (w w' : World) :
  processMessageQueue env fuel w = Finished w' -> store w' = store w.
Proof.
  unfold processMessageQueue.
  destruct (isProcessingQueue w || (List.length (messageQueue w) =? 0));
    [congruence |].
  destruct (drain_loop env fuel (set_flag true w)) as [w1|w1] eqn:Hrun;
    [| discriminate].
  intros [= <-]. apply drain_loop_store in Hrun. exact Hrun.
Qed.

(** One complete run of the job. *)
Lemma handler_run (fuel : nat) (w w' : World) (answer : Response) :
  handler env fuel "POST" w = Finished (answer, w') ->
  map id (store w') = map id (store w) /\
  (forall t, is_used t (store w) = true -> is_used t (store w') = true) /\
  (forall t, In t (reported answer) ->
             is_used t (store w) = false /\ is_used t (store w') = true) /\
  (NoDup (map id (store w)) -> NoDup (reported answer)).
Proof.
  unfold handler. change (negb (String.eqb "POST" "POST")) with false. cbv iota.
  unfold sweep_select.
  destruct (select_error env (tick w)).
  { intros [= <- <-]. simpl. repeat split; auto; try contradiction. constructor. }
  set (w1 := call _ w).
  set (tokens := select_pending _ (store w1)).
  destruct (List.length tokens =? 0).
  { intros [= <- <-]. simpl. repeat split; auto; try contradiction. constructor. }
  pose proof (process_tokens_store tokens w1) as (Hids & Hmono & Hres).
  pose proof (process_tokens_once tokens w1) as Honce.
  destruct (process_tokens env tokens w1) as [results w2].
  simpl in Hids, Hmono, Hres, Honce.
  destruct (processMessageQueue env fuel w2) as [w3|w3] eqn:Hdrain; [| discriminate].
  apply processMessageQueue_store in Hdrain.
  intros [= <- <-]. rewrite Hdrain. unfold reported. simpl.
  destruct (select_pending_spec (date_now env (tick w) - PAYMENT_WINDOW) (store w))
    as [Hsel Hnd].
  split; [exact Hids |]. split; [exact Hmono |]. split.
  - intros t Hin. destruct (Hres t Hin) as [Hsel' Hused]. split; [| exact Hused].
    apply in_map_iff in Hsel' as (r & Hid & Hr).
    apply Hsel in Hr as (Hr & Hunused & _).
    apply is_used_false_iff. exists r. tauto.
  - intros Hstore. apply Honce, Hnd, Hstore.
Qed.

Lemma handler_runs_unused : forall (fuels : list nat) (w w' : World) answers,
  handler_runs env fuels w = Finished (answers, w') ->
  forall t, In t (List.concat (map reported answers)) -> is_used t (store w) = false.
Proof.
  induction fuels as [|fuel rest IH]; intros w w' answers Hrun t Hin; simpl in Hrun.
  - injection Hrun as <- _. contradiction.
  - destruct (handler env fuel "POST" w) as [[answer w1]|] eqn:Hfirst; [| discriminate].
    destruct (handler_runs env rest w1) as [[more w2]|] eqn:Hrest; [| discriminate].
    injection Hrun as <- _. simpl in Hin.
    apply handler_run in Hfirst as (_ & Hmono & Hrep & _).
    apply in_app_or in Hin as [Hin | Hin].
    + apply Hrep, Hin.
    + specialize (IH _ _ _ Hrest t Hin).
      destruct (is_used t (store w)) eqn:E; [| reflexivity].
      rewrite (Hmono t E) in IH. discriminate.
Qed.

Lemma sequential_runs_report_once :
  forall (fuels : list nat) (w w' : World) answers,
    NoDup (map id (store w)) ->
    handler_runs env fuels w = Finished (answers, w') ->
    NoDup (List.concat (map reported answers)).
Proof.
  induction fuels as [|fuel rest IH]; intros w w' answers Hnd Hrun; simpl in Hrun.
  - injection Hrun as <- _. constructor.
  - destruct (handler env fuel "POST" w) as [[answer w1]|] eqn:Hfirst; [| discriminate].
    destruct (handler_runs env rest w1) as [[more w2]|] eqn:Hrest; [| discriminate].
    injection Hrun as <- _. simpl.
    pose proof (handler_run _ _ _ _ Hfirst) as (Hids & _ & Hrep & Honce).
    apply NoDup_app.
    + apply Honce, Hnd.
    + apply (IH _ _ _ (eq_ind_r (@NoDup Z) Hnd Hids) Hrest).
    + intros t Hin Hlater.
      pose proof (handler_runs_unused _ _ _ _ Hrest t Hlater) as Hunused.
      destruct (Hrep t Hin) as [_ Hused]. congruence.
Qed.

(** Two ids that carry the same hash are the same id, when every hash
    names one row. *)
Lemma carries_names_one_id (hash : string) (rows : list Token) (a b : Z) :
  one_row_per_hash rows ->
  carries hash rows a = true -> carries hash rows b = true -> a = b.
Proof.
  intros Hone Ha Hb. unfold carries in Ha, Hb.
  apply existsb_exists in Ha as (ra & Hina & Ha).
  apply existsb_exists in Hb as (rb & Hinb & Hb).
  apply andb_prop in Ha as [Hida Hha]. apply andb_prop in Hb as [Hidb Hhb].
  apply Z.eqb_eq in Hida, Hidb.
  destruct (md5 (order_data ra)) as [ha|] eqn:Hma; [| discriminate].
  destruct (md5 (order_data rb)) as [hb|] eqn:Hmb; [| discriminate].
  apply String.eqb_eq in Hha, Hhb. subst ha hb.
  rewrite <- Hida, <- Hidb. exact (Hone ra rb hash Hina Hinb Hma Hmb).
Qed.

Lemma one_report_per_hash (hash : string) (rows : list Token) :
  one_row_per_hash rows ->
  forall fulfilled : list Z,
    NoDup fulfilled ->
    List.length (filter (carries hash rows) fulfilled) <= 1.
Proof.
  intros Hone fulfilled. induction fulfilled as [|t rest IH]; intros Hnd.
  - simpl. lia.
  - apply NoDup_cons_iff in Hnd as [Hfresh Hrest]. simpl.
    destruct (carries hash rows t) eqn:Ht; [| exact (IH Hrest)].
    destruct (filter (carries hash rows) rest) as [|other more] eqn:Hothers.
    + simpl. lia.
    + exfalso. apply Hfresh.
      assert (Hin : In other (filter (carries hash rows) rest))
        by (rewrite Hothers; left; reflexivity).
      apply filter_In in Hin as [Hin Hother].
      rewrite (carries_names_one_id hash rows t other Hone Ht Hother). exact Hin.
Qed.

(** C1, as the code has it.  Over any number of runs of the job made one
    after another, on a store whose ids are unique and in which no two
    rows carry the same hash, every payment hash is fulfilled at most
    once: no id occurs twice in the answers taken together, and for every
    hash at most one of the reported ids is a row that carries it. *)
Theorem sequential_runs_fulfil_once :
  forall (fuels : list nat) (w w' : World) answers,
    NoDup (map id (store w)) ->
    one_row_per_hash (store w) ->
    handler_runs env fuels w = Finished (answers, w') ->
    NoDup (List.concat (map reported answers)) /\
    forall hash : string,
      List.length
        (filter (carries hash (store w)) (List.concat (map reported answers)))
      <= 1.
Proof.
  intros fuels w w' answers Hnd Hone Hrun.
  pose proof (sequential_runs_report_once fuels w w' answers Hnd Hrun) as Honce.
  split; [exact Honce |].
  intros hash. apply one_report_per_hash; assumption.
Qed.

(** While Telegram does not acknowledge, the head of the queue is sent
    again on every iteration and is never removed, as long as its own
    [retryCount] is below the bound: the count is only raised in the copy
    that a failed send pushes at the end of the queue. *)
Lemma drain_loop_stuck :
  (forall k, telegram env k <> TgAnswered true) ->
  forall (fuel : nat) (w : World) (message : Message) (rest : list Message),
    messageQueue w = message :: rest ->
    retryCount message < MAX_RETRIES ->
    exists w',
      drain_loop env fuel w = OutOfFuel w' /\
      store w' = store w /\
      (exists rest', messageQueue w' = message :: rest') /\
      List.length (telegram_events (log w')) =
      List.length (telegram_events (log w)) + fuel.
Proof.
  intros Hdown. induction fuel as [|fuel IH]; intros w message rest Hq Hlow; simpl.
  - rewrite Hq. exists w. repeat split; eauto.
  - rewrite Hq.
    assert (Hstep : store (drain_step env message w) = store w /\
                    (exists rest', messageQueue (drain_step env message w) = message :: rest') /\
                    List.length (telegram_events (log (drain_step env message w))) =
                    S (List.length (telegram_events (log w)))).
    { unfold drain_step.
      pose proof (sendTelegramMessage_spec (chatId message) (text message)
                    (retryCount message) w) as H.
      destruct (sendTelegramMessage env (chatId message) (text message)
                  (retryCount message) w) as [ok w1].
      destruct H as (_ & Hs & _ & [pushed Hpush] & Hok & noise & Hl & Hn & _).
      destruct ok.
      { exfalso. exact (Hdown _ (Hok eq_refl)). }
      apply Nat.leb_gt in Hlow. rewrite Hlow. simpl.
      split; [exact Hs |]. split.
      - exists (rest ++ pushed). rewrite Hpush, Hq. reflexivity.
      - rewrite Hl, !telegram_events_app. simpl. rewrite Hn, !length_app. simpl. lia. }
    destruct Hstep as (Hs & [rest' Hq'] & Hcount).
    destruct (IH _ _ _ Hq' Hlow) as (w' & Hrun & Hs' & Hhead & Hcount').
    exists w'. split; [exact Hrun |]. split; [congruence |].
    split; [exact Hhead |]. lia.
Qed.

Lemma drain_loop_acknowledged :
  (forall k, telegram env k = TgAnswered true) ->
  forall (queue : list Message) (fuel : nat) (w : World),
    messageQueue w = queue ->
    List.length queue <= fuel ->
    exists w',
      drain_loop env fuel w = Finished w' /\
      messageQueue w' = [] /\
      isProcessingQueue w' = isProcessingQueue w /\
      telegram_events (log w') = telegram_events (log w) ++ map send_of queue.
Proof.
  intros Hup. induction queue as [|m rest IH]; intros fuel w Hq Hfuel.
  - exists w. destruct fuel; simpl; rewrite Hq; rewrite app_nil_r; auto.
  - destruct fuel as [|fuel]; [simpl in Hfuel; lia |].
    simpl. rewrite Hq. unfold drain_step, sendTelegramMessage. rewrite Hup.
    set (w1 := set_queue _ _).
    destruct (IH fuel w1) as (w' & Hrun & Hempty & Hflag & Hsent).
    + subst w1. simpl. rewrite Hq. reflexivity.
    + simpl in Hfuel. lia.
    + exists w'. split; [exact Hrun |]. split; [exact Hempty |].
      split; [rewrite Hflag; reflexivity |].
      rewrite Hsent. subst w1. simpl. rewrite telegram_events_app.
      simpl. rewrite <- app_assoc. reflexivity.
Qed.

(** While Telegram acknowledges every send, a drain that finds the flag
    clear sends the queued messages once each, oldest first, and ends with
    the queue empty and the flag clear again. *)
Theorem acknowledged_drain_is_fifo (fuel : nat) (w : World) :
  (forall k, telegram env k = TgAnswered true) ->
  isProcessingQueue w = false ->
  List.length (messageQueue w) <= fuel ->
  exists w',
    processMessageQueue env fuel w = Finished w' /\
    messageQueue w' = [] /\
    isProcessingQueue w' = false /\
    telegram_events (log w') =
    telegram_events (log w) ++ map send_of (messageQueue w).
Proof.
  intros Hup Hflag Hfuel. unfold processMessageQueue. rewrite Hflag.
  destruct (messageQueue w) as [|m rest] eqn:Hq.
  - exists w. simpl. rewrite app_nil_r. auto.
  - cbn [List.length Nat.eqb orb].
    destruct (drain_loop_acknowledged Hup (m :: rest) fuel (set_flag true w))
      as (w' & Hrun & Hempty & _ & Hsent); [exact Hq | exact Hfuel |].
    rewrite Hrun. exists (set_flag false w').
    split; [reflexivity |]. split; [exact Hempty |]. split; [reflexivity |].
    exact Hsent.
Qed.

Lemma drain_step_flag (message : Message) (w : World) :
  isProcessingQueue (drain_step env message w) = isProcessingQueue w.
Proof.
  unfold drain_step.
  pose proof (sendTelegramMessage_spec (chatId message) (text message)
                (retryCount message) w) as H.
  destruct (sendTelegramMessage env (chatId message) (text message)
              (retryCount message) w) as [ok w1].
  destruct H as (_ & _ & Hflag & _).
  destruct ok; [exact Hflag |].
  destruct (MAX_RETRIES <=? retryCount message); exact Hflag.
Qed.

(** The loop never touches the flag, however far it gets. *)
Lemma drain_loop_flag : forall (fuel : nat) (w : World),
  match drain_loop env fuel w with
  | Finished w' | OutOfFuel w' => isProcessingQueue w' = isProcessingQueue w
  end.
Proof.
  induction fuel as [|fuel IH]; intros w; simpl.
  - destruct (messageQueue w); reflexivity.
  - destruct (messageQueue w) as [|message rest]; [reflexivity |].
    specialize (IH (drain_step env message w)).
    destruct (drain_loop env fuel (drain_step env message w));
      rewrite IH; apply drain_step_flag.
Qed.

(** The drain is single-flight.  A call made while the flag is set
    returns at once and touches nothing.  A call that finds the flag clear
    holds it for as long as its loop runs: in the state the drain has
    reached after any number of iterations without ending, the flag is
    set, so that another call made then returns at once, sends nothing and
    leaves the queue to the first.  A drain that ends leaves the flag
    clear. *)
Theorem drain_is_single_flight (fuel : nat) (w : World) :
  (isProcessingQueue w = true -> processMessageQueue env fuel w = Finished w) /\
  (isProcessingQueue w = false ->
   match processMessageQueue env fuel w with
   | OutOfFuel busy =>
     isProcessingQueue busy = true /\
     forall again, processMessageQueue env again busy = Finished busy
   | Finished w' => isProcessingQueue w' = false
   end).
Proof.
  split.
  - intros Hflag. unfold processMessageQueue. rewrite Hflag. reflexivity.
  - intros Hflag. unfold processMessageQueue at 1. rewrite Hflag.
    destruct (List.length (messageQueue w) =? 0); [exact Hflag |].
    cbn [orb].
    pose proof (drain_loop_flag fuel (set_flag true w)) as Hheld.
    destruct (drain_loop env fuel (set_flag true w)) as [w'|busy].
    + reflexivity.
    + simpl in Hheld. split; [exact Hheld |].
      intros again. unfold processMessageQueue. rewrite Hheld. reflexivity.
Qed.

(** The two notifications of a fulfilled token are independent.  Each
    flag of the recorded result says whether Telegram acknowledged that
    channel's send; the token is marked used whatever the flags are.  A
    send that throws is queued once, with [retryCount] 1; a send that
    Telegram answers without acknowledging it is not queued at all. *)
Theorem fulfilment_reports_each_channel (token : Token) (w : World) (hash : string) :
  md5 (order_data token) = Some hash ->
  String.eqb hash "" = false ->
  reports_settled (switch env (tick w)) = true ->
  reports_settled (switch env (S (tick w))) = true ->
  update_error env (S (S (tick w))) = false ->
  let main := telegram env (3 + tick w) in
  let orders := telegram env (4 + tick w) in
  fst (process_token env token w) =
    Some {| tokenId := id token; verified := true;
            mainGroupSent := acknowledged main;
            ordersGroupSent := acknowledged orders |} /\
  store (snd (process_token env token w)) = mark_used (id token) (store w) /\
  messageQueue (snd (process_token env token w)) =
    messageQueue w
    ++ queued_after main (TELEGRAM_CHAT_ID env) (mainMessage (order_data token))
         (date_now env (4 + tick w))
    ++ queued_after orders TELEGRAM_ORDERS_CHAT_ID (orderMessage (order_data token))
         (date_now env (5 + tick w)).
Proof.
  intros Hhash Hfull Hfirst Hsecond Hstore main orders. subst main orders.
  unfold process_token. rewrite Hhash, Hfull.
  pose proof (verifyPayment_spec hash w) as H1.
  destruct (verifyPayment env hash w) as [b1 w1].
  destruct H1 as (Hb1 & Ht1 & Hs1 & Hq1 & _).
  rewrite Hfirst in Hb1. subst b1.
  pose proof (verifyPayment_spec hash w1) as H2.
  destruct (verifyPayment env hash w1) as [b2 w2].
  destruct H2 as (Hb2 & Ht2 & Hs2 & Hq2 & _).
  rewrite Ht1, Hsecond in Hb2. subst b2.
  unfold update_used. rewrite Ht2, Ht1, Hstore.
  unfold sendTelegramMessage. cbn [negb tick call set_store].
  rewrite Ht2, Ht1. cbn [Nat.add].
  destruct (telegram env (S (S (S (tick w))))) as [|ok1];
    cbn [tick call set_store set_queue emit Nat.ltb Nat.leb MAX_RETRIES fst snd];
    rewrite ?Ht2, ?Ht1;
    destruct (telegram env (S (S (S (S (tick w)))))) as [|ok2];
    cbn; rewrite ?Ht2, ?Ht1, ?Hs2, ?Hs1, ?Hq2, ?Hq1, <- ?app_assoc, ?app_nil_r;
    repeat split.
Qed.

Lemma process_token_recorded (token : Token) (w : World) (res : Result) :
  fst (process_token env token w) = Some res ->
  exists hash, md5 (order_data token) = Some hash /\ String.eqb hash "" = false.
Proof.
  unfold process_token.
  destruct (md5 (order_data token)) as [hash|]; [| discriminate].
  destruct (String.eqb hash "") eqn:E; [discriminate |].
  intros _. exists hash. split; [reflexivity | exact E].
Qed.

Lemma process_tokens_effect : forall (tokens : list Token) (w : World),
  store (snd (process_tokens env tokens w)) =
    mark_all_used (fulfilled_ids (fst (process_tokens env tokens w))) (store w) /\
  forall t, In t (fulfilled_ids (fst (process_tokens env tokens w))) ->
    exists token hash,
      In token tokens /\ id token = t /\
      md5 (order_data token) = Some hash /\ String.eqb hash "" = false.
Proof.
  induction tokens as [|token rest IH]; intros w; simpl.
  - split; [reflexivity | contradiction].
  - pose proof (process_token_store token w) as (_ & _ & Hres).
    pose proof (process_token_recorded token w) as Hrec.
    destruct (process_token_cases token w)
      as (new & _ & [(Hr & Hs & _) | (res & pre & post & Hr & _ & _ & _ & _ & Hs & _)]);
      destruct (process_token env token w) as [r w1]; simpl in *; subst r;
      specialize (IH w1) as (IHs & IHin);
      destruct (process_tokens env rest w1) as [rs w2]; simpl in *.
    + split; [rewrite IHs, Hs; reflexivity |].
      intros t Hin. destruct (IHin t Hin) as (tok & h & ? & ? & ? & ?).
      exists tok, h. tauto.
    + destruct (Hres res eq_refl) as [Hid _].
      destruct (Hrec res eq_refl) as (h0 & Hmd5 & Hfull).
      split; [rewrite IHs, Hs, Hid; reflexivity |].
      intros t [Hhead | Hin].
      * exists token, h0. rewrite <- Hhead, Hid. tauto.
      * destruct (IHin t Hin) as (tok & h & ? & ? & ? & ?).
        exists tok, h. tauto.
Qed.

(** What one complete run does to the store, and to which rows, for a
    store whose rows all carry an [order_data] object, as the rows of
    [Token] do.  The store the run leaves is the store it found with the
    reported tokens marked used, and nothing else changed.  Every reported
    token was, when the run started, an unused row created within the last
    30 minutes that carries a non-empty [md5]. *)
Theorem run_marks_exactly_the_reported (fuel : nat) (w w' : World) (answer : Response) :
  handler env fuel "POST" w = Finished (answer, w') ->
  store w' = mark_all_used (reported answer) (store w) /\
  forall t, In t (reported answer) ->
    exists row hash,
      In row (store w) /\ id row = t /\ used row = false /\
      (date_now env (tick w) - PAYMENT_WINDOW < created_at row)%Z /\
      md5 (order_data row) = Some hash /\ String.eqb hash "" = false.
Proof.
  unfold handler. change (negb (String.eqb "POST" "POST")) with false. cbv iota.
  unfold sweep_select.
  destruct (select_error env (tick w)).
  { intros [= <- <-]. simpl. split; [reflexivity | contradiction]. }
  set (w1 := call _ w).
  set (tokens := select_pending _ (store w1)).
  destruct (List.length tokens =? 0).
  { intros [= <- <-]. simpl. split; [reflexivity | contradiction]. }
  pose proof (process_tokens_effect tokens w1) as (Hstore & Hin).
  destruct (process_tokens env tokens w1) as [results w2]. simpl in Hstore, Hin.
  destruct (processMessageQueue env fuel w2) as [w3|w3] eqn:Hdrain; [| discriminate].
  apply processMessageQueue_store in Hdrain.
  intros [= <- <-]. unfold reported. simpl. split.
  - rewrite Hdrain. exact Hstore.
  - intros t Ht. destruct (Hin t Ht) as (token & hash & Hsel & Hid & Hmd5 & Hfull).
    destruct (select_pending_spec (date_now env (tick w) - PAYMENT_WINDOW) (store w))
      as [Hspec _].
    destruct (Hspec token Hsel) as (Hrow & Hunused & Hrecent).
    exists token, hash. tauto.
Qed.

(** The job answers 405 to anything but a POST and 500 only when the
    select fails.  No failure of the switch, of Telegram or of an update
    changes the status of the answer: it is 200 in every other case. *)
Theorem job_fails_only_when_select_fails
    (fuel : nat) (method : string) (w w' : World) (answer : Response) :
  handler env fuel method w = Finished (answer, w') ->
  (http_status answer = 405%Z <-> method <> "POST"%string) /\
  (http_status answer = 500%Z <->
   method = "POST"%string /\ select_error env (tick w) = true) /\
  (http_status answer = 405%Z \/ http_status answer = 500%Z \/
   http_status answer = 200%Z).
Proof.
  unfold handler.
  destruct (String.eqb_spec method "POST") as [Hpost|Hother]; simpl negb; cbv iota.
  2: { intros [= <- <-]. simpl. repeat split; auto; try discriminate.
       intros [Hp _]. contradiction. }
  unfold sweep_select.
  destruct (select_error env (tick w)) eqn:Hsel.
  { intros [= <- <-]. simpl. repeat split; auto; try discriminate.
    intros Hn. contradiction. }
  destruct (List.length _ =? 0).
  { intros [= <- <-]. simpl. repeat split; auto; try discriminate.
    - intros Hn. contradiction.
    - intros [_ Hf]. discriminate. }
  destruct (process_tokens env _ _) as [results w2].
  destruct (processMessageQueue env fuel w2) as [w3|w3]; [| discriminate].
  intros [= <- <-]. simpl. repeat split; auto; try discriminate.
  - intros Hn. contradiction.
  - intros [_ Hf]. discriminate.
Qed.

Lemma drain_loop_exhausted :
  forall (queue : list Message) (fuel : nat) (w : World),
    messageQueue w = queue ->
    (forall m, In m queue -> MAX_RETRIES <= retryCount m) ->
    List.length queue <= fuel ->
    exists w',
      drain_loop env fuel w = Finished w' /\
      messageQueue w' = [] /\
      isProcessingQueue w' = isProcessingQueue w /\
      telegram_events (log w') = telegram_events (log w) ++ map send_of queue.
Proof.
  induction queue as [|m rest IH]; intros fuel w Hq Hold Hfuel.
  - exists w. destruct fuel; simpl; rewrite Hq; rewrite app_nil_r; auto.
  - destruct fuel as [|fuel]; [simpl in Hfuel; lia |].
    simpl. rewrite Hq.
    assert (Hm : MAX_RETRIES <= retryCount m) by (apply Hold; left; reflexivity).
    assert (Hstep : messageQueue (drain_step env m w) = rest /\
                    isProcessingQueue (drain_step env m w) = isProcessingQueue w /\
                    telegram_events (log (drain_step env m w)) =
                    telegram_events (log w) ++ [send_of m]).
    { unfold drain_step, sendTelegramMessage.
      assert (Hno : (retryCount m <? MAX_RETRIES) = false) by (apply Nat.ltb_ge; exact Hm).
      apply Nat.leb_le in Hm.
      destruct (telegram env (tick w)) as [|[|]]; rewrite ?Hno, ?Hm; simpl;
        rewrite Hq, !telegram_events_app; simpl; rewrite ?app_nil_r; auto. }
    destruct Hstep as (Hq' & Hflag' & Hsent').
    destruct (IH fuel (drain_step env m w) Hq') as (w' & Hrun & Hempty & Hflag & Hsent).
    + intros m' Hin. apply Hold. right. exact Hin.
    + simpl in Hfuel. lia.
    + exists w'. split; [exact Hrun |]. split; [exact Hempty |].
      split; [congruence |].
      rewrite Hsent, Hsent'. simpl. rewrite <- app_assoc. reflexivity.
Qed.

(** Messages that have used up their retries leave the queue after one
    more send each, whatever Telegram does: a queue that holds only such
    messages is drained in as many iterations as it has entries, oldest
    first, and nothing is queued again. *)
Theorem spent_messages_are_sent_once_and_dropped (fuel : nat) (w : World) :
  isProcessingQueue w = false ->
  (forall m, In m (messageQueue w) -> MAX_RETRIES <= retryCount m) ->
  List.length (messageQueue w) <= fuel ->
  exists w',
    processMessageQueue env fuel w = Finished w' /\
    messageQueue w' = [] /\
    isProcessingQueue w' = false /\
    telegram_events (log w') =
    telegram_events (log w) ++ map send_of (messageQueue w).
Proof.
  intros Hflag Hold Hfuel. unfold processMessageQueue. rewrite Hflag.
  destruct (messageQueue w) as [|m rest] eqn:Hq.
  - exists w. simpl. rewrite app_nil_r. auto.
  - cbn [List.length Nat.eqb orb].
    destruct (drain_loop_exhausted (m :: rest) fuel (set_flag true w))
      as (w' & Hrun & Hempty & _ & Hsent); [exact Hq | exact Hold | exact Hfuel |].
    rewrite Hrun. exists (set_flag false w').
    split; [reflexivity |]. split; [exact Hempty |]. split; [reflexivity |].
    exact Hsent.
Qed.

End SweepFacts.

(** ** The payment dialog *)
Section PaymentModalFacts.

Import PaymentModal.

Lemma poll_effect_armed_error (s : State) :
  status s = Error -> poll_effect_armed s = false.
Proof.
  intros Hs. unfold poll_effect_armed. rewrite Hs.
  destruct (String.eqb (md5Hash s) ""), (showMessage s); reflexivity.
Qed.

Lemma poll_effect_armed_success (s : State) :
  status s = Success -> poll_effect_armed s = false.
Proof.
  intros Hs. unfold poll_effect_armed. rewrite Hs.
  destruct (String.eqb (md5Hash s) ""), (showMessage s); reflexivity.
Qed.

(** C4, as the code has it.  A tick whose request is answered with a
    decoded body is handled by [responseCode]: 0 marks the dialog
    successful and stops polling; 1 changes nothing but the log, so polling
    goes on; any other value stops polling, sets the dialog's status to
    error and shows [data.error] when it is truthy, a default text
    otherwise.  In all three cases the tick's only request is the POST to
    the endpoint: nothing is sent to the database and no update of the
    token is even built. *)
Theorem poll_answer_is_tri_state
    (data : Js.value) (code : option Js.value) (s : State) :
  qrExpired s = false ->
  Js.get data "responseCode" = Js.Got code ->
  let s' := verifyPayment (AxiosResolved data) s in
  (Js.strict_eq_num code 0 = true ->
   status s' = Success /\ showSuccessAnimation s' = true /\
   polling s' = false /\ poll_effect_armed s' = false /\
   effects s' = effects s ++ [tick_post s]) /\
  (Js.strict_eq_num code 0 = false -> Js.strict_eq_num code 1 = true ->
   status s' = status s /\ errorMessage s' = errorMessage s /\
   timers s' = timers s /\ poll_effect_armed s' = poll_effect_armed s /\
   effects s' =
   effects s ++ [tick_post s; EConsoleLog "Payment still pending for MD5:"]) /\
  (Js.strict_eq_num code 0 = false -> Js.strict_eq_num code 1 = false ->
   status s' = Error /\ polling s' = false /\ poll_effect_armed s' = false /\
   errorMessage s' =
     match Js.get data "error" with
     | Js.Got (Some shown) =>
       if Js.truthy (Some shown) then shown else Js.Str poll_refused_message
     | _ => Js.Str poll_refused_message
     end /\
   effects s' = effects s ++ [tick_post s]) /\
  filter database_request (effects s') = filter database_request (effects s) /\
  filter builds_update (effects s') = filter builds_update (effects s).
Proof.
  intros Hlive Hcode s'. subst s'. unfold verifyPayment. rewrite Hlive, Hcode.
  destruct (Js.strict_eq_num code 0) eqn:E0.
  - split; [intros _ | split; [discriminate | split; [discriminate |]]].
    + repeat split. apply poll_effect_armed_success. reflexivity.
    + simpl. rewrite !filter_app. simpl. rewrite !app_nil_r. split; reflexivity.
  - destruct (Js.strict_eq_num code 1) eqn:E1.
    + split; [discriminate | split; [intros _ _ | split; [discriminate |]]].
      * repeat split. simpl. rewrite <- app_assoc. reflexivity.
      * simpl. rewrite !filter_app. simpl. rewrite !app_nil_r. split; reflexivity.
    + split; [discriminate | split; [discriminate |]].
      destruct (Js.get data "error") as [|[shown|]] eqn:Herr.
      * destruct data; discriminate.
      * split.
        -- intros _ _. repeat split. apply poll_effect_armed_error. reflexivity.
        -- simpl. rewrite !filter_app. simpl. rewrite !app_nil_r. split; reflexivity.
      * split.
        -- intros _ _. repeat split. apply poll_effect_armed_error. reflexivity.
        -- simpl. rewrite !filter_app. simpl. rewrite !app_nil_r. split; reflexivity.
Qed.

(** What [cleanup()] leaves alone: the countdown.  Its interval is a
    local of the effect that installs it, not one of the five handles, and
    it runs for as long as a QR code is shown and [qrExpired] is false. *)
Lemma countdown_goes_on (s' : State) :
  qrExpired s' = false ->
  forall (d : QrIssuance.Dialog) (now : Z),
    QrIssuance.core d = s' -> QrIssuance.qrCode d <> ""%string ->
    QrIssuance.act (QrIssuance.CountdownTick now) d =
    QrIssuance.countdown_tick now d.
Proof.
  intros Hlive d now Hcore Hqr. cbn [QrIssuance.act].
  rewrite Hcore, Hlive. apply String.eqb_neq in Hqr. rewrite Hqr. reflexivity.
Qed.

(** C5, as the code has it.  A tick whose request throws (no answer, or
    an answer that is not 2xx) ends the polling: the error is logged, the
    dialog's status becomes error with a fixed text, the five timers whose
    handles [cleanup()] holds are cleared and the poll interval is not
    installed again.  [qrExpired] stays false, so the countdown, which is
    not one of the five, goes on ticking. *)
Theorem failed_request_stops_polling (s : State) :
  qrExpired s = false ->
  let s' := verifyPayment AxiosRejected s in
  status s' = Error /\
  errorMessage s' = Js.Str poll_failed_message /\
  timers s' = no_timers /\ polling s' = false /\
  poll_effect_armed s' = false /\
  effects s' =
  effects s ++ [tick_post s; EConsoleError "Error verifying payment:"] /\
  qrExpired s' = false /\
  forall (d : QrIssuance.Dialog) (now : Z),
    QrIssuance.core d = s' -> QrIssuance.qrCode d <> ""%string ->
    QrIssuance.act (QrIssuance.CountdownTick now) d =
    QrIssuance.countdown_tick now d.
Proof.
  intros Hlive s'. subst s'. unfold verifyPayment. rewrite Hlive.
  unfold poll_failed.
  split; [reflexivity |]. split; [reflexivity |]. split; [reflexivity |].
  split; [reflexivity |].
  split; [apply poll_effect_armed_error; reflexivity |].
  split; [simpl; rewrite <- app_assoc; reflexivity |].
  split; [exact Hlive |].
  apply countdown_goes_on. exact Hlive.
Qed.

(** Any answer of the endpoint that is not 2xx reaches the dialog as an
    exception, whatever its body says. *)
Lemma not_ok_answer_is_rejected (answer : VerifyEndpoint.Response) :
  status_ok (VerifyEndpoint.status answer) = false ->
  axios_outcome (Some answer) = AxiosRejected.
Proof. intros H. unfold axios_outcome. rewrite H. reflexivity. Qed.

Lemma live_tick_unfold (net : nat -> FetchOutcome) (s : State) :
  live_tick net s =
  match VerifyEndpoint.retry_loop VerifyEndpoint.maxAttempts net
          (Some (Js.Str (md5Hash s))) 0 [] with
  | Some (answer, done) => Some (verifyPayment (axios_outcome (Some answer)) s, done)
  | None => None
  end.
Proof. reflexivity. Qed.

(** A tick whose request reaches the switch at an attempt that is
    answered 2xx with a body that decodes: the dialog handles the body the
    endpoint wrote out again. *)
Lemma live_tick_relays (net : nat -> FetchOutcome) (s : State)
    (k : nat) (st : Z) (data : Js.value) :
  k < VerifyEndpoint.maxAttempts ->
  (forall j, j < k -> VerifyEndpoint.retried (net j) = true) ->
  net k = FetchResponded st (Some data) ->
  status_ok st = true ->
  exists done,
    live_tick net s =
      Some (verifyPayment (AxiosResolved (Js.through_json data)) s, done) /\
    VerifyEndpoint.fetches done = S k.
Proof.
  intros Hk Hskip Hnet Hok. rewrite live_tick_unfold.
  destruct (retry_loop_reaches_ok net (Some (Js.Str (md5Hash s))) st data k
              VerifyEndpoint.maxAttempts 0 [])
    as (done & Hrun & Hcount); auto.
  intros j Hj. apply Hskip. lia.
  rewrite Hrun. exists done. split; [reflexivity | exact Hcount].
Qed.

(** C2, as the code has it.  When the switch confirms the settlement (a
    2xx answer with [responseCode] 0, at the first attempt the endpoint
    does not retry), the live path consists of one request of the dialog
    to the endpoint and the endpoint's requests to the switch; the dialog
    becomes successful, starts its animation and clears the five timers
    whose handles [cleanup()] holds.  [qrExpired] stays false, so the
    countdown, which is not one of the five, goes on ticking.  No request
    goes to the token store, no update is built and nothing is sent to
    Telegram. *)
Theorem live_confirmation_only_updates_dialog
    (net : nat -> FetchOutcome) (s : State)
    (k : nat) (st : Z) (data : Js.value) (code : option Js.value) :
  qrExpired s = false ->
  k < VerifyEndpoint.maxAttempts ->
  (forall j, j < k -> VerifyEndpoint.retried (net j) = true) ->
  net k = FetchResponded st (Some data) ->
  status_ok st = true ->
  Js.get data "responseCode" = Js.Got code ->
  Js.strict_eq_num code 0 = true ->
  exists s' done,
    live_tick net s = Some (s', done) /\
    VerifyEndpoint.fetches done = S k /\
    status s' = Success /\ showSuccessAnimation s' = true /\
    timers s' = no_timers /\
    effects s' = effects s ++ [tick_post s] /\
    filter database_request (effects s') = filter database_request (effects s) /\
    filter builds_update (effects s') = filter builds_update (effects s) /\
    qrExpired s' = false /\
    forall (d : QrIssuance.Dialog) (now : Z),
      QrIssuance.core d = s' -> QrIssuance.qrCode d <> ""%string ->
      QrIssuance.act (QrIssuance.CountdownTick now) d =
      QrIssuance.countdown_tick now d.
Proof.
  intros Hlive Hk Hskip Hnet Hok Hcode Hzero.
  destruct (live_tick_relays net s k st data Hk Hskip Hnet Hok)
    as (done & Hrun & Hcount).
  destruct code as [c|]; [| discriminate].
  pose proof (get_through_json data "responseCode" c Hcode) as Hread.
  pose proof (strict_eq_num_through_json (Some c) 0 eq_refl) as Hsame.
  simpl option_map in Hsame. rewrite Hzero in Hsame.
  eexists _, done. split; [exact Hrun |]. split; [exact Hcount |].
  unfold verifyPayment. rewrite Hlive, Hread, Hsame.
  split; [reflexivity |]. split; [reflexivity |]. split; [reflexivity |].
  split; [reflexivity |].
  split; [simpl; rewrite filter_app; simpl; apply app_nil_r |].
  split; [simpl; rewrite filter_app; simpl; apply app_nil_r |].
  split; [exact Hlive |].
  apply countdown_goes_on. exact Hlive.
Qed.

(** The expiry update is built whatever the dialog's status, also after a
    confirmed payment, and it is not sent. *)
Lemma expiry_is_unconditional (s : State) :
  String.eqb (md5Hash s) "" = false ->
  status (expire s) = Error /\
  qrExpired (expire s) = true /\
  effects (expire s) =
  effects s ++ [EUpdateBuilt (md5Hash s) "unsuccessful" true "QR code expired"] /\
  filter database_request (effects (expire s)) =
  filter database_request (effects s).
Proof.
  intros Hhash. unfold expire. rewrite Hhash. repeat split.
  simpl. rewrite filter_app. simpl. apply app_nil_r.
Qed.

Section Storage.

Variable env : Env.
Variable props : Props.

Lemma verifyCurrentPrice_value (s : State) :
  fst (verifyCurrentPrice env props s) = current_price env props.
Proof.
  unfold verifyCurrentPrice, current_price.
  destruct (product_query env _ _); [| reflexivity].
  destruct (reseller_auth env) as [flag|]; [| reflexivity].
  destruct (String.eqb flag "true"); [| reflexivity].
  destruct (reseller_query env _ _); reflexivity.
Qed.

(** Reading the price asks the database but creates no token. *)
Lemma verifyCurrentPrice_effects (s : State) :
  status (snd (verifyCurrentPrice env props s)) = status s /\
  filter creates_token (effects (snd (verifyCurrentPrice env props s))) =
  filter creates_token (effects s).
Proof.
  unfold verifyCurrentPrice.
  destruct (product_query env _ _).
  2: { simpl. rewrite !filter_app. simpl. rewrite !app_nil_r. auto. }
  destruct (reseller_auth env) as [flag|].
  2: { simpl. rewrite !filter_app. simpl. rewrite !app_nil_r. auto. }
  destruct (String.eqb flag "true").
  2: { simpl. rewrite !filter_app. simpl. rewrite !app_nil_r. auto. }
  destruct (reseller_query env _ _);
    simpl; rewrite !filter_app; simpl; rewrite !app_nil_r; auto.
Qed.

(** C7, as the code has it.  When the price read back at storage time
    (the reseller's price for a reseller who has one, the catalog price
    otherwise), with the discount applied and the result rounded to cents,
    differs from the amount shown to the buyer by more than 0.01 as
    binary64 computes it ([Math.abs(expectedFinalAmount - finalAmount) >
    0.01]), [storePayment] returns null, reports the price-changed error,
    and never calls [create_payment_token]. *)
Theorem changed_price_refuses_storage (hash : string) (s : State) (current : float) :
  current_price env props = Some current ->
  price_changed current props = true ->
  fst (storePayment env props hash s) = None /\
  status (snd (storePayment env props hash s)) = Error /\
  errorMessage (snd (storePayment env props hash s)) = Js.Str price_changed_message /\
  filter creates_token (effects (snd (storePayment env props hash s))) =
  filter creates_token (effects s).
Proof.
  intros Hprice Hchanged. unfold storePayment.
  set (s0 := emit (EConsoleLog "Starting storePayment with MD5:") s).
  pose proof (verifyCurrentPrice_value s0) as Hvalue.
  pose proof (verifyCurrentPrice_effects s0) as [_ Hquiet].
  destruct (verifyCurrentPrice env props s0) as [read s1].
  simpl in Hvalue, Hquiet. rewrite Hvalue, Hprice, Hchanged.
  unfold store_failed. simpl. repeat split.
  rewrite !filter_app, Hquiet. subst s0. simpl.
  rewrite filter_app. simpl. rewrite !app_nil_r. reflexivity.
Qed.

(** A reseller who has an override price is checked against it. *)
Lemma reseller_price_is_the_reference (standard override : float) :
  product_query env (table_name (game (form props))) (form_product_id props) =
    Some standard ->
  reseller_auth env = Some "true"%string ->
  reseller_query env (form_product_id props) (game (form props)) = Some override ->
  current_price env props = Some override.
Proof.
  intros Hq Hauth Hr. unfold current_price. rewrite Hq, Hauth, Hr. reflexivity.
Qed.

(** [storePayment] returns a token exactly when the price could be read
    back, the code's own test of it fails, and the database answered the
    creation call with data; the token returned is the database's.  The
    test is [Math.abs(expectedFinalAmount - finalAmount) > 0.01] in
    binary64, where [expectedFinalAmount] is the price read back, with the
    discount applied and rounded to cents. *)
Theorem storePayment_returns_token_iff (hash : string) (s : State) (token : string) :
  fst (storePayment env props hash s) = Some token <->
  exists current,
    current_price env props = Some current /\
    price_changed current props = false /\
    rpc_create_payment_token env = RpcData token.
Proof.
  unfold storePayment.
  set (s0 := emit (EConsoleLog "Starting storePayment with MD5:") s).
  pose proof (verifyCurrentPrice_value s0) as Hvalue.
  destruct (verifyCurrentPrice env props s0) as [read s1]. simpl in Hvalue.
  rewrite <- Hvalue. destruct read as [current|].
  2: { simpl. split; [discriminate | intros (c & Hc & _); discriminate]. }
  destruct (price_changed current props) eqn:Hchanged.
  { simpl. split; [discriminate |].
    intros (c & [= <-] & Hc & _). congruence. }
  destruct (rpc_create_payment_token env) as [tok| |[m|]] eqn:Hrpc; simpl.
  - split.
    + intros [= <-]. exists current. auto.
    + intros (c & _ & _ & [= <-]). reflexivity.
  - split; [discriminate | intros (c & _ & _ & Hc); discriminate].
  - split; [discriminate | intros (c & _ & _ & Hc); discriminate].
  - split; [discriminate | intros (c & _ & _ & Hc); discriminate].
Qed.

(** A stored payment is a pending snapshot of what the buyer saw: when
    [storePayment] returns a token, exactly one creation call was made, for
    the given hash, with status pending and an order whose amount is the
    amount shown and whose transaction id is the one the dialog now
    displays. *)
Theorem stored_payment_is_a_pending_snapshot (hash : string) (s : State) (token : string) :
  fst (storePayment env props hash s) = Some token ->
  exists info,
    filter creates_token (effects (snd (storePayment env props hash s))) =
    filter creates_token (effects s) ++ [ERpcCreatePaymentToken hash "pending" info] /\
    amount info = finalAmount props /\
    transaction_id info = transactionId (snd (storePayment env props hash s)) /\
    status (snd (storePayment env props hash s)) = status s.
Proof.
  unfold storePayment.
  set (s0 := emit (EConsoleLog "Starting storePayment with MD5:") s).
  pose proof (verifyCurrentPrice_effects s0) as [Hstatus Hquiet].
  destruct (verifyCurrentPrice env props s0) as [read s1].
  simpl in Hstatus, Hquiet.
  destruct read as [current|]; [| discriminate].
  destruct (price_changed current props); [discriminate |].
  destruct (rpc_create_payment_token env) as [tok| |[m|]]; try discriminate.
  intros _. eexists. cbn [fst snd]. split; [| split; [| split]].
  - simpl. rewrite !filter_app, Hquiet. subst s0. simpl.
    rewrite !filter_app. simpl. rewrite !app_nil_r. reflexivity.
  - reflexivity.
  - reflexivity.
  - simpl. exact Hstatus.
Qed.

(** Whenever [storePayment] returns null it leaves the dialog in error
    with a text to show, a state in which the poll interval is not
    installed. *)
Theorem unstored_payment_stops_polling (hash : string) (s : State) :
  fst (storePayment env props hash s) = None ->
  status (snd (storePayment env props hash s)) = Error /\
  poll_effect_armed (snd (storePayment env props hash s)) = false /\
  exists text, errorMessage (snd (storePayment env props hash s)) = Js.Str text.
Proof.
  unfold storePayment.
  destruct (verifyCurrentPrice env props _) as [read s1].
  destruct read as [current|].
  2: { intros _. unfold store_failed. cbn [fst snd]. split; [reflexivity |].
       split; [apply poll_effect_armed_error; reflexivity | eexists; reflexivity]. }
  destruct (price_changed current props).
  { intros _. unfold store_failed. cbn [fst snd]. split; [reflexivity |].
    split; [apply poll_effect_armed_error; reflexivity | eexists; reflexivity]. }
  destruct (rpc_create_payment_token env) as [tok| |[m|]]; try discriminate;
    intros _; unfold store_failed; cbn [fst snd]; (split; [reflexivity |]);
    (split; [apply poll_effect_armed_error; reflexivity | eexists; reflexivity]).
Qed.

(** What [storePayment] leaves alone, and the little it adds. *)
Lemma storePayment_frame (hash : string) (s : State) :
  md5Hash (snd (storePayment env props hash s)) = md5Hash s /\
  showMessage (snd (storePayment env props hash s)) = showMessage s /\
  qrExpired (snd (storePayment env props hash s)) = qrExpired s /\
  timers (snd (storePayment env props hash s)) = timers s /\
  filter builds_update
    (effects (snd (storePayment env props hash s))) =
  filter builds_update
    (effects s) /\
  ((status (snd (storePayment env props hash s)) = Error /\
    exists made,
      filter creates_token (effects (snd (storePayment env props hash s))) =
      filter creates_token (effects s) ++ made /\ List.length made <= 1)
   \/
   (status (snd (storePayment env props hash s)) = status s /\
    exists info,
      filter creates_token (effects (snd (storePayment env props hash s))) =
      filter creates_token (effects s) ++ [ERpcCreatePaymentToken hash "pending" info])).
Proof.
  unfold storePayment.
  set (s0 := emit (EConsoleLog "Starting storePayment with MD5:") s).
  assert (Hread :
    md5Hash (snd (verifyCurrentPrice env props s0)) = md5Hash s /\
    showMessage (snd (verifyCurrentPrice env props s0)) = showMessage s /\
    qrExpired (snd (verifyCurrentPrice env props s0)) = qrExpired s /\
    timers (snd (verifyCurrentPrice env props s0)) = timers s /\
    status (snd (verifyCurrentPrice env props s0)) = status s /\
    filter builds_update
      (effects (snd (verifyCurrentPrice env props s0))) =
    filter builds_update
      (effects s) /\
    filter creates_token (effects (snd (verifyCurrentPrice env props s0))) =
    filter creates_token (effects s)).
  { unfold verifyCurrentPrice.
    destruct (product_query env _ _);
      [destruct (reseller_auth env) as [flag|];
       [destruct (String.eqb flag "true");
        [destruct (reseller_query env _ _) |] |] |];
      subst s0; simpl; rewrite !filter_app; simpl; rewrite !app_nil_r;
      repeat split. }
  destruct (verifyCurrentPrice env props s0) as [read s1].
  simpl in Hread. destruct Hread as (Hm & Hsm & Hq & Ht & Hst & Hu & Hc).
  destruct read as [current|];
    [destruct (price_changed current props);
     [| destruct (rpc_create_payment_token env) as [tok| |[m|]]] |];
    unfold store_failed; cbn [fst snd]; simpl;
    rewrite ?filter_app; simpl; rewrite ?app_nil_r, ?Hu, ?Hc;
    (split; [exact Hm |]); (split; [exact Hsm |]); (split; [exact Hq |]);
    (split; [exact Ht |]); (split; [reflexivity |]).
  all: try (left; split; [reflexivity |];
            first [ exists []; rewrite app_nil_r; split; [reflexivity | simpl; lia]
                  | eexists [_]; split; [reflexivity | simpl; lia] ]).
  right. split; [exact Hst |]. eexists. reflexivity.
Qed.

End Storage.

(** *** The dialog behind the endpoint *)

(** Failed attempts inside the endpoint are invisible to the dialog: the
    tick is handled with the body of the first attempt that the switch
    answers with a 2xx status and a decodable body, written out again as
    JSON by the endpoint, as if that had been the only exchange. *)
Theorem live_tick_shows_first_ok_answer
    (net : nat -> FetchOutcome) (s : State) (k : nat) (st : Z) (data : Js.value) :
  qrExpired s = false ->
  k < VerifyEndpoint.maxAttempts ->
  (forall j, j < k -> VerifyEndpoint.retried (net j) = true) ->
  net k = FetchResponded st (Some data) ->
  status_ok st = true ->
  exists done,
    live_tick net s =
      Some (verifyPayment (AxiosResolved (Js.through_json data)) s, done) /\
    VerifyEndpoint.fetches done = S k.
Proof.
  intros _ Hk Hskip Hnet Hok. rewrite live_tick_unfold.
  destruct (retry_loop_reaches_ok net (Some (Js.Str (md5Hash s))) st data k
              VerifyEndpoint.maxAttempts 0 [])
    as (done & Hrun & Hcount); auto.
  intros j Hj. apply Hskip. lia.
  rewrite Hrun. exists done. split; [reflexivity | exact Hcount].
Qed.

(** When the endpoint cannot relay a 2xx answer, the dialog treats the
    tick as failed, never as pending: if the switch answers 4xx, or if all
    three attempts fail, the dialog's status becomes error with the fixed
    text and polling stops.  The [responseCode: 1] in the body of the 500
    answer is never read. *)
Theorem live_tick_without_ok_answer_ends_polling
    (net : nat -> FetchOutcome) (s : State) :
  qrExpired s = false ->
  VerifyEndpoint.exhausts net \/
  (exists k st data,
      k < VerifyEndpoint.maxAttempts /\
      (forall j, j < k -> VerifyEndpoint.retried (net j) = true) /\
      net k = FetchResponded st (Some data) /\
      VerifyEndpoint.client_error st = true) ->
  exists s' done,
    live_tick net s = Some (s', done) /\
    status s' = Error /\
    errorMessage s' = Js.Str poll_failed_message /\
    polling s' = false /\ poll_effect_armed s' = false.
Proof.
  intros Hlive Hwhy. rewrite live_tick_unfold.
  assert (Hrejected : forall answer done,
             VerifyEndpoint.retry_loop VerifyEndpoint.maxAttempts net
               (Some (Js.Str (md5Hash s))) 0 [] = Some (answer, done) ->
             status_ok (VerifyEndpoint.status answer) = false ->
             exists s' done',
               match VerifyEndpoint.retry_loop VerifyEndpoint.maxAttempts net
                       (Some (Js.Str (md5Hash s))) 0 [] with
               | Some (answer, done) =>
                 Some (verifyPayment (axios_outcome (Some answer)) s, done)
               | None => None
               end = Some (s', done') /\
               status s' = Error /\
               errorMessage s' = Js.Str poll_failed_message /\
               polling s' = false /\ poll_effect_armed s' = false).
  { intros answer done Hrun Hnot. rewrite Hrun.
    rewrite (not_ok_answer_is_rejected answer Hnot).
    eexists _, _. split; [reflexivity |].
    unfold verifyPayment. rewrite Hlive. unfold poll_failed. repeat split.
    apply poll_effect_armed_error. reflexivity. }
  destruct Hwhy as [Hall | (k & st & data & Hk & Hskip & Hnet & Hclient)].
  - destruct (retry_loop_exhausted net (Some (Js.Str (md5Hash s)))
                VerifyEndpoint.maxAttempts 0 []) as [done Hrun].
    + intros j Hj. apply Hall. lia.
    + lia.
    + apply (Hrejected _ _ Hrun). reflexivity.
  - destruct (retry_loop_reaches net (Some (Js.Str (md5Hash s))) st data k
                VerifyEndpoint.maxAttempts 0 [])
      as (done & Hrun & _); auto.
    intros j Hj. apply Hskip. lia.
    apply (Hrejected _ _ Hrun). simpl.
    unfold VerifyEndpoint.client_error in Hclient. unfold status_ok.
    apply andb_prop in Hclient as [Hlo _]. apply Z.leb_le in Hlo.
    apply andb_false_iff. right. apply Z.leb_gt. lia.
Qed.

(** *** Expiry against a late answer *)

(** Expiry overrides a confirmation.  A tick that begins once the dialog
    has expired changes nothing, whatever the endpoint would answer.  And
    when the expiry runs after a tick has confirmed the payment, the
    dialog still turns to error and shows the expiry text.  The update
    that would mark the rows of its hash unsuccessful and used is built
    but not sent: no request goes to the database. *)
Theorem expiry_overrides_a_confirmed_payment
    (s : State) (data : Js.value) (code : option Js.value) (late : AxiosOutcome) :
  qrExpired s = false ->
  String.eqb (md5Hash s) "" = false ->
  Js.get data "responseCode" = Js.Got code ->
  Js.strict_eq_num code 0 = true ->
  verifyPayment late (expire s) = expire s /\
  let confirmed := verifyPayment (AxiosResolved data) s in
  status confirmed = Success /\
  status (expire confirmed) = Error /\
  errorMessage (expire confirmed) = Js.Str expired_message /\
  effects (expire confirmed) =
  effects s ++
  [tick_post s; EUpdateBuilt (md5Hash s) "unsuccessful" true "QR code expired"] /\
  filter database_request (effects (expire confirmed)) =
  filter database_request (effects s).
Proof.
  intros Hlive Hhash Hcode Hzero. split.
  - unfold verifyPayment, expire. rewrite Hhash. reflexivity.
  - unfold verifyPayment. rewrite Hlive, Hcode, Hzero.
    unfold expire. simpl. rewrite Hhash. simpl.
    split; [reflexivity |]. split; [reflexivity |]. split; [reflexivity |].
    split; [rewrite <- app_assoc; reflexivity |].
    rewrite !filter_app. simpl. rewrite !app_nil_r. reflexivity.
Qed.

End PaymentModalFacts.

(** ** The life of a payment dialog *)
Section QrIssuanceFacts.

Import PaymentModal QrIssuance.

Ltac dialog_fields :=
  cbn [core qrCode isProcessing lastQrGeneration qrCooldown payNowCooldown
       timeLeft flight khqr_requests expiry_callbacks
       with_core setIsProcessing setQrCooldown setPayNowCooldown setTimeLeft
       setQr setFlight request_khqr install_expiry
       flight_props captured_hash started stage].

(** What a poll tick can do to the fields the invariants speak of. *)
Lemma verifyPayment_frame (outcome : AxiosOutcome) (s : State) :
  md5Hash (verifyPayment outcome s) = md5Hash s /\
  filter creates_token (effects (verifyPayment outcome s)) =
    filter creates_token (effects s) /\
  (status (verifyPayment outcome s) = status s \/
   status (verifyPayment outcome s) = Success \/
   status (verifyPayment outcome s) = Error).
Proof.
  unfold verifyPayment. destruct (qrExpired s); [auto |].
  destruct outcome as [data|].
  2: { simpl. rewrite !filter_app. simpl. rewrite !app_nil_r. auto. }
  destruct (Js.get data "responseCode") as [|code].
  { simpl. rewrite !filter_app. simpl. rewrite !app_nil_r. auto. }
  destruct (Js.strict_eq_num code 0).
  { simpl. rewrite !filter_app. simpl. rewrite !app_nil_r. auto. }
  destruct (Js.strict_eq_num code 1).
  { simpl. rewrite !filter_app. simpl. rewrite !app_nil_r. auto. }
  destruct (Js.get data "error") as [|[e|]];
    simpl; rewrite !filter_app; simpl; rewrite !app_nil_r; auto.
Qed.

Lemma verifyPayment_late_frame (outcome : AxiosOutcome) (s : State) :
  md5Hash (verifyPayment_late outcome s) = md5Hash s /\
  filter creates_token (effects (verifyPayment_late outcome s)) =
    filter creates_token (effects s) /\
  (status (verifyPayment_late outcome s) = status s \/
   status (verifyPayment_late outcome s) = Success \/
   status (verifyPayment_late outcome s) = Error).
Proof.
  unfold verifyPayment_late.
  pose proof (verifyPayment_frame outcome (setQrExpired false s)) as (Fm & Fc & Fs).
  simpl in *. auto.
Qed.

Lemma expire_frame (s : State) :
  md5Hash (expire s) = md5Hash s /\
  filter creates_token (effects (expire s)) = filter creates_token (effects s) /\
  status (expire s) = Error.
Proof.
  unfold expire. destruct (String.eqb (md5Hash s) ""); simpl;
    rewrite ?filter_app; simpl; rewrite ?app_nil_r; auto.
Qed.

(** The expiry sends nothing: the update it builds is dropped. *)
Lemma expire_sends_nothing (s : State) :
  filter database_request (effects (expire s)) =
  filter database_request (effects s).
Proof.
  unfold expire. destruct (String.eqb (md5Hash s) ""); simpl;
    rewrite ?filter_app; simpl; rewrite ?app_nil_r; reflexivity.
Qed.

Lemma expiry_timeout_frame (captured : string) (d : Dialog) :
  md5Hash (core (expiry_timeout captured d)) = md5Hash (core d) /\
  token_creations (expiry_timeout captured d) = token_creations d /\
  status (core (expiry_timeout captured d)) = Error.
Proof.
  unfold expiry_timeout, token_creations.
  destruct (String.eqb captured ""); dialog_fields; simpl;
    rewrite ?filter_app; simpl; rewrite ?app_nil_r; repeat split.
Qed.

Lemma opened_consistent : consistent opened.
Proof.
  unfold consistent, token_creations. simpl. repeat split; auto.
  intros _ H. contradiction.
Qed.

Lemma blocked_false (props : Props) (d : Dialog) :
  blocked props d = false ->
  isProcessing d = false /\
  PrimFloat.ltb (finalAmount props) 0.01 = false /\
  qrCode d = ""%string /\
  (qrCooldown d <= 0)%Z /\
  showMessage (core d) = false.
Proof.
  unfold blocked. intros H.
  apply orb_false_iff in H as [H Hshow].
  apply orb_false_iff in H as [H Hcool].
  apply orb_false_iff in H as [H Hqr].
  apply orb_false_iff in H as [Hproc Hamount].
  apply negb_false_iff, String.eqb_eq in Hqr.
  apply Z.ltb_ge in Hcool. auto.
Qed.

(** A callback that only touches the payment part of the state, keeps its
    hash and its creation calls, and leaves the status or ends the wait,
    preserves the invariant. *)
Lemma core_step_consistent (f : State -> State) (d : Dialog) :
  md5Hash (f (core d)) = md5Hash (core d) ->
  filter creates_token (effects (f (core d))) =
    filter creates_token (effects (core d)) ->
  (status (f (core d)) = status (core d) \/
   status (f (core d)) = Success \/ status (f (core d)) = Error) ->
  consistent d -> consistent (with_core f d).
Proof.
  intros Fm Fc Fs (I1 & I2 & I3 & I4 & I5).
  unfold consistent, token_creations in *. dialog_fields. rewrite Fm, Fc.
  split; [exact I1 |]. split; [exact I2 |]. split; [exact I3 |].
  split; [exact I4 |].
  destruct (flight d) as [run|]; [exact I5 |].
  intros Hstatus Hqr. apply I5; [| exact Hqr].
  destruct Fs as [Fs | [Fs | Fs]]; rewrite Fs in Hstatus;
    [exact Hstatus | destruct Hstatus; discriminate
     | destruct Hstatus; discriminate].
Qed.

Lemma khqr_failed_consistent (message : Js.value) (d : Dialog) :
  qrCode d = ""%string -> consistent d -> consistent (khqr_failed message d).
Proof.
  intros Hqr (I1 & I2 & I3 & I4 & _).
  unfold consistent, khqr_failed, token_creations in *. dialog_fields. simpl.
  split; [exact I1 |]. split; [exact I2 |]. split; [exact I3 |].
  split; [exact I4 |].
  intros _ Hne. contradiction.
Qed.

Lemma unblocked_has_no_run (props : Props) (d : Dialog) :
  consistent d -> blocked props d = false -> flight d = None.
Proof.
  intros (_ & _ & _ & _ & I5) Hfree.
  apply blocked_false in Hfree as (Hidle & _).
  destruct (flight d) as [run|]; [| reflexivity].
  destruct I5 as (Hbusy & _). rewrite Hidle in Hbusy. discriminate.
Qed.

Lemma generateKHQR_begin_consistent
    (props : Props) (now : Z) (handle : nat) (d : Dialog) :
  consistent d -> consistent (generateKHQR_begin props now handle d).
Proof.
  intros Hd. unfold generateKHQR_begin.
  destruct (blocked props d) eqn:Hblocked; [exact Hd |].
  pose proof (unblocked_has_no_run props d Hd Hblocked) as Hnone.
  apply blocked_false in Hblocked as (_ & Hamount & Hqr & _ & _).
  pose proof Hd as (I1 & I2 & I3 & I4 & I5).
  destruct (I1 Hqr) as (Hhash & Hlast & Hnew).
  destruct (now - lastQrGeneration d <? QR_COOLDOWN_PERIOD * 1000)%Z.
  { unfold consistent, token_creations in *. dialog_fields. simpl.
    rewrite Hnone in *.
    split; [exact I1 |]. split; [exact I2 |]. split; [exact I3 |].
    split; [exact I4 |].
    intros _ Hne. contradiction. }
  rewrite Hamount.
  unfold consistent, token_creations in *. dialog_fields. simpl.
  split; [exact I1 |]. split; [exact I2 |]. split; [exact I3 |].
  split; [exact I4 |]. auto.
Qed.

Lemma generateKHQR_answered_consistent (outcome : KhqrOutcome) (d : Dialog) :
  consistent d -> consistent (generateKHQR_answered outcome d).
Proof.
  intros Hd. unfold generateKHQR_answered.
  destruct (flight d) as [run|] eqn:Hrun; [| exact Hd].
  destruct (stage run) eqn:Hstage; [| exact Hd].
  pose proof Hd as (I1 & I2 & I3 & I4 & I5).
  rewrite Hrun, Hstage in I5. destruct I5 as (Hbusy & Hcaptured & Hqr).
  destruct (I1 Hqr) as (Hhash & Hlast & Hnew).
  destruct outcome as [http success qrImage md5|message].
  2: { apply khqr_failed_consistent; assumption. }
  destruct ((http =? 200) || (http =? 201))%Z.
  2: { apply khqr_failed_consistent; assumption. }
  destruct (success && negb (String.eqb qrImage "") && negb (String.eqb md5 ""))
    eqn:Hvalid.
  2: { apply khqr_failed_consistent; assumption. }
  apply andb_prop in Hvalid as [Hvalid Hmd5].
  apply andb_prop in Hvalid as [_ Himage].
  apply negb_true_iff in Hmd5, Himage.
  assert (Hmd5' : md5 <> ""%string) by (intros ->; discriminate).
  assert (Himage' : qrImage <> ""%string) by (intros ->; discriminate).
  unfold consistent, token_creations in *. dialog_fields. simpl.
  rewrite Hnew.
  split; [intros Habs; contradiction |].
  split; [intros Habs; contradiction |].
  split; [simpl; lia |].
  split; [exact I4 |]. auto.
Qed.

Lemma generateKHQR_stored_consistent (env : Env) (handle : nat) (d : Dialog) :
  consistent d -> consistent (generateKHQR_stored env handle d).
Proof.
  intros Hd. unfold generateKHQR_stored.
  destruct (flight d) as [run|] eqn:Hrun; [| exact Hd].
  destruct (stage run) as [|md5] eqn:Hstage; [exact Hd |].
  pose proof Hd as (I1 & I2 & I3 & I4 & I5).
  rewrite Hrun, Hstage in I5.
  destruct I5 as (Hbusy & Hcaptured & Hqr & Hhash & Hnew).
  unfold consistent, token_creations in *. dialog_fields.
  pose proof (storePayment_frame env (flight_props run) md5 (core d))
    as (Fm & _ & _ & _ & _ & Fcases).
  destruct (storePayment env (flight_props run) md5 (core d)) as [stored s'].
  simpl in Fm, Fcases. simpl. rewrite Hnew in Fcases.
  split; [intros Habs; contradiction |].
  split; [rewrite Fm; exact I2 |].
  split.
  { destruct Fcases as [(_ & made & -> & Hlen) | (_ & info & ->)]; simpl; lia. }
  split.
  { apply Forall_app. split; [exact I4 |].
    constructor; [exact Hcaptured | constructor]. }
  intros Hstatus _.
  destruct Fcases as [(Herr & _) | (_ & info & ->)].
  - rewrite Herr in Hstatus. destruct Hstatus; discriminate.
  - exists info. rewrite Fm, Hhash. reflexivity.
Qed.

Lemma act_consistent (a : Action) (d : Dialog) :
  consistent d -> consistent (act a d).
Proof.
  intros Hd.
  destruct a as [props now handle|outcome|env handle|outcome|now|captured| | |
                 |late|timer| |];
    cbn [act].
  - apply generateKHQR_begin_consistent, Hd.
  - apply generateKHQR_answered_consistent, Hd.
  - apply generateKHQR_stored_consistent, Hd.
  - pose proof (verifyPayment_frame outcome (core d)) as (Fm & Fc & Fs).
    apply core_step_consistent; assumption.
  - destruct (negb (String.eqb (qrCode d) "") && negb (qrExpired (core d)));
      [| exact Hd].
    unfold countdown_tick.
    pose proof (expire_frame (core d)) as (Fm & Fc & Fs).
    destruct (Z.max 0 _ <=? 0)%Z.
    + apply (core_step_consistent expire (setTimeLeft _ d)); dialog_fields; auto.
    + exact Hd.
  - destruct (existsb (String.eqb captured) (expiry_callbacks d)); [| exact Hd].
    unfold expiry_timeout.
    destruct (String.eqb captured "").
    + apply core_step_consistent; simpl; auto.
    + apply (core_step_consistent
               (emit (EUpdateBuilt captured "unsuccessful" true "QR code expired")));
        dialog_fields; simpl; auto.
      * rewrite !filter_app. simpl. rewrite app_nil_r. reflexivity.
      * apply core_step_consistent; simpl; auto.
  - destruct Hd as (I1 & I2 & I3 & I4 & I5).
    unfold consistent, token_creations, cooldown_tick in *. dialog_fields. auto.
  - destruct Hd as (I1 & I2 & I3 & I4 & I5).
    unfold consistent, token_creations, handleContinue in *.
    dialog_fields. simpl. auto.
  - apply core_step_consistent; simpl; auto.
  - pose proof (verifyPayment_late_frame late (core d)) as (Fm & Fc & Fs).
    apply core_step_consistent; assumption.
  - unfold payNow_effect. destruct (0 <? payNowCooldown d)%Z; [| exact Hd].
    apply core_step_consistent; simpl; auto.
  - exact Hd.
  - apply core_step_consistent; simpl; auto.
    rewrite !filter_app. simpl. rewrite app_nil_r. reflexivity.
Qed.

Lemma run_consistent : forall (actions : list Action) (d : Dialog),
  consistent d -> consistent (fold_left (fun d a => act a d) actions d).
Proof.
  induction actions as [|a rest IH]; intros d Hd; simpl; [exact Hd |].
  apply IH, act_consistent, Hd.
Qed.

Lemma life_consistent (actions : list Action) : consistent (life actions).
Proof. apply run_consistent, opened_consistent. Qed.

(** A dialog calls [create_payment_token] at most once in its life,
    whatever happens to it and in whatever order. *)
Theorem dialog_creates_at_most_one_token (actions : list Action) :
  List.length (token_creations (life actions)) <= 1.
Proof.
  destruct (life_consistent actions) as (_ & _ & Hone & _). exact Hone.
Qed.

(** A dialog at rest that still waits for the payment has stored it:
    when no run of [generateKHQR] is under way and the poll interval may
    be installed, a QR code is shown and the one creation call of the
    dialog was made for the hash being polled, with status pending. *)
Theorem waiting_dialog_has_stored_its_payment (actions : list Action) :
  flight (life actions) = None ->
  poll_effect_armed (core (life actions)) = true ->
  qrCode (life actions) <> ""%string /\
  exists info,
    token_creations (life actions) =
    [ERpcCreatePaymentToken (md5Hash (core (life actions))) "pending" info].
Proof.
  intros Hrest Harmed.
  destruct (life_consistent actions) as (I1 & _ & _ & _ & I5).
  rewrite Hrest in I5.
  unfold poll_effect_armed in Harmed. apply negb_true_iff in Harmed.
  apply orb_false_iff in Harmed as [Harmed _].
  apply orb_false_iff in Harmed as [Harmed Hstatus].
  apply orb_false_iff in Harmed as [Hhash _].
  assert (Hqr : qrCode (life actions) <> ""%string).
  { intros Hnone. destruct (I1 Hnone) as (Hempty & _).
    rewrite Hempty in Hhash. discriminate. }
  split; [exact Hqr |]. apply I5; [| exact Hqr].
  destruct (status (core (life actions))); auto; discriminate.
Qed.

(** The expiry timeout never writes the token.  Every timeout the dialog
    installs belongs to a run of [generateKHQR] that started while no QR
    code was shown, so its callback closed over the hash of that render,
    which is empty: when it fires it marks the dialog expired and builds
    no update. *)
Theorem expiry_timeout_never_updates_tokens
    (actions : list Action) (captured : string) :
  Forall (fun h => h = ""%string) (expiry_callbacks (life actions)) /\
  token_updates (act (ExpiryTimeout captured) (life actions)) =
  token_updates (life actions).
Proof.
  destruct (life_consistent actions) as (_ & _ & _ & Hempty & _).
  split; [exact Hempty |]. cbn [act].
  destruct (existsb (String.eqb captured) (expiry_callbacks (life actions)))
    eqn:Hfound; [| reflexivity].
  apply existsb_exists in Hfound as (h & Hin & Heq).
  apply String.eqb_eq in Heq. subst h.
  rewrite Forall_forall in Hempty. rewrite (Hempty _ Hin).
  unfold expiry_timeout, token_updates. reflexivity.
Qed.

Lemma act_keeps_cooldown_clear (a : Action) (d : Dialog) :
  after_1970 a -> consistent d -> qrCooldown d = 0%Z ->
  qrCooldown (act a d) = 0%Z.
Proof.
  intros Hclock (I1 & _) Hzero.
  destruct a as [props now handle|outcome|env handle|outcome|now|captured| | |
                 |late|timer| |];
    cbn [act]; try exact Hzero.
  - unfold generateKHQR_begin.
    destruct (blocked props d) eqn:Hblocked; [exact Hzero |].
    apply blocked_false in Hblocked as (_ & Hamount & Hqr & _ & _).
    destruct (I1 Hqr) as (_ & Hlast & _). rewrite Hlast, Z.sub_0_r, Hamount.
    unfold after_1970 in Hclock. apply Z.ltb_ge in Hclock. rewrite Hclock.
    exact Hzero.
  - unfold generateKHQR_answered, khqr_failed.
    destruct (flight d) as [run|]; [| exact Hzero].
    destruct (stage run); [| exact Hzero].
    destruct outcome as [http success qrImage md5|message]; [| exact Hzero].
    destruct ((http =? 200) || (http =? 201))%Z; [| exact Hzero].
    destruct (success && negb (String.eqb qrImage "") && negb (String.eqb md5 ""));
      exact Hzero.
  - unfold generateKHQR_stored.
    destruct (flight d) as [run|]; [| exact Hzero].
    destruct (stage run); exact Hzero.
  - destruct (negb (String.eqb (qrCode d) "") && negb (qrExpired (core d)));
      [| exact Hzero].
    unfold countdown_tick. destruct (Z.max 0 _ <=? 0)%Z; exact Hzero.
  - destruct (existsb (String.eqb captured) (expiry_callbacks d)); [| exact Hzero].
    unfold expiry_timeout. destruct (String.eqb captured ""); exact Hzero.
  - unfold cooldown_tick. dialog_fields. rewrite Hzero. reflexivity.
  - unfold payNow_effect. destruct (0 <? payNowCooldown d)%Z; exact Hzero.
Qed.

(** The three-minute cooldown never starts.  It is tested only while no
    QR code is shown, and until then the time of the last issuance is
    still 0, so with a clock that reads at least three minutes past the
    epoch the test fails: the cooldown counter of a dialog stays 0.  What
    prevents a second QR code is that the first one is never cleared. *)
Theorem cooldown_never_starts (actions : list Action) :
  Forall after_1970 actions ->
  qrCooldown (life actions) = 0%Z.
Proof.
  unfold life. intros Hclock.
  assert (Hgen : forall d, consistent d -> qrCooldown d = 0%Z ->
                 qrCooldown (fold_left (fun d a => act a d) actions d) = 0%Z).
  { induction Hclock as [|a rest Ha Hrest IH]; intros d Hd Hzero; simpl.
    - exact Hzero.
    - apply IH.
      + apply act_consistent, Hd.
      + apply act_keeps_cooldown_clear; assumption. }
  apply Hgen; [apply opened_consistent | reflexivity].
Qed.

Lemma act_keeps_issued_qr (a : Action) (d : Dialog) :
  consistent d ->
  qrCode d <> ""%string ->
  qrCode (act a d) = qrCode d /\
  md5Hash (core (act a d)) = md5Hash (core d) /\
  lastQrGeneration (act a d) = lastQrGeneration d /\
  khqr_requests (act a d) = khqr_requests d.
Proof.
  intros (_ & _ & _ & _ & I5) Hqr.
  destruct a as [props now handle|outcome|env handle|outcome|now|captured| | |
                 |late|timer| |];
    cbn [act].
  - unfold generateKHQR_begin, blocked.
    apply String.eqb_neq in Hqr. rewrite Hqr. simpl.
    rewrite !orb_true_r. simpl. auto.
  - unfold generateKHQR_answered.
    destruct (flight d) as [run|]; [| auto].
    destruct (stage run); [| auto].
    destruct I5 as (_ & _ & Hnone). contradiction.
  - unfold generateKHQR_stored.
    destruct (flight d) as [run|]; [| auto].
    destruct (stage run) as [|md5]; [auto |].
    dialog_fields.
    pose proof (storePayment_frame env (flight_props run) md5 (core d))
      as (Fm & _).
    simpl. auto.
  - pose proof (verifyPayment_frame outcome (core d)) as (Fm & _).
    dialog_fields. auto.
  - destruct (negb (String.eqb (qrCode d) "") && negb (qrExpired (core d)));
      [| auto].
    unfold countdown_tick.
    pose proof (expire_frame (core d)) as (Fm & _).
    destruct (Z.max 0 _ <=? 0)%Z; dialog_fields; auto.
  - destruct (existsb (String.eqb captured) (expiry_callbacks d)); [| auto].
    unfold expiry_timeout.
    destruct (String.eqb captured ""); dialog_fields; simpl; auto.
  - unfold cooldown_tick. dialog_fields. auto.
  - unfold handleContinue. dialog_fields. simpl. auto.
  - dialog_fields. simpl. auto.
  - pose proof (verifyPayment_late_frame late (core d)) as (Fm & _).
    dialog_fields. auto.
  - unfold payNow_effect. destruct (0 <? payNowCooldown d)%Z; dialog_fields; auto.
  - unfold payNow_tick. dialog_fields. auto.
  - dialog_fields. simpl. auto.
Qed.

(** Once a QR code is shown it is final: whatever happens afterwards,
    the dialog keeps the same QR code, hash and issuance time, and asks
    the QR service for nothing more. *)
Theorem issued_qr_is_final (before after : list Action) :
  qrCode (life before) <> ""%string ->
  qrCode (life (before ++ after)) = qrCode (life before) /\
  md5Hash (core (life (before ++ after))) = md5Hash (core (life before)) /\
  lastQrGeneration (life (before ++ after)) = lastQrGeneration (life before) /\
  khqr_requests (life (before ++ after)) = khqr_requests (life before).
Proof.
  pose proof (life_consistent before) as Hbefore. revert Hbefore.
  unfold life. rewrite fold_left_app.
  generalize (fold_left (fun d a => act a d) before opened). intros d.
  revert d. induction after as [|a rest IH]; intros d Hd Hqr; simpl.
  - auto.
  - destruct (act_keeps_issued_qr a d Hd Hqr) as (Fq & Fm & Fl & Fr).
    destruct (IH (act a d)) as (Gq & Gm & Gl & Gr).
    + apply act_consistent, Hd.
    + rewrite Fq. exact Hqr.
    + rewrite Gq, Gm, Gl, Gr. auto.
Qed.

(** A request for a QR code that fails, or is answered with something
    unusable, puts the dialog in error without creating a token, and
    leaves it free to ask again at the next run of the effect: no cooldown
    or limit applies to failed requests. *)
Theorem failed_qr_request_can_be_repeated
    (props : Props) (now : Z) (handle : nat) (outcome : KhqrOutcome) (d : Dialog) :
  blocked props d = false ->
  (QR_COOLDOWN_PERIOD * 1000 <= now - lastQrGeneration d)%Z ->
  khqr_usable outcome = false ->
  let d' := generateKHQR_answered outcome (generateKHQR_begin props now handle d) in
  status (core d') = Error /\
  qrCode d' = ""%string /\
  flight d' = None /\
  khqr_requests d' = khqr_requests d ++ [finalAmount props] /\
  token_creations d' = token_creations d /\
  blocked props d' = false.
Proof.
  intros Hfree Hclock Hbad d'. subst d'. unfold generateKHQR_begin. rewrite Hfree.
  pose proof (blocked_false props d Hfree) as (Hproc & Hamount & Hqr & Hcool & Hshow).
  apply Z.ltb_ge in Hclock. rewrite Hclock, Hamount.
  unfold generateKHQR_answered. dialog_fields.
  assert (Hagain : forall message d0,
             qrCode d0 = ""%string -> qrCooldown d0 = qrCooldown d ->
             showMessage (core d0) = false ->
             blocked props (khqr_failed message d0) = false).
  { intros message d0 Hq0 Hc0 Hs0. unfold blocked, khqr_failed. dialog_fields.
    simpl. rewrite Hamount, Hq0, Hc0, Hs0. simpl.
    apply Z.ltb_ge in Hcool. rewrite Hcool. reflexivity. }
  assert (Hfailed : forall message,
    let d' :=
      khqr_failed message
        (setFlight
           (Some {| flight_props := props; captured_hash := md5Hash (core d);
                    started := now; stage := AwaitingKhqr |})
           (request_khqr (finalAmount props)
              (setIsProcessing true
                 (with_core
                    (fun s => setErrorMessage (Js.Str "") (setStatus Checking s))
                    d)))) in
    status (core d') = Error /\ qrCode d' = ""%string /\ flight d' = None /\
    khqr_requests d' = khqr_requests d ++ [finalAmount props] /\
    token_creations d' = token_creations d /\ blocked props d' = false).
  { intros message d'. subst d'.
    split; [reflexivity |]. split; [exact Hqr |]. split; [reflexivity |].
    split; [reflexivity |]. split; [reflexivity |].
    apply Hagain; dialog_fields; simpl; auto. }
  destruct outcome as [http success qrImage md5|message]; simpl in Hbad.
  - destruct ((http =? 200) || (http =? 201))%Z; simpl in Hbad.
    + rewrite Hbad. apply Hfailed.
    + apply Hfailed.
  - apply Hfailed.
Qed.


Lemma clock_face_length (minutes seconds : string) :
  String.length (String.append minutes (String.append ":" seconds)) =
  String.length minutes + S (String.length seconds).
Proof.
  induction minutes as [|c rest IH]; [reflexivity |].
  cbn [String.append String.length] in *. rewrite IH. reflexivity.
Qed.

Lemma padStart2_two_digits (n : Z) :
  (0 <= n < 100)%Z -> String.length (padStart2 (integer_toString n)) = 2.
Proof.
  intros Hn. rewrite <- (Z2Nat.id n) by lia.
  assert (Hk : Z.to_nat n < 100) by lia.
  generalize dependent (Z.to_nat n). intros k Hk.
  do 100 (destruct k as [|k]; [reflexivity |]). lia.
Qed.

(** The countdown expires the dialog exactly when five minutes have
    passed since the QR code was issued.  Before that a tick only rewrites
    the time left, as two digits of minutes, a colon and two digits of
    seconds; from then on a tick shows 00:00 and runs the expiry, which
    sends nothing to the database. *)
Theorem countdown_expires_after_five_minutes (now : Z) (d : Dialog) :
  let elapsed := (now - lastQrGeneration d)%Z in
  ((0 <= elapsed < QR_EXPIRY_PERIOD)%Z ->
   core (countdown_tick now d) = core d /\
   String.length (timeLeft (countdown_tick now d)) = 5) /\
  ((QR_EXPIRY_PERIOD <= elapsed)%Z ->
   core (countdown_tick now d) = expire (core d) /\
   timeLeft (countdown_tick now d) = "00:00"%string /\
   status (core (countdown_tick now d)) = Error /\
   filter database_request (effects (core (countdown_tick now d))) =
   filter database_request (effects (core d))).
Proof.
  intros elapsed. subst elapsed. unfold countdown_tick, QR_EXPIRY_PERIOD. split.
  - intros Hearly.
    rewrite Z.max_r by lia.
    destruct (Z.leb_spec (5 * 60 * 1000 - (now - lastQrGeneration d)) 0); [lia |].
    cbn [core timeLeft setTimeLeft]. split; [reflexivity |].
    set (remaining := (5 * 60 * 1000 - (now - lastQrGeneration d))%Z) in *.
    assert (Hmin : (0 <= remaining / (60 * 1000) < 100)%Z).
    { split; [apply Z.div_pos; lia |].
      apply Z.div_lt_upper_bound; lia. }
    assert (Hsec : (0 <= remaining mod (60 * 1000) / 1000 < 100)%Z).
    { pose proof (Z.mod_pos_bound remaining (60 * 1000) ltac:(lia)).
      split; [apply Z.div_pos; lia |].
      apply Z.div_lt_upper_bound; lia. }
    rewrite clock_face_length.
    rewrite (padStart2_two_digits _ Hmin), (padStart2_two_digits _ Hsec).
    reflexivity.
  - intros Hlate.
    rewrite Z.max_l by lia.
    change (0 <=? 0)%Z with true. cbn [core timeLeft setTimeLeft with_core].
    split; [reflexivity |]. split; [reflexivity |].
    split; [apply expire_frame | apply expire_sends_nothing].
Qed.

End QrIssuanceFacts.

(** ** The order lookup dialog *)
Section OrderLookupFacts.

Import OrderLookup.

Variable env : Env.

Lemma searches_emit (e : Event) (s : State) :
  searches (emit e s) =
  searches s ++ match e with ESelectOrders k => [k] | _ => [] end.
Proof.
  unfold searches, emit. cbn [effects].
  rewrite flat_map_app. simpl. rewrite app_nil_r. reflexivity.
Qed.

(** What a submitted search does, whatever its outcome: one query, for
    the trimmed input without a leading S. *)
Lemma handleSubmit_searches (s : State) :
  String.eqb (trim env (orderId s)) "" = false ->
  searches (handleSubmit env s) =
  searches s ++ [strip_S (trim env (orderId s))] /\
  loading (handleSubmit env s) = false /\
  orderId (handleSubmit env s) = orderId s.
Proof.
  intros Hinput. unfold handleSubmit. rewrite Hinput.
  set (s2 := emit (ESelectOrders _) _).
  assert (H2 : searches s2 = searches s ++ [strip_S (trim env (orderId s))]).
  { subst s2. rewrite !searches_emit. simpl. rewrite app_nil_r. reflexivity. }
  assert (Hfail : forall s0, searches (search_failed s0) = searches s0).
  { intros s0. unfold search_failed.
    change (searches (emit (EConsoleError "Error searching order:") s0) = searches s0).
    rewrite searches_emit. apply app_nil_r. }
  assert (H3 : searches (emit (EConsoleLog "Query result:") s2) = searches s2).
  { rewrite searches_emit. apply app_nil_r. }
  destruct (select_orders env _) as [|data searchError].
  - rewrite Hfail, H2. repeat split.
  - destruct (Js.truthy searchError).
    + rewrite Hfail, H2. repeat split.
    + destruct data as [[|row [|another rest]]|].
      * split; [| split; reflexivity].
        change (searches (emit (EConsoleLog "Query result:") s2) = searches s ++ [strip_S (trim env (orderId s))]).
        rewrite H3. exact H2.
      * destruct (format_details env (order_data row)) as [details|].
        -- split; [| split; reflexivity].
           change (searches (emit (EConsoleLog "Query result:") s2) = searches s ++ [strip_S (trim env (orderId s))]).
           rewrite H3. exact H2.
        -- rewrite Hfail, H3, H2. repeat split.
      * split; [| split; reflexivity].
        change (searches (emit (EConsoleLog "Query result:") s2) = searches s ++ [strip_S (trim env (orderId s))]).
        rewrite H3. exact H2.
      * split; [| split; reflexivity].
        change (searches (emit (EConsoleLog "Query result:") s2) = searches s ++ [strip_S (trim env (orderId s))]).
        rewrite H3. exact H2.
Qed.



(** The order id the dialog displays leads back to the order: when the
    row's [orderId] is a text, the displayed id is that text behind an S,
    and submitting the displayed id, if trimming leaves it as it is,
    queries for the row's own [orderId]. *)
Theorem displayed_order_id_leads_back
    (s : State) (orderData : Js.value) (details : Details.t) (id : string) :
  format_details env orderData = Some details ->
  Js.get orderData "orderId" = Js.Got (Some (Js.Str id)) ->
  trim env (Details.orderId details) = Details.orderId details ->
  Details.orderId details = String "S" id /\
  searches (handleSubmit env (setOrderId (Details.orderId details) s)) =
  searches s ++ [id].
Proof.
  intros Hshown Hid Hclean.
  assert (Hdisplay : Details.orderId details = String "S" id).
  { unfold format_details in Hshown.
    destruct (Js.get orderData "transactionId"); [discriminate |].
    injection Hshown as <-. cbn [Details.orderId].
    unfold read. rewrite Hid. reflexivity. }
  split; [exact Hdisplay |].
  destruct (handleSubmit_searches (setOrderId (Details.orderId details) s))
    as (Hsearch & _).
  { cbn [orderId setOrderId]. rewrite Hclean, Hdisplay. reflexivity. }
  rewrite Hsearch. cbn [orderId setOrderId]. rewrite Hclean, Hdisplay.
  reflexivity.
Qed.

End OrderLookupFacts.

(** C6, at the input where it fails: the switch answers 403 with a body
    that is not JSON.  Decoding the body throws before the status is
    looked at, so the answer is handled as a failed attempt: it is retried
    until the budget is used up and the caller gets the 500 answer. *)
Theorem undecodable_client_error_is_retried :
  VerifyEndpoint.retried (FetchResponded 403 None) = true /\
  VerifyEndpoint.handler Scenario.forbidden_html Scenario.check_request =
  Some (VerifyEndpoint.failure_response VerifyEndpoint.exhausted_message,
        [ VerifyEndpoint.EFetchSwitch (Some (Js.Str "9f2c"));
          VerifyEndpoint.EAttemptFailed 1; VerifyEndpoint.ESleep 1000;
          VerifyEndpoint.EFetchSwitch (Some (Js.Str "9f2c"));
          VerifyEndpoint.EAttemptFailed 2; VerifyEndpoint.ESleep 1000;
          VerifyEndpoint.EFetchSwitch (Some (Js.Str "9f2c"));
          VerifyEndpoint.EAttemptFailed 3 ]).
Proof.
  split.
  - reflexivity.
  - unfold VerifyEndpoint.handler, Scenario.check_request. simpl.
    reflexivity.
Qed.

Lemma failure_answer_witness :
  exists answer done data,
    VerifyEndpoint.handler Scenario.unreachable Scenario.check_request =
      Some (answer, done) /\
    VerifyEndpoint.status answer = 500%Z /\
    VerifyEndpoint.payload answer = Some data /\
    Js.get data "responseCode" = Js.Got (Some (Js.Num 1)) /\
    forall s, PaymentModal.qrExpired s = false ->
      PaymentModal.verifyPayment (PaymentModal.AxiosResolved data) s =
      PaymentModal.emit (PaymentModal.EConsoleLog "Payment still pending for MD5:")
        (PaymentModal.emit
           (PaymentModal.EAxiosPost "/api/verify-payment" (PaymentModal.md5Hash s)) s).
Proof.
  apply (failure_answer_is_500_with_pending_code
           Scenario.unreachable Scenario.check_request).
  - reflexivity.
  - right. intros k _. reflexivity.
Defined.

(** C1, refuted as stated.  Two overlapping runs of the job both fulfil
    token 7: each selected it while it was unused, and the update that
    follows is not conditional on [used] or [status].  Both runs report it
    and the two notifications are sent twice. *)
Lemma overlapping_runs_fulfil_twice :
  exists resultsA resultsB w',
    Sweep.overlapping_runs Scenario.all_well Scenario.fresh_world =
      Some (resultsA, resultsB, w') /\
    Sweep.fulfilled_ids resultsA = [7%Z] /\
    Sweep.fulfilled_ids resultsB = [7%Z] /\
    List.length (Sweep.telegram_events (Sweep.log w')) = 4.
Proof.
  eexists _, _, _. split.
  - vm_compute. reflexivity.
  - repeat split.
Qed.

(** Two runs, one after the other, over the same store: the first fulfils
    token 7, the second finds nothing to check. *)
Lemma sequential_runs_witness :
  exists answers w',
    Sweep.handler_runs Scenario.all_well [5; 5] Scenario.fresh_world =
      Sweep.Finished (answers, w') /\
    map Sweep.reported answers = [[7%Z]; []] /\
    NoDup (List.concat (map Sweep.reported answers)) /\
    forall hash : string,
      List.length
        (filter (Sweep.carries hash (Sweep.store Scenario.fresh_world))
           (List.concat (map Sweep.reported answers))) <= 1.
Proof.
  eexists _, _. split; [vm_compute; reflexivity |].
  split; [reflexivity |].
  eapply (sequential_runs_fulfil_once Scenario.all_well [5; 5]
            Scenario.fresh_world).
  - simpl. constructor; [intros [] | constructor].
  - intros r1 r2 hash [<- | []] [<- | []] _ _. reflexivity.
  - vm_compute. reflexivity.
Defined.

(** Why the hypothesis on hashes is there: the job never compares the
    hashes of two rows.  With two rows for the payment [9f2c], one run
    fulfils both and notifies twice for the same payment. *)
Lemma rows_sharing_a_hash_are_each_fulfilled :
  exists answer w',
    Sweep.handler Scenario.all_well 5 "POST" Scenario.shared_hash_world =
      Sweep.Finished (answer, w') /\
    Sweep.reported answer = [7%Z; 8%Z] /\
    filter (Sweep.carries "9f2c" (Sweep.store Scenario.shared_hash_world))
      (Sweep.reported answer) = [7%Z; 8%Z] /\
    List.length (Sweep.telegram_events (Sweep.log w')) = 4.
Proof.
  eexists _, _. split; [vm_compute; reflexivity |]. repeat split.
Qed.

(** C8, at the input where it fails: a token is fulfilled while Telegram
    cannot be reached.  Both notifications are queued with [retryCount] 1;
    the drain then sends the first of them again on every iteration and
    never removes it, so the run of the job does not end however many
    iterations it is given: after [fuel] iterations the message has been
    sent [fuel] more times and is still at the head of the queue. *)
Theorem undelivered_head_is_retried_without_bound :
  forall fuel, exists w',
    Sweep.handler Scenario.telegram_down fuel "POST" Scenario.fresh_world =
      Sweep.OutOfFuel w' /\
    Sweep.is_used 7 (Sweep.store w') = true /\
    List.length (Sweep.telegram_events (Sweep.log w')) = 2 + fuel /\
    exists rest,
      Sweep.messageQueue w' =
      {| Sweep.chatId := "-100777"; Sweep.text := "12345 6789 86";
         Sweep.timestamp := 2000; Sweep.retryCount := 1 |} :: rest.
Proof.
  intros fuel. unfold Sweep.handler.
  change (negb (String.eqb "POST" "POST")) with false. cbv iota.
  set (sel := Sweep.sweep_select _ _). vm_compute in sel. subst sel. cbv iota beta.
  set (run := Sweep.process_tokens _ _ _). vm_compute in run. subst run.
  cbv iota beta. unfold Sweep.processMessageQueue.
  cbn [Sweep.isProcessingQueue Sweep.messageQueue List.length Nat.eqb orb].
  match goal with
  | |- context [Sweep.drain_loop _ fuel ?w] =>
    destruct (drain_loop_stuck Scenario.telegram_down
                (fun k => ltac:(discriminate)) fuel w _ _ eq_refl)
      as (w' & Hrun & Hs & Hhead & Hcount)
  end.
  - unfold Sweep.MAX_RETRIES. simpl. lia.
  - rewrite Hrun. exists w'. split; [reflexivity |].
    split; [rewrite Hs; reflexivity |]. split; [exact Hcount | exact Hhead].
Qed.

(** C2, refuted as stated.  The switch confirms the settlement and the
    dialog shows success, yet the live path has made no request to the
    token store: the endpoint made one request, to the switch, and the
    dialog one, to the endpoint. *)
Lemma live_confirmation_never_reaches_store :
  exists s' done,
    PaymentModal.live_tick (fun _ => Scenario.settled_answer)
      Scenario.polling_dialog = Some (s', done) /\
    PaymentModal.status s' = PaymentModal.Success /\
    existsb PaymentModal.database_request (PaymentModal.effects s') = false /\
    PaymentModal.effects s' = [PaymentModal.EAxiosPost "/api/verify-payment" "9f2c"] /\
    done = [VerifyEndpoint.EFetchSwitch (Some (Js.Str "9f2c"))].
Proof.
  eexists _, _. split.
  - vm_compute. reflexivity.
  - repeat split.
Qed.

(** The confirmation arrives at the endpoint's second attempt. *)
Lemma live_confirmation_witness :
  exists s' done,
    PaymentModal.live_tick Scenario.second_try_settles Scenario.polling_dialog =
      Some (s', done) /\
    VerifyEndpoint.fetches done = 2 /\
    PaymentModal.status s' = PaymentModal.Success /\
    PaymentModal.showSuccessAnimation s' = true /\
    PaymentModal.timers s' = PaymentModal.no_timers /\
    PaymentModal.effects s' = [PaymentModal.EAxiosPost "/api/verify-payment" "9f2c"] /\
    filter PaymentModal.database_request (PaymentModal.effects s') = [].
Proof.
  destruct (live_confirmation_only_updates_dialog
              Scenario.second_try_settles Scenario.polling_dialog
              1 200 (Js.Obj [("responseCode", Js.Num 0)]%string) (Some (Js.Num 0)))
    as (s' & done & Hrun & Hcount & Hstatus & Hshow & Htimers & Heffects & Hquiet & _).
  - reflexivity.
  - unfold VerifyEndpoint.maxAttempts. lia.
  - intros j Hj. assert (j = 0) as -> by lia. reflexivity.
  - reflexivity.
  - reflexivity.
  - reflexivity.
  - reflexivity.
  - exists s', done. split; [exact Hrun |]. split; [exact Hcount |].
    split; [exact Hstatus |]. split; [exact Hshow |]. split; [exact Htimers |].
    split; [exact Heffects | exact Hquiet].
Defined.

(** C4, refuted as stated.  The switch answers with [responseCode] 2:
    polling stops and the dialog shows an error, but no request has gone to
    the token store, so the token's status is what it was. *)
Lemma refused_tick_leaves_token_alone :
  exists s' done,
    PaymentModal.live_tick (fun _ => Scenario.refused_answer)
      Scenario.polling_dialog = Some (s', done) /\
    PaymentModal.status s' = PaymentModal.Error /\
    PaymentModal.polling s' = false /\
    existsb PaymentModal.database_request (PaymentModal.effects s') = false /\
    PaymentModal.effects s' = [PaymentModal.EAxiosPost "/api/verify-payment" "9f2c"] /\
    done = [VerifyEndpoint.EFetchSwitch (Some (Js.Str "9f2c"))].
Proof.
  eexists _, _. split.
  - vm_compute. reflexivity.
  - repeat split.
Qed.

Lemma poll_answer_witness :
  PaymentModal.qrExpired Scenario.polling_dialog = false /\
  Js.get (Js.Obj [("responseCode", Js.Num 2)]%string) "responseCode" =
    Js.Got (Some (Js.Num 2)) /\
  filter PaymentModal.database_request
    (PaymentModal.effects
       (PaymentModal.verifyPayment
          (PaymentModal.AxiosResolved (Js.Obj [("responseCode", Js.Num 2)]%string))
          Scenario.polling_dialog)) =
  filter PaymentModal.database_request (PaymentModal.effects Scenario.polling_dialog).
Proof.
  split; [reflexivity |]. split; [reflexivity |].
  exact (proj1 (proj2 (proj2 (proj2
           (poll_answer_is_tri_state
              (Js.Obj [("responseCode", Js.Num 2)]%string) (Some (Js.Num 2))
              Scenario.polling_dialog eq_refl eq_refl))))).
Defined.

(** C5, refuted as stated.  One request of the polling dialog fails in
    transit: the dialog's status is error, the poll interval is cleared and
    will not be installed again.  The same happens when the dialog's
    request is answered but the endpoint could not reach the switch. *)
Lemma transport_error_ends_polling :
  PaymentModal.polling Scenario.polling_dialog = true /\
  PaymentModal.status
    (PaymentModal.verifyPayment PaymentModal.AxiosRejected Scenario.polling_dialog)
  = PaymentModal.Error /\
  PaymentModal.polling
    (PaymentModal.verifyPayment PaymentModal.AxiosRejected Scenario.polling_dialog)
  = false /\
  PaymentModal.poll_effect_armed
    (PaymentModal.verifyPayment PaymentModal.AxiosRejected Scenario.polling_dialog)
  = false /\
  exists s' done,
    PaymentModal.live_tick Scenario.unreachable Scenario.polling_dialog =
      Some (s', done) /\
    PaymentModal.status s' = PaymentModal.Error /\
    PaymentModal.polling s' = false.
Proof.
  repeat split. eexists _, _. split.
  - vm_compute. reflexivity.
  - split; reflexivity.
Qed.

Lemma failed_request_witness :
  PaymentModal.qrExpired Scenario.polling_dialog = false /\
  PaymentModal.status
    (PaymentModal.verifyPayment PaymentModal.AxiosRejected Scenario.polling_dialog)
  = PaymentModal.Error /\
  PaymentModal.timers
    (PaymentModal.verifyPayment PaymentModal.AxiosRejected Scenario.polling_dialog)
  = PaymentModal.no_timers.
Proof.
  split; [reflexivity |].
  pose proof (failed_request_stops_polling Scenario.polling_dialog eq_refl)
    as (Hstatus & _ & Htimers & _).
  split; [exact Hstatus | exact Htimers].
Defined.

(** The spec's own example for C7: the buyer was shown 10.00 and the
    catalog now says 12.00. *)
Lemma changed_price_witness :
  PaymentModal.current_price (Scenario.shop 12 false None) Scenario.order_at_ten
    = Some 12%float /\
  PaymentModal.price_changed 12 Scenario.order_at_ten = true /\
  fst (PaymentModal.storePayment (Scenario.shop 12 false None)
         Scenario.order_at_ten "9f2c" Scenario.polling_dialog) = None /\
  filter PaymentModal.creates_token
    (PaymentModal.effects
       (snd (PaymentModal.storePayment (Scenario.shop 12 false None)
               Scenario.order_at_ten "9f2c" Scenario.polling_dialog))) = [].
Proof.
  split; [reflexivity |]. split; [reflexivity |].
  pose proof (changed_price_refuses_storage (Scenario.shop 12 false None)
                Scenario.order_at_ten "9f2c" Scenario.polling_dialog 12
                eq_refl eq_refl) as (Hnull & _ & _ & Hnone).
  split; [exact Hnull | exact Hnone].
Defined.

(** C7, refuted as stated.  The buyer was shown 8.49 (12.67 less 33
    percent); the price read back is 12.69, which with the discount
    applied is 8.5023, more than 0.01 away from 8.49.  The code compares
    after rounding to cents, finds 8.50 against 8.49, and stores the
    payment. *)
Lemma unrounded_deviation_is_stored :
  PaymentModal.finalAmount Scenario.discounted_order = 8.49%float /\
  PaymentModal.current_price (Scenario.shop 12.69 false None)
    Scenario.discounted_order = Some 12.69%float /\
  PrimFloat.ltb 0.01
    (PrimFloat.abs
       (PrimFloat.sub
          (PrimFloat.div (PrimFloat.mul 12.69 (PrimFloat.sub 100 33)) 100)
          (PaymentModal.finalAmount Scenario.discounted_order))) = true /\
  PaymentModal.expectedFinalAmount 12.69 Scenario.discounted_order = 8.5%float /\
  fst (PaymentModal.storePayment (Scenario.shop 12.69 false None)
         Scenario.discounted_order "9f2c" Scenario.polling_dialog) =
    Some "tok-1"%string /\
  List.length
    (filter PaymentModal.creates_token
       (PaymentModal.effects
          (snd (PaymentModal.storePayment (Scenario.shop 12.69 false None)
                  Scenario.discounted_order "9f2c" Scenario.polling_dialog)))) = 1.
Proof. repeat split. Qed.

(** With the price unchanged the same order is stored: the check does not
    refuse everything. *)
Lemma unchanged_price_is_stored :
  PaymentModal.price_changed 10 Scenario.order_at_ten = false /\
  fst (PaymentModal.storePayment (Scenario.shop 10 false None)
         Scenario.order_at_ten "9f2c" Scenario.polling_dialog) = Some "tok-1"%string /\
  List.length
    (filter PaymentModal.creates_token
       (PaymentModal.effects
          (snd (PaymentModal.storePayment (Scenario.shop 10 false None)
                  Scenario.order_at_ten "9f2c" Scenario.polling_dialog)))) = 1.
Proof. repeat split. Qed.

(** A reseller is checked against the override price: shown 10.00 from a
    catalog that still says 10.00, the order is refused once the override
    is 9.00. *)
Lemma reseller_override_is_checked :
  PaymentModal.current_price (Scenario.shop 10 true (Some 9%float))
    Scenario.order_at_ten = Some 9%float /\
  fst (PaymentModal.storePayment (Scenario.shop 10 true (Some 9%float))
         Scenario.order_at_ten "9f2c" Scenario.polling_dialog) = None.
Proof. split; reflexivity. Qed.

(** The scenario of C3: settled on the first check, pending on the second.
    The run ends with no result, the token unused and nothing sent. *)
Lemma flaky_switch_fulfils_nothing :
  exists w',
    Sweep.handler Scenario.flaky_switch 5 "POST" Scenario.fresh_world =
      Sweep.Finished
        ({| Sweep.http_status := 200;
            Sweep.body := Sweep.BCompleted "Payment check completed" [] |}, w') /\
    Sweep.store w' = [Scenario.token7] /\
    Sweep.telegram_events (Sweep.log w') = [].
Proof.
  eexists. split.
  - vm_compute. reflexivity.
  - split; reflexivity.
Qed.

(** The scenario of C9 with a store that refuses the update: nothing is
    sent and the token is selected again by the next run. *)
Lemma refused_update_sends_nothing :
  exists answer w',
    Sweep.handler Scenario.store_refuses 5 "POST" Scenario.fresh_world =
      Sweep.Finished (answer, w') /\
    Sweep.reported answer = [] /\
    Sweep.telegram_events (Sweep.log w') = [] /\
    Sweep.select_pending 0 (Sweep.store w') = [Scenario.token7].
Proof.
  eexists _, _. split.
  - vm_compute. reflexivity.
  - repeat split.
Qed.

Lemma decodable_client_error_witness :
  exists log,
    VerifyEndpoint.handler
      (fun k => if k =? 1
                then FetchResponded 404 (Some (Js.Obj [("errorCode", Js.Num 3)]%string))
                else FetchRejected)
      Scenario.check_request =
    Some (VerifyEndpoint.json_response 404 (Js.Obj [("errorCode", Js.Num 3)]%string), log) /\
    VerifyEndpoint.fetches log = 2.
Proof.
  apply (decodable_client_error_is_final
           (fun k => if k =? 1
                     then FetchResponded 404 (Some (Js.Obj [("errorCode", Js.Num 3)]%string))
                     else FetchRejected)
           Scenario.check_request (Some (Js.Str "9f2c")) 1 404
           (Js.Obj [("errorCode", Js.Num 3)]%string)).
  - reflexivity.
  - reflexivity.
  - unfold VerifyEndpoint.maxAttempts. lia.
  - intros j Hj. assert (j = 0) as -> by lia. reflexivity.
  - reflexivity.
  - reflexivity.
Defined.

Lemma settled_twice_witness :
  exists res,
    fst (Sweep.process_token Scenario.all_well Scenario.token7 Scenario.fresh_world)
      = Some res /\
    Sweep.tokenId res = 7%Z /\ Sweep.verified res = true /\
    Sweep.store
      (snd (Sweep.process_token Scenario.all_well Scenario.token7 Scenario.fresh_world))
    = Sweep.mark_used 7 [Scenario.token7].
Proof.
  apply (settled_twice_is_fulfilled Scenario.all_well Scenario.token7
           Scenario.fresh_world "9f2c"); reflexivity.
Defined.

Lemma acknowledged_drain_witness :
  exists w',
    Sweep.processMessageQueue Scenario.all_well 2 Scenario.two_queued =
      Sweep.Finished w' /\
    Sweep.messageQueue w' = [] /\
    Sweep.isProcessingQueue w' = false /\
    Sweep.telegram_events (Sweep.log w') =
    [Sweep.ETelegram "-100777" "first"; Sweep.ETelegram "-1002399561845" "second"].
Proof.
  apply (acknowledged_drain_is_fifo Scenario.all_well 2 Scenario.two_queued).
  - intros k. reflexivity.
  - reflexivity.
  - simpl. lia.
Defined.

(** Telegram is down and the drain is three iterations in: the flag is
    held, and a second call returns at once. *)
Lemma single_flight_witness :
  match Sweep.processMessageQueue Scenario.telegram_down 3 Scenario.two_queued with
  | Sweep.OutOfFuel busy =>
    Sweep.isProcessingQueue busy = true /\
    forall again,
      Sweep.processMessageQueue Scenario.telegram_down again busy =
      Sweep.Finished busy
  | Sweep.Finished w' => Sweep.isProcessingQueue w' = false
  end.
Proof.
  apply (drain_is_single_flight Scenario.telegram_down 3 Scenario.two_queued).
  reflexivity.
Defined.

(** ** The further properties at concrete inputs *)

(** A number the switch sent too large for binary64 reaches the caller
    as [null]. *)
Lemma ok_answer_witness :
  exists log,
    VerifyEndpoint.handler Scenario.overflowing_answer Scenario.check_request =
    Some (VerifyEndpoint.json_response 200
            (Js.Obj [("responseCode", Js.Null); ("error", Js.Null)]%string), log) /\
    VerifyEndpoint.fetches log = 2.
Proof.
  apply (ok_answer_is_relayed_as_200 Scenario.overflowing_answer
           Scenario.check_request (Some (Js.Str "9f2c")) 1 200
           (Js.Obj [("responseCode", Js.Num infinity);
                    ("error", Js.Num infinity)]%string)).
  - reflexivity.
  - reflexivity.
  - unfold VerifyEndpoint.maxAttempts. lia.
  - intros j Hj. assert (j = 0) as -> by lia. reflexivity.
  - reflexivity.
  - reflexivity.
Defined.

Lemma answer_origin_witness :
  exists answer log,
    VerifyEndpoint.handler Scenario.second_try_settles Scenario.check_request =
      Some (answer, log) /\
    VerifyEndpoint.fetches log = 2 /\
    VerifyEndpoint.method Scenario.check_request = "POST"%string /\
    (forall j, j < 1 ->
       VerifyEndpoint.retried (Scenario.second_try_settles j) = true).
Proof.
  eexists _, _. split; [reflexivity |]. split; [reflexivity |].
  pose proof (endpoint_answer_origin Scenario.second_try_settles
                Scenario.check_request _ _ eq_refl) as Horigin.
  destruct Horigin as (Hpost & Hretried & _).
  split; [exact Hpost | exact Hretried].
Defined.

Lemma each_channel_witness :
  fst (Sweep.process_token Scenario.telegram_down Scenario.token7
         Scenario.fresh_world) =
    Some {| Sweep.tokenId := 7; Sweep.verified := true;
            Sweep.mainGroupSent := false; Sweep.ordersGroupSent := false |} /\
  Sweep.store
    (snd (Sweep.process_token Scenario.telegram_down Scenario.token7
            Scenario.fresh_world)) = Sweep.mark_used 7 [Scenario.token7] /\
  Sweep.messageQueue
    (snd (Sweep.process_token Scenario.telegram_down Scenario.token7
            Scenario.fresh_world)) =
  [ {| Sweep.chatId := "-100777"; Sweep.text := "12345 6789 86";
       Sweep.timestamp := 2000; Sweep.retryCount := 1 |};
    {| Sweep.chatId := "-1002399561845"; Sweep.text := "Top up successful";
       Sweep.timestamp := 2000; Sweep.retryCount := 1 |} ].
Proof.
  exact (fulfilment_reports_each_channel Scenario.telegram_down Scenario.token7
           Scenario.fresh_world "9f2c" eq_refl eq_refl eq_refl eq_refl eq_refl).
Defined.

Lemma marked_rows_witness :
  exists answer w',
    Sweep.handler Scenario.all_well 5 "POST" Scenario.fresh_world =
      Sweep.Finished (answer, w') /\
    Sweep.reported answer = [7%Z] /\
    Sweep.store w' =
    Sweep.mark_all_used (Sweep.reported answer) (Sweep.store Scenario.fresh_world).
Proof.
  eexists _, _. split; [vm_compute; reflexivity |]. split; [reflexivity |].
  match goal with
  | |- Sweep.store ?w' = Sweep.mark_all_used (Sweep.reported ?answer) _ =>
    exact (proj1 (run_marks_exactly_the_reported Scenario.all_well 5
                    Scenario.fresh_world w' answer eq_refl))
  end.
Defined.

Lemma job_status_witness :
  exists answer w',
    Sweep.handler Scenario.all_well 5 "POST" Scenario.fresh_world =
      Sweep.Finished (answer, w') /\
    (Sweep.http_status answer = 405%Z \/ Sweep.http_status answer = 500%Z \/
     Sweep.http_status answer = 200%Z).
Proof.
  let run :=
    eval vm_compute in
      (Sweep.handler Scenario.all_well 5 "POST" Scenario.fresh_world) in
  match run with
  | Sweep.Finished (?answer, ?w') =>
    exists answer, w'; split; [vm_compute; reflexivity |];
    exact (proj2 (proj2 (job_fails_only_when_select_fails Scenario.all_well 5
                           "POST" Scenario.fresh_world w' answer eq_refl)))
  end.
Defined.

Lemma spent_messages_witness :
  exists w',
    Sweep.processMessageQueue Scenario.telegram_down 2 Scenario.spent_queue =
      Sweep.Finished w' /\
    Sweep.messageQueue w' = [] /\
    Sweep.isProcessingQueue w' = false /\
    Sweep.telegram_events (Sweep.log w') =
    [Sweep.ETelegram "-100777" "first"; Sweep.ETelegram "-1002399561845" "second"].
Proof.
  apply (spent_messages_are_sent_once_and_dropped Scenario.telegram_down 2
           Scenario.spent_queue).
  - reflexivity.
  - intros m [<- | [<- | []]]; unfold Sweep.MAX_RETRIES; simpl; lia.
  - simpl. lia.
Defined.

Lemma pending_snapshot_witness :
  exists info,
    filter PaymentModal.creates_token
      (PaymentModal.effects
         (snd (PaymentModal.storePayment (Scenario.shop 10 false None)
                 Scenario.order_at_ten "9f2c" Scenario.polling_dialog))) =
    [PaymentModal.ERpcCreatePaymentToken "9f2c" "pending" info] /\
    PaymentModal.amount info = 10%float /\
    PaymentModal.transaction_id info = "tb123456"%string /\
    PaymentModal.status
      (snd (PaymentModal.storePayment (Scenario.shop 10 false None)
              Scenario.order_at_ten "9f2c" Scenario.polling_dialog)) =
    PaymentModal.Checking.
Proof.
  exact (stored_payment_is_a_pending_snapshot (Scenario.shop 10 false None)
           Scenario.order_at_ten "9f2c" Scenario.polling_dialog "tok-1" eq_refl).
Defined.

Lemma unstored_payment_witness :
  PaymentModal.status
    (snd (PaymentModal.storePayment (Scenario.shop 12 false None)
            Scenario.order_at_ten "9f2c" Scenario.polling_dialog)) =
    PaymentModal.Error /\
  PaymentModal.poll_effect_armed
    (snd (PaymentModal.storePayment (Scenario.shop 12 false None)
            Scenario.order_at_ten "9f2c" Scenario.polling_dialog)) = false.
Proof.
  destruct (unstored_payment_stops_polling (Scenario.shop 12 false None)
              Scenario.order_at_ten "9f2c" Scenario.polling_dialog eq_refl)
    as (Herror & Hquiet & _).
  split; [exact Herror | exact Hquiet].
Defined.

(** The dialog reads what the endpoint wrote: where the switch sent
    numbers too large for binary64 it finds [null], so that it neither
    takes the answer for a confirmation nor shows the number as the
    message. *)
Lemma first_ok_answer_witness :
  exists done,
    PaymentModal.live_tick Scenario.overflowing_answer Scenario.polling_dialog =
    Some (PaymentModal.verifyPayment
            (PaymentModal.AxiosResolved
               (Js.Obj [("responseCode", Js.Null); ("error", Js.Null)]%string))
            Scenario.polling_dialog, done) /\
    VerifyEndpoint.fetches done = 2.
Proof.
  apply (live_tick_shows_first_ok_answer Scenario.overflowing_answer
           Scenario.polling_dialog 1 200
           (Js.Obj [("responseCode", Js.Num infinity);
                    ("error", Js.Num infinity)]%string)).
  - reflexivity.
  - unfold VerifyEndpoint.maxAttempts. lia.
  - intros j Hj. assert (j = 0) as -> by lia. reflexivity.
  - reflexivity.
  - reflexivity.
Defined.

Lemma unreachable_switch_witness :
  exists s' done,
    PaymentModal.live_tick Scenario.unreachable Scenario.polling_dialog =
      Some (s', done) /\
    PaymentModal.status s' = PaymentModal.Error /\
    PaymentModal.errorMessage s' = Js.Str PaymentModal.poll_failed_message /\
    PaymentModal.polling s' = false /\
    PaymentModal.poll_effect_armed s' = false.
Proof.
  apply (live_tick_without_ok_answer_ends_polling Scenario.unreachable
           Scenario.polling_dialog).
  - reflexivity.
  - left. intros k _. reflexivity.
Defined.

Lemma expiry_after_confirmation_witness :
  PaymentModal.status
    (PaymentModal.expire
       (PaymentModal.verifyPayment
          (PaymentModal.AxiosResolved (Js.Obj [("responseCode", Js.Num 0)]%string))
          Scenario.polling_dialog)) = PaymentModal.Error.
Proof.
  destruct (expiry_overrides_a_confirmed_payment Scenario.polling_dialog
              (Js.Obj [("responseCode", Js.Num 0)]%string) (Some (Js.Num 0))
              PaymentModal.AxiosRejected eq_refl eq_refl eq_refl eq_refl)
    as (_ & _ & Hexpired & _).
  exact Hexpired.
Defined.

Lemma waiting_dialog_witness :
  QrIssuance.qrCode (QrIssuance.life Scenario.issuance) <> ""%string /\
  exists info,
    QrIssuance.token_creations (QrIssuance.life Scenario.issuance) =
    [PaymentModal.ERpcCreatePaymentToken "9f2c" "pending" info].
Proof.
  apply (waiting_dialog_has_stored_its_payment Scenario.issuance).
  - vm_compute. reflexivity.
  - vm_compute. reflexivity.
Defined.

Lemma cooldown_witness :
  QrIssuance.qrCooldown
    (QrIssuance.life (Scenario.issuance ++ Scenario.aftermath)) = 0%Z.
Proof.
  apply (cooldown_never_starts (Scenario.issuance ++ Scenario.aftermath)).
  unfold Scenario.issuance, Scenario.aftermath. cbn [app].
  repeat (apply Forall_cons;
          [first [exact I
                 | unfold QrIssuance.after_1970, QrIssuance.QR_COOLDOWN_PERIOD; lia] |]).
  apply Forall_nil.
Defined.

Lemma issued_qr_witness :
  QrIssuance.qrCode (QrIssuance.life (Scenario.issuance ++ Scenario.aftermath)) =
    "data:image/png;base64,iVBOR"%string /\
  PaymentModal.md5Hash
    (QrIssuance.core (QrIssuance.life (Scenario.issuance ++ Scenario.aftermath))) =
    "9f2c"%string /\
  QrIssuance.lastQrGeneration
    (QrIssuance.life (Scenario.issuance ++ Scenario.aftermath)) =
    1742562960620%Z /\
  QrIssuance.khqr_requests
    (QrIssuance.life (Scenario.issuance ++ Scenario.aftermath)) = [10%float].
Proof.
  apply (issued_qr_is_final Scenario.issuance Scenario.aftermath).
  vm_compute. discriminate.
Defined.

Lemma failed_request_repeats_witness :
  PaymentModal.status (QrIssuance.core Scenario.failed_request) =
    PaymentModal.Error /\
  QrIssuance.qrCode Scenario.failed_request = ""%string /\
  QrIssuance.flight Scenario.failed_request = None /\
  QrIssuance.khqr_requests Scenario.failed_request = [10%float] /\
  QrIssuance.token_creations Scenario.failed_request = [] /\
  QrIssuance.blocked Scenario.order_at_ten Scenario.failed_request = false.
Proof.
  apply (failed_qr_request_can_be_repeated Scenario.order_at_ten 1742562960620 4
           (QrIssuance.KhqrFailed None)
           (QrIssuance.handleContinue QrIssuance.opened)).
  - vm_compute. reflexivity.
  - vm_compute. discriminate.
  - reflexivity.
Defined.



Lemma displayed_order_id_witness :
  exists details,
    OrderLookup.orderDetails
      (OrderLookup.handleSubmit Scenario.order_desk Scenario.typed_order_id) =
      Some details /\
    OrderLookup.Details.orderId details = "S1742562960620"%string /\
    OrderLookup.searches
      (OrderLookup.handleSubmit Scenario.order_desk
         (OrderLookup.setOrderId (OrderLookup.Details.orderId details)
            OrderLookup.opened)) = ["1742562960620"%string].
Proof.
  eexists. split; [vm_compute; reflexivity |].
  apply (displayed_order_id_leads_back Scenario.order_desk OrderLookup.opened
           (OrderLookup.order_data Scenario.order_row) _ "1742562960620").
  - reflexivity.
  - reflexivity.
  - reflexivity.
Defined.
